(** * Universal File Converter: dispatch and orchestration layer

  A shallow embedding of the Python sources
  - [src/utils/file_utils.py]      ([get_file_type], [get_output_path]),
  - [src/converters/*.py]          (the four [convert] entry points),
  - [src/main.py]                  ([ConversionWorker.run],
                                    [FileConverterApp.get_converter_for_format]),
  together with the properties of the orchestration contract.

  Conventions.  Python [str] values are Rocq strings whose characters are
  code points below 256.  [os.path] is [posixpath].  Python sets are
  [gset string], Python lists are lists, the keyword dictionary
  [**options] is a [gmap string pyval].  Code that talks to the file system
  or to a third-party library runs in a monad that threads the file system,
  propagates exceptions and collects the events it produces. *)

From Stdlib Require Import ZArith String Ascii DecimalString Sorted.
From Stdlib Require Import SpecFloat.
From stdpp Require Import base gmap strings list.

(** ** Python string methods *)

Module PyStr.

(** [str.lower] on one code point below 256: A-Z and the Latin-1 capitals
    (excluding the multiplication sign) move up by 32. *)
Definition lower_char (c : ascii) : ascii :=
  let n := N_of_ascii c in
  if ((65 <=? n) && (n <=? 90) || (192 <=? n) && (n <=? 222) && negb (n =? 215))%N
  then ascii_of_N (n + 32) else c.

Fixpoint lower (s : string) : string :=
  match s with
  | EmptyString => EmptyString
  | String c s' => String (lower_char c) (lower s')
  end.

(** [str.upper] on A-Z and a-z; the callers apply it to validated
    extensions only, which are ASCII. *)
Definition upper_char (c : ascii) : ascii :=
  let n := N_of_ascii c in
  if ((97 <=? n) && (n <=? 122))%N then ascii_of_N (n - 32) else c.

Fixpoint upper (s : string) : string :=
  match s with
  | EmptyString => EmptyString
  | String c s' => String (upper_char c) (upper s')
  end.

(** [s.replace(old, new)] for a one-character [old]: every occurrence of
    [old] becomes [new]. *)
Fixpoint replace (old : ascii) (new : string) (s : string) : string :=
  match s with
  | EmptyString => EmptyString
  | String a s' =>
      if Ascii.eqb a old then new +:+ replace old new s'
      else String a (replace old new s')
  end.

(** [s.rfind(c)]: highest index of [c] in [s], or [-1]. *)
Fixpoint rfind (c : ascii) (s : string) : Z :=
  match s with
  | EmptyString => (-1)%Z
  | String a s' =>
      let r := rfind c s' in
      if (0 <=? r)%Z then (r + 1)%Z else if Ascii.eqb a c then 0%Z else (-1)%Z
  end.

(** [s[:n]] and [s[n:]] for [n >= 0]. *)
Fixpoint take (n : nat) (s : string) : string :=
  match n, s with
  | S n', String a s' => String a (take n' s')
  | _, _ => EmptyString
  end.

Fixpoint drop (n : nat) (s : string) : string :=
  match n, s with
  | S n', String _ s' => drop n' s'
  | _, _ => s
  end.

Definition slice_to (i : Z) (s : string) : string := take (Z.to_nat i) s.
Definition slice_from (i : Z) (s : string) : string := drop (Z.to_nat i) s.
Definition slice (i j : Z) (s : string) : string := slice_from i (slice_to j s).

Definition startswith (s p : string) : bool := String.prefix p s.

(** [c in s] for a one-character [c]. *)
Fixpoint contains (c : ascii) (s : string) : bool :=
  match s with
  | EmptyString => false
  | String a s' => Ascii.eqb a c || contains c s'
  end.

Fixpoint endswith (s suf : string) : bool :=
  String.eqb s suf ||
  match s with
  | EmptyString => false
  | String _ s' => endswith s' suf
  end.

(** [str.strip()]: white space, among the code points below 256, is
    TAB to CR, FS to US, the space, NEL and the no-break space. *)
Definition is_space (c : ascii) : bool :=
  let n := N_of_ascii c in
  ((9 <=? n) && (n <=? 13) || (28 <=? n) && (n <=? 32) || (n =? 133) || (n =? 160))%N.

Fixpoint lstrip (s : string) : string :=
  match s with
  | EmptyString => EmptyString
  | String a s' => if is_space a then lstrip s' else s
  end.

Fixpoint rstrip (s : string) : string :=
  match s with
  | EmptyString => EmptyString
  | String a s' =>
      match rstrip s' with
      | EmptyString => if is_space a then EmptyString else String a EmptyString
      | r => String a r
      end
  end.

Definition strip (s : string) : string := rstrip (lstrip s).

(** [str(n)] for a non-negative integer. *)
Definition str_of_nat (n : nat) : string :=
  NilEmpty.string_of_uint (Nat.to_uint n).

End PyStr.

(** ** [posixpath] *)

Module posixpath.
Import PyStr.

Definition basename (p : string) : string :=
  let i := (rfind "/" p + 1)%Z in
  slice_from i p.

(** The [while] loop of [genericpath._splitext]: walk over
    [p[sepIndex+1:dotIndex]] and stop at the first character that is not a
    dot. [true] means the loop returned from inside. *)
Fixpoint skip_leading_dots (s : string) : bool :=
  match s with
  | EmptyString => false
  | String a s' => if Ascii.eqb a "." then skip_leading_dots s' else true
  end.

Definition splitext (p : string) : string * string :=
  let sepIndex := rfind "/" p in
  let dotIndex := rfind "." p in
  if (sepIndex <? dotIndex)%Z && skip_leading_dots (slice (sepIndex + 1)%Z dotIndex p)
  then (slice_to dotIndex p, slice_from dotIndex p)
  else (p, EmptyString).

(** [os.path.join(a, b)] with one extra component. *)
Definition join (a b : string) : string :=
  if startswith b "/" then b
  else if String.eqb a "" || endswith a "/" then a +:+ b
  else a +:+ "/" +:+ b.

(** [head.rstrip('/')]: the empty string when [head] is made of slashes only. *)
Fixpoint rstrip_sep (s : string) : string :=
  match s with
  | EmptyString => EmptyString
  | String a s' =>
      match rstrip_sep s' with
      | EmptyString => if Ascii.eqb a "/" then EmptyString else String a EmptyString
      | r => String a r
      end
  end.

(** [if head and head != sep*len(head): head = head.rstrip(sep)] *)
Definition dirname (p : string) : string :=
  let i := (rfind "/" p + 1)%Z in
  let head := slice_to i p in
  match rstrip_sep head with
  | EmptyString => head
  | r => r
  end.

End posixpath.

(** ** Python values, exceptions and effects *)

#[warnings="-register-all"] Inductive pyval :=
| VNone
| VBool (b : bool)
| VInt (z : Z)
| VStr (s : string)
| VList (l : list pyval)
| VDict (d : list (string * pyval)).

(** Truth value of an object, as [if v:] and [not v] use it. *)
Definition truthy (v : pyval) : bool :=
  match v with
  | VNone => false
  | VBool b => b
  | VInt z => negb (z =? 0)%Z
  | VStr s => negb (String.eqb s "")
  | VList l => match l with [] => false | _ => true end
  | VDict d => match d with [] => false | _ => true end
  end.

(** [v == s] against a string literal. *)
Definition eq_str (v : pyval) (s : string) : bool :=
  match v with
  | VStr t => String.eqb t s
  | _ => false
  end.

(** [v != n] against an integer literal. *)
Definition ne_int (v : pyval) (n : Z) : bool :=
  match v with
  | VInt z => negb (z =? n)%Z
  | VBool b => negb ((if b then 1 else 0) =? n)%Z
  | _ => true
  end.

Record exn := Exception { exn_type : string; exn_msg : string }.

Inductive outcome (A : Type) :=
| Ret (a : A)
| Raise (e : exn).
Arguments Ret {A} a.
Arguments Raise {A} e.

(** A call that leaves the program: function name, positional and keyword
    arguments. *)
Record call := Call { fn : string; args : list pyval; kwargs : list (string * pyval) }.

(** What a run leaves behind: read-only questions to the standard library
    ([os.path.exists], [mimetypes], [imghdr]), calls into a delegate (a
    third-party library, a subprocess, [os.rename], a method of an object
    such a call returned) with their outcome, and log records. *)
Inductive event :=
| Query (c : call)
| Delegate (c : call) (r : outcome pyval)
| Log (level msg : string).

(** The file system: what a path names, and what a regular file holds. *)
Inductive node :=
| Directory
| RegularFile (readable : bool) (content : string).

Abbreviation filesystem := (gmap string node).

(** Computations over a state [S] (the file system) that may raise and that
    emit events of type [E]. An exception keeps the state changes and the
    events made before it, as in Python. *)
Definition M (S E A : Type) : Type := S → outcome A * S * list E.

Definition ret {S E A} (a : A) : M S E A := λ s, (Ret a, s, []).

Definition raise {S E A} (e : exn) : M S E A := λ s, (Raise e, s, []).

Definition bind {S E A B} (m : M S E A) (k : A → M S E B) : M S E B :=
  λ s,
    match m s with
    | (Ret a, s1, ev1) =>
        match k a s1 with
        | (r, s2, ev2) => (r, s2, ev1 ++ ev2)
        end
    | (Raise e, s1, ev1) => (Raise e, s1, ev1)
    end.

(** [try: body / except Exception as e: handler e] *)
Definition try_except {S E A} (body : M S E A) (handler : exn → M S E A) : M S E A :=
  λ s,
    match body s with
    | (Ret a, s1, ev1) => (Ret a, s1, ev1)
    | (Raise e, s1, ev1) =>
        match handler e s1 with
        | (r, s2, ev2) => (r, s2, ev1 ++ ev2)
        end
    end.

(** A pure expression that may raise. *)
Definition of_outcome {S E A} (r : outcome A) : M S E A := λ s, (r, s, []).

#[global] Instance M_ret {S E} : MRet (M S E) := λ A, @ret S E A.
#[global] Instance M_bind {S E} : MBind (M S E) := λ A B k m, @bind S E A B m k.

(** [for x in l: body x] *)
Fixpoint for_each {S E A} (l : list A) (body : A → M S E unit) : M S E unit :=
  match l with
  | [] => mret tt
  | x :: l' => body x;; for_each l' body
  end.

(** The part of the machine the program does not contain: the platform name,
    the MIME table, the signature tests of [imghdr] on a file header, and the
    behaviour of every delegate call on the file system. *)
Record platform := Platform {
  os_name : string;
  guess_type : string → option string;
  imghdr_tests : string → option string;
  extern : call → filesystem → outcome pyval * filesystem
}.

Module runtime.
Section with_platform.
Variable P : platform.

Definition emit {S E} (e : E) : M S E unit := λ s, (Ret tt, s, [e]).

Definition logger_error (msg : string) : M filesystem event unit := emit (Log "ERROR" msg).
Definition logger_warning (msg : string) : M filesystem event unit := emit (Log "WARNING" msg).
Definition logger_info (msg : string) : M filesystem event unit := emit (Log "INFO" msg).

(** A delegate call: the platform decides the outcome and the new file
    system; the call and its outcome are recorded. *)
Definition call_extern (c : call) : M filesystem event pyval :=
  λ fs,
    match extern P c fs with
    | (r, fs') => (r, fs', [Delegate c r])
    end.

(** [os.path.exists(p)]: never raises. *)
Definition os_path_exists (p : string) : M filesystem event bool :=
  λ fs, (Ret (bool_decide (is_Some (fs !! p))), fs,
         [Query (Call "os.path.exists" [VStr p] [])]).

(** [os.path.isfile(p)]: true on a regular file, false on a directory and
    on a path that does not exist; never raises. *)
Definition os_path_isfile (p : string) : M filesystem event bool :=
  λ fs, (Ret (match fs !! p with Some (RegularFile _ _) => true | _ => false end), fs,
         [Query (Call "os.path.isfile" [VStr p] [])]).

(** [mime_type, _ = mimetypes.guess_type(p)] *)
Definition mimetypes_guess_type (p : string) : M filesystem event (option string) :=
  λ fs, (Ret (guess_type P p), fs, [Query (Call "mimetypes.guess_type" [VStr p] [])]).

(** [imghdr.what(p)]: opens the file for reading, which raises [OSError] on
    a directory, on a file without read permission and on a missing file,
    then runs the signature tests on the first 32 bytes. *)
Definition imghdr_what (p : string) : M filesystem event (option string) :=
  λ fs,
    let r :=
      match fs !! p with
      | Some (RegularFile true content) => Ret (imghdr_tests P (PyStr.take 32 content))
      | Some (RegularFile false _) =>
          Raise (Exception "PermissionError" ("[Errno 13] Permission denied: '" +:+ p +:+ "'"))
      | Some Directory =>
          Raise (Exception "IsADirectoryError" ("[Errno 21] Is a directory: '" +:+ p +:+ "'"))
      | None =>
          Raise (Exception "FileNotFoundError" ("[Errno 2] No such file or directory: '" +:+ p +:+ "'"))
      end in
    (r, fs, [Query (Call "imghdr.what" [VStr p] [])]).

(** [with open_ as ctx: body ctx]. The context managers of this program
    (files, PIL images) return [None] from [__exit__], so an exception of the
    body is never swallowed; [__exit__] runs on both ways out and may raise
    itself. *)
Definition with_ {A} (open_ : M filesystem event pyval)
    (body : pyval → M filesystem event A) : M filesystem event A :=
  ctx ← open_;
  ((λ fs,
    match body ctx fs with
    | (r, fs1, ev1) =>
        match call_extern (Call "__exit__" [ctx] []) fs1 with
        | (Ret _, fs2, ev2) => (r, fs2, ev1 ++ ev2)
        | (Raise e, fs2, ev2) => (Raise e, fs2, ev1 ++ ev2)
        end
    end) : M filesystem event A).

(** Values that come back from a delegate are used as [str], [int] or as
    something to iterate over; another kind of value raises [TypeError]. *)
Definition expect_str (v : pyval) : M filesystem event string :=
  match v with
  | VStr s => mret s
  | _ => raise (Exception "TypeError" "expected str")
  end.

Definition expect_int (v : pyval) : M filesystem event Z :=
  match v with
  | VInt z => mret z
  | VBool b => mret (if b then 1 else 0)%Z
  | _ => raise (Exception "TypeError" "object cannot be interpreted as an integer")
  end.

Definition expect_iter (v : pyval) : M filesystem event (list pyval) :=
  match v with
  | VList l => mret l
  | _ => raise (Exception "TypeError" "object is not iterable")
  end.

(** [a, b = v] *)
Definition unpack2 (v : pyval) : M filesystem event (pyval * pyval) :=
  match v with
  | VList [a; b] => mret (a, b)
  | _ => raise (Exception "ValueError" "cannot unpack")
  end.

(** [pass] *)
Definition pass : M filesystem event unit := mret tt.

(** [options.get(key, default)] and [options.get(key)] *)
Definition options_get (options : gmap string pyval) (key : string) (dflt : pyval) : pyval :=
  default dflt (options !! key).

End with_platform.
End runtime.

(** ** [utils/file_utils.py] *)

Module file_utils.
Import PyStr runtime.

Definition image_extensions : gset string :=
  {[ "png"; "jpg"; "jpeg"; "gif"; "webp"; "tiff"; "bmp"; "svg"; "raw"; "psd" ]}.

Definition video_extensions : gset string :=
  {[ "mp4"; "avi"; "mkv"; "mov"; "webm"; "flv"; "wmv"; "m4v"; "3gp" ]}.

Definition document_extensions : gset string :=
  {[ "pdf"; "docx"; "doc"; "txt"; "rtf"; "odt"; "xlsx"; "xls";
     "csv"; "pptx"; "ppt"; "html"; "md"; "json"; "xml" ]}.

Definition audio_extensions : gset string :=
  {[ "mp3"; "wav"; "flac"; "aac"; "ogg"; "wma"; "m4a" ]}.

(** The five values [get_file_type] documents as its results. *)
Definition categories : list string := ["image"; "video"; "document"; "audio"; "unknown"].

(** [mime_type and mime_type.startswith(p)] *)
Definition mime_startswith (mime_type : option string) (p : string) : bool :=
  match mime_type with
  | Some m => negb (String.eqb m "") && startswith m p
  | None => false
  end.

Section with_platform.
Variable P : platform.

Definition get_file_type (file_path : string) : M filesystem event string :=
  found ← os_path_exists file_path;
  if negb found then mret "unknown"
  else
    let file_extension := replace "." "" (lower (posixpath.splitext file_path).2) in
    mime_type ← mimetypes_guess_type P file_path;
    if bool_decide (file_extension ∈ image_extensions)
       || mime_startswith mime_type "image/" then mret "image"
    else if bool_decide (file_extension ∈ video_extensions)
       || mime_startswith mime_type "video/" then mret "video"
    else if bool_decide (file_extension ∈ document_extensions)
       || (mime_startswith mime_type "application/"
           || mime_startswith mime_type "text/") then mret "document"
    else if bool_decide (file_extension ∈ audio_extensions)
       || mime_startswith mime_type "audio/" then mret "audio"
    else
      what ← imghdr_what P file_path;
      match what with
      | Some _ => mret "image"
      | None => mret "unknown"
      end.

End with_platform.

Definition get_output_path (input_path output_format output_dir : string) : string :=
  let base_name := (posixpath.splitext (posixpath.basename input_path)).1 in
  let output_format := replace "." "" (lower output_format) in
  let output_filename := base_name +:+ "." +:+ output_format in
  posixpath.join output_dir output_filename.

Section directories.
Variable P : platform.

(** [os.makedirs] is left to the platform, like every call that changes the
    file system. *)
Definition create_directory_if_not_exists (directory : string) : M filesystem event bool :=
  try_except
    (found ← os_path_exists directory;
     ((if negb found then
         call_extern P (Call "os.makedirs" [VStr directory] []);; pass
       else pass) : M filesystem event unit);;
     mret true)
    (λ e, logger_error ("Error creating directory " +:+ directory +:+ ": " +:+ exn_msg e);;
          mret false).

End directories.

End file_utils.

(** ** [converters/image_converter.py] *)

Module ImageConverter.
Import PyStr runtime file_utils.

Definition SUPPORTED_INPUT_FORMATS : gset string :=
  {[ "png"; "jpg"; "jpeg"; "gif"; "webp"; "tiff"; "bmp"; "svg" ]}.

Definition SUPPORTED_OUTPUT_FORMATS : gset string :=
  {[ "png"; "jpg"; "jpeg"; "gif"; "webp"; "tiff"; "bmp"; "svg" ]}.

Section with_platform.
Variable P : platform.

(** The statements after the overwrite check: open, convert, save. *)
Definition delegate (input_path output_format output_path : string)
    (options : gmap string pyval) : M filesystem event bool :=
  with_ P (call_extern P (Call "PIL.Image.open" [VStr input_path] [])) (λ img,
    img ← (if bool_decide (lower output_format ∈ ["jpg"; "jpeg"])
           then
             mode ← call_extern P (Call "Image.mode" [img] []);
             if eq_str mode "RGBA" || eq_str mode "P"
             then call_extern P (Call "Image.convert" [img; VStr "RGB"] [])
             else mret img
           else mret img);
    let quality :=
      if eq_str (options_get options "quality" VNone) "medium" then 75%Z
      else if eq_str (options_get options "quality" VNone) "low" then 50%Z
      else 95%Z in
    let save_options :=
      if String.eqb (lower output_format) "png" then [("optimize", VBool true)]
      else if String.eqb (lower output_format) "gif" then []
      else if String.eqb (lower output_format) "webp"
           then [("quality", VInt quality); ("method", VInt 6)]
      else [("quality", VInt quality)] in
    call_extern P (Call "Image.save" [img; VStr output_path]
                     (("format", VStr (upper output_format)) :: save_options));;
    logger_info ("Successfully converted " +:+ input_path +:+ " to " +:+ output_path);;
    mret true).

Definition convert_body (input_path output_format output_dir : string)
    (options : gmap string pyval) : M filesystem event bool :=
  let input_extension := lower (slice_from 1 (posixpath.splitext input_path).2) in
  if negb (bool_decide (input_extension ∈ SUPPORTED_INPUT_FORMATS)) then
    logger_error ("Unsupported input format: " +:+ input_extension);; mret false
  else
    let output_format := replace "." "" (lower output_format) in
    if negb (bool_decide (output_format ∈ SUPPORTED_OUTPUT_FORMATS)) then
      logger_error ("Unsupported output format: " +:+ output_format);; mret false
    else
      let output_path := get_output_path input_path output_format output_dir in
      found ← os_path_exists output_path;
      if found && negb (truthy (options_get options "overwrite" (VBool false))) then
        logger_warning ("Output file already exists: " +:+ output_path);; mret false
      else delegate input_path output_format output_path options.

Definition convert (input_path output_format output_dir : string)
    (options : gmap string pyval) : M filesystem event bool :=
  try_except (convert_body input_path output_format output_dir options)
    (λ e, logger_error ("Error converting " +:+ input_path +:+ ": " +:+ exn_msg e);;
          mret false).

End with_platform.

(** The static method [is_supported_input(file_path)]. *)
Definition is_supported_input (file_path : string) : bool :=
  let extension := lower (slice_from 1 (posixpath.splitext file_path).2) in
  bool_decide (extension ∈ SUPPORTED_INPUT_FORMATS).

End ImageConverter.

(** ** [converters/audio_converter.py] *)

Module AudioConverter.
Import PyStr runtime file_utils.

Definition SUPPORTED_INPUT_FORMATS : gset string :=
  {[ "mp3"; "wav"; "flac"; "aac"; "ogg"; "wma"; "m4a" ]}.

Definition SUPPORTED_OUTPUT_FORMATS : gset string :=
  {[ "mp3"; "wav"; "flac"; "aac"; "ogg" ]}.

Definition FORMAT_MAP : gmap string string :=
  <["mp3" := "mp3"]> (<["wav" := "wav"]> (<["flac" := "flac"]> (<["aac" := "aac"]>
  (<["ogg" := "ogg"]> (<["wma" := "wma"]> (<["m4a" := "mp4"]> ∅)))))).

Section with_platform.
Variable P : platform.

Definition delegate (input_path input_extension output_format output_path : string)
    (options : gmap string pyval) : M filesystem event bool :=
  let bitrate :=
    if eq_str (options_get options "quality" VNone) "medium" then "192k"
    else if eq_str (options_get options "quality" VNone) "low" then "128k"
    else "320k" in
  audio ← call_extern P (Call "AudioSegment.from_file" [VStr input_path]
             [("format", VStr (default input_extension (FORMAT_MAP !! input_extension)))]);
  let export_params :=
    if String.eqb output_format "mp3" then
      [("format", VStr "mp3"); ("bitrate", VStr bitrate);
       ("tags", VDict [("artist", VStr "Universal File Converter")])]
    else if String.eqb output_format "wav" then
      [("format", VStr "wav"); ("sample_width", VInt 2); ("frame_rate", VInt 44100)]
    else if String.eqb output_format "flac" then
      [("format", VStr "flac"); ("sample_width", VInt 2); ("frame_rate", VInt 44100)]
    else if bool_decide (output_format ∈ ["aac"; "m4a"]) then
      [("format", VStr (if String.eqb output_format "aac" then "adts" else "mp4"));
       ("bitrate", VStr bitrate)]
    else if String.eqb output_format "ogg" then
      [("format", VStr "ogg"); ("bitrate", VStr bitrate)]
    else [] in
  call_extern P (Call "AudioSegment.export" [audio; VStr output_path] export_params);;
  logger_info ("Successfully converted " +:+ input_path +:+ " to " +:+ output_path);;
  mret true.

Definition convert_body (input_path output_format output_dir : string)
    (options : gmap string pyval) : M filesystem event bool :=
  let input_extension := lower (slice_from 1 (posixpath.splitext input_path).2) in
  if negb (bool_decide (input_extension ∈ SUPPORTED_INPUT_FORMATS)) then
    logger_error ("Unsupported input format: " +:+ input_extension);; mret false
  else
    let output_format := replace "." "" (lower output_format) in
    if negb (bool_decide (output_format ∈ SUPPORTED_OUTPUT_FORMATS)) then
      logger_error ("Unsupported output format: " +:+ output_format);; mret false
    else
      let output_path := get_output_path input_path output_format output_dir in
      found ← os_path_exists output_path;
      if found && negb (truthy (options_get options "overwrite" (VBool false))) then
        logger_warning ("Output file already exists: " +:+ output_path);; mret false
      else delegate input_path input_extension output_format output_path options.

Definition convert (input_path output_format output_dir : string)
    (options : gmap string pyval) : M filesystem event bool :=
  try_except (convert_body input_path output_format output_dir options)
    (λ e, logger_error ("Error converting " +:+ input_path +:+ ": " +:+ exn_msg e);;
          mret false).

End with_platform.

(** The static method [is_supported_input(file_path)]. *)
Definition is_supported_input (file_path : string) : bool :=
  let extension := lower (slice_from 1 (posixpath.splitext file_path).2) in
  bool_decide (extension ∈ SUPPORTED_INPUT_FORMATS).

End AudioConverter.

(** ** [converters/video_converter.py] *)

Module VideoConverter.
Import PyStr runtime file_utils.

Definition SUPPORTED_INPUT_FORMATS : gset string :=
  {[ "mp4"; "avi"; "mkv"; "mov"; "webm"; "flv"; "wmv"; "m4v"; "3gp" ]}.

Definition SUPPORTED_OUTPUT_FORMATS : gset string :=
  {[ "mp4"; "avi"; "mkv"; "mov"; "webm"; "gif" ]}.

Section with_platform.
Variable P : platform.

Definition delegate (input_path output_format output_path : string)
    (options : gmap string pyval) : M filesystem event bool :=
  let bitrate :=
    if eq_str (options_get options "quality" VNone) "medium" then "4000k"
    else if eq_str (options_get options "quality" VNone) "low" then "1500k"
    else "8000k" in
  video ← call_extern P (Call "moviepy.editor.VideoFileClip" [VStr input_path] []);
  (if String.eqb output_format "gif" then
     call_extern P (Call "VideoFileClip.write_gif" [video; VStr output_path]
                      [("fps", VInt 15)])
   else
     call_extern P (Call "VideoFileClip.write_videofile" [video; VStr output_path]
       [("codec", if String.eqb output_format "mp4" then VStr "libx264" else VNone);
        ("audio_codec", VStr (if String.eqb output_format "mp4" then "aac" else "libmp3lame"));
        ("bitrate", VStr bitrate);
        ("preset", VStr (if eq_str (options_get options "quality" VNone) "high"
                         then "slow" else "medium"));
        ("threads", VInt 4);
        ("verbose", VBool false);
        ("logger", VNone)]));;
  call_extern P (Call "VideoFileClip.close" [video] []);;
  logger_info ("Successfully converted " +:+ input_path +:+ " to " +:+ output_path);;
  mret true.

Definition convert_body (input_path output_format output_dir : string)
    (options : gmap string pyval) : M filesystem event bool :=
  let input_extension := lower (slice_from 1 (posixpath.splitext input_path).2) in
  if negb (bool_decide (input_extension ∈ SUPPORTED_INPUT_FORMATS)) then
    logger_error ("Unsupported input format: " +:+ input_extension);; mret false
  else
    let output_format := replace "." "" (lower output_format) in
    if negb (bool_decide (output_format ∈ SUPPORTED_OUTPUT_FORMATS)) then
      logger_error ("Unsupported output format: " +:+ output_format);; mret false
    else
      let output_path := get_output_path input_path output_format output_dir in
      found ← os_path_exists output_path;
      if found && negb (truthy (options_get options "overwrite" (VBool false))) then
        logger_warning ("Output file already exists: " +:+ output_path);; mret false
      else delegate input_path output_format output_path options.

Definition convert (input_path output_format output_dir : string)
    (options : gmap string pyval) : M filesystem event bool :=
  try_except (convert_body input_path output_format output_dir options)
    (λ e, logger_error ("Error converting " +:+ input_path +:+ ": " +:+ exn_msg e);;
          mret false).


End with_platform.

(** The static method [is_supported_input(file_path)]. *)
Definition is_supported_input (file_path : string) : bool :=
  let extension := lower (slice_from 1 (posixpath.splitext file_path).2) in
  bool_decide (extension ∈ SUPPORTED_INPUT_FORMATS).

End VideoConverter.

(** ** [converters/document_converter.py] *)

Module DocumentConverter.
Import PyStr runtime file_utils.

Definition SUPPORTED_INPUT_FORMATS : gset string :=
  {[ "pdf"; "docx"; "doc"; "txt"; "rtf"; "odt"; "xlsx"; "xls"; "csv"; "pptx"; "ppt" ]}.

Definition SUPPORTED_OUTPUT_FORMATS : gset string :=
  {[ "pdf"; "docx"; "txt"; "rtf"; "odt"; "xlsx"; "csv"; "pptx"; "html" ]}.

Definition newline : string := String "010" EmptyString.

Section with_platform.
Variable P : platform.

Definition _convert_pdf_to_docx (input_path output_path : string) : M filesystem event bool :=
  try_except
    (cv ← call_extern P (Call "pdf2docx.Converter" [VStr input_path] []);
     call_extern P (Call "Converter.convert" [cv; VStr output_path] []);;
     call_extern P (Call "Converter.close" [cv] []);;
     mret true)
    (λ e, logger_error ("Error converting PDF to DOCX: " +:+ exn_msg e);; mret false).

Definition _convert_pdf_to_txt (input_path output_path : string) : M filesystem event bool :=
  try_except
    (with_ P (call_extern P (Call "open" [VStr input_path; VStr "rb"] [])) (λ file,
       reader ← call_extern P (Call "PyPDF2.PdfFileReader" [file] []);
       with_ P (call_extern P (Call "open" [VStr output_path; VStr "w"]
                                 [("encoding", VStr "utf-8")])) (λ output_file,
         numPages ← call_extern P (Call "PdfFileReader.numPages" [reader] []);
         n ← expect_int numPages;
         for_each (seq 0 (Z.to_nat n)) (λ page_num,
           page ← call_extern P (Call "PdfFileReader.getPage"
                                    [reader; VInt (Z.of_nat page_num)] []);
           text ← call_extern P (Call "PageObject.extractText" [page] []);
           call_extern P (Call "file.write" [output_file; text] []);;
           pass)));;
     mret true)
    (λ e, logger_error ("Error converting PDF to TXT: " +:+ exn_msg e);; mret false).

(** The shared text of [_convert_doc_to_pdf] and [_convert_ppt_to_pdf], which
    differ in the word ("DOC", "PPT") of their log messages only. *)
Definition office_to_pdf (what : string) (input_path output_path : string)
    : M filesystem event bool :=
  try_except
    (let cmd :=
       if String.eqb (os_name P) "posix" then
         ["libreoffice"; "--headless"; "--convert-to"; "pdf";
          "--outdir"; posixpath.dirname output_path; input_path]
       else
         ["soffice"; "--headless"; "--convert-to"; "pdf";
          "--outdir"; posixpath.dirname output_path; input_path] in
     process ← call_extern P (Call "subprocess.Popen" [VList (VStr <$> cmd)]
                                 [("stdout", VStr "PIPE"); ("stderr", VStr "PIPE")]);
     out ← call_extern P (Call "Popen.communicate" [process] []);
     '(stdout, stderr) ← unpack2 out;
     returncode ← call_extern P (Call "Popen.returncode" [process] []);
     if ne_int returncode 0 then
       decoded ← call_extern P (Call "bytes.decode" [stderr] []);
       text ← expect_str decoded;
       logger_error ("Error converting " +:+ what +:+ " to PDF: " +:+ text);;
       mret false
     else
       let libreoffice_output :=
         posixpath.join (posixpath.dirname output_path)
           ((posixpath.splitext (posixpath.basename input_path)).1 +:+ ".pdf") in
       ((if negb (String.eqb libreoffice_output output_path) then
           found ← os_path_exists libreoffice_output;
           if (found : bool) then
             call_extern P (Call "os.rename" [VStr libreoffice_output; VStr output_path] []);;
             pass
           else pass
         else pass) : M filesystem event unit);;
       mret true)
    (λ e, logger_error ("Error converting " +:+ what +:+ " to PDF: " +:+ exn_msg e);;
          mret false).

Definition _convert_doc_to_pdf : string → string → M filesystem event bool :=
  office_to_pdf "DOC".

Definition _convert_ppt_to_pdf : string → string → M filesystem event bool :=
  office_to_pdf "PPT".

Definition _convert_doc_to_txt (input_path output_path : string) : M filesystem event bool :=
  try_except
    (doc ← call_extern P (Call "docx.Document" [VStr input_path] []);
     with_ P (call_extern P (Call "open" [VStr output_path; VStr "w"]
                               [("encoding", VStr "utf-8")])) (λ f,
       paragraphs ← call_extern P (Call "Document.paragraphs" [doc] []);
       paragraphs ← expect_iter paragraphs;
       for_each paragraphs (λ paragraph,
         text ← call_extern P (Call "Paragraph.text" [paragraph] []);
         text ← expect_str text;
         call_extern P (Call "file.write" [f; VStr (text +:+ newline)] []);;
         pass));;
     mret true)
    (λ e, logger_error ("Error converting DOC to TXT: " +:+ exn_msg e);; mret false).

Definition _convert_txt_to_pdf (input_path output_path : string) : M filesystem event bool :=
  try_except
    (letter ← call_extern P (Call "import" [VStr "reportlab.lib.pagesizes"; VStr "letter"] []);
     call_extern P (Call "import" [VStr "reportlab.platypus";
                                   VStr "SimpleDocTemplate"; VStr "Paragraph"] []);;
     call_extern P (Call "import" [VStr "reportlab.lib.styles";
                                   VStr "getSampleStyleSheet"] []);;
     doc ← call_extern P (Call "SimpleDocTemplate" [VStr output_path] [("pagesize", letter)]);
     styles ← call_extern P (Call "getSampleStyleSheet" [] []);
     story ← with_ P (call_extern P (Call "open" [VStr input_path; VStr "r"]
                                       [("encoding", VStr "utf-8")])) (λ f,
       text ← call_extern P (Call "file.read" [f] []);
       text ← expect_str text;
       normal ← call_extern P (Call "StyleSheet.__getitem__" [styles; VStr "Normal"] []);
       para ← call_extern P (Call "Paragraph" [VStr (replace "010" "<br/>" text); normal] []);
       mret [para]);
     call_extern P (Call "SimpleDocTemplate.build" [doc; VList story] []);;
     mret true)
    (λ e, logger_error ("Error converting TXT to PDF: " +:+ exn_msg e);; mret false).

Definition _convert_txt_to_docx (input_path output_path : string) : M filesystem event bool :=
  try_except
    (doc ← call_extern P (Call "docx.Document" [] []);
     with_ P (call_extern P (Call "open" [VStr input_path; VStr "r"]
                               [("encoding", VStr "utf-8")])) (λ f,
       lines ← call_extern P (Call "file.__iter__" [f] []);
       lines ← expect_iter lines;
       for_each lines (λ line,
         line ← expect_str line;
         call_extern P (Call "Document.add_paragraph" [doc; VStr (strip line)] []);;
         pass));;
     call_extern P (Call "Document.save" [doc; VStr output_path] []);;
     mret true)
    (λ e, logger_error ("Error converting TXT to DOCX: " +:+ exn_msg e);; mret false).

Definition _convert_excel_to_csv (input_path output_path : string) : M filesystem event bool :=
  try_except
    (df ← call_extern P (Call "pandas.read_excel" [VStr input_path] []);
     call_extern P (Call "DataFrame.to_csv" [df; VStr output_path] [("index", VBool false)]);;
     mret true)
    (λ e, logger_error ("Error converting Excel to CSV: " +:+ exn_msg e);; mret false).

Definition _convert_csv_to_excel (input_path output_path : string) : M filesystem event bool :=
  try_except
    (df ← call_extern P (Call "pandas.read_csv" [VStr input_path] []);
     call_extern P (Call "DataFrame.to_excel" [df; VStr output_path] [("index", VBool false)]);;
     mret true)
    (λ e, logger_error ("Error converting CSV to Excel: " +:+ exn_msg e);; mret false).

(** The chain of [if]/[elif] on the pair (input extension, output format). *)
Definition delegate (input_path input_extension output_format output_path : string)
    : M filesystem event bool :=
  if String.eqb input_extension "pdf" && String.eqb output_format "docx" then
    _convert_pdf_to_docx input_path output_path
  else if String.eqb input_extension "pdf" && String.eqb output_format "txt" then
    _convert_pdf_to_txt input_path output_path
  else if bool_decide (input_extension ∈ ["docx"; "doc"]) && String.eqb output_format "pdf" then
    _convert_doc_to_pdf input_path output_path
  else if bool_decide (input_extension ∈ ["docx"; "doc"]) && String.eqb output_format "txt" then
    _convert_doc_to_txt input_path output_path
  else if String.eqb input_extension "txt" && String.eqb output_format "pdf" then
    _convert_txt_to_pdf input_path output_path
  else if String.eqb input_extension "txt" && String.eqb output_format "docx" then
    _convert_txt_to_docx input_path output_path
  else if bool_decide (input_extension ∈ ["xlsx"; "xls"]) && String.eqb output_format "csv" then
    _convert_excel_to_csv input_path output_path
  else if String.eqb input_extension "csv" && String.eqb output_format "xlsx" then
    _convert_csv_to_excel input_path output_path
  else if bool_decide (input_extension ∈ ["pptx"; "ppt"]) && String.eqb output_format "pdf" then
    _convert_ppt_to_pdf input_path output_path
  else
    logger_error ("Conversion from " +:+ input_extension +:+ " to " +:+ output_format
                  +:+ " is not supported");;
    mret false.

Definition convert_body (input_path output_format output_dir : string)
    (options : gmap string pyval) : M filesystem event bool :=
  let input_extension := lower (slice_from 1 (posixpath.splitext input_path).2) in
  if negb (bool_decide (input_extension ∈ SUPPORTED_INPUT_FORMATS)) then
    logger_error ("Unsupported input format: " +:+ input_extension);; mret false
  else
    let output_format := replace "." "" (lower output_format) in
    if negb (bool_decide (output_format ∈ SUPPORTED_OUTPUT_FORMATS)) then
      logger_error ("Unsupported output format: " +:+ output_format);; mret false
    else
      let output_path := get_output_path input_path output_format output_dir in
      found ← os_path_exists output_path;
      if found && negb (truthy (options_get options "overwrite" (VBool false))) then
        logger_warning ("Output file already exists: " +:+ output_path);; mret false
      else delegate input_path input_extension output_format output_path.

Definition convert (input_path output_format output_dir : string)
    (options : gmap string pyval) : M filesystem event bool :=
  try_except (convert_body input_path output_format output_dir options)
    (λ e, logger_error ("Error converting " +:+ input_path +:+ ": " +:+ exn_msg e);;
          mret false).

End with_platform.

(** The static method [is_supported_input(file_path)]. *)
Definition is_supported_input (file_path : string) : bool :=
  let extension := lower (slice_from 1 (posixpath.splitext file_path).2) in
  bool_decide (extension ∈ SUPPORTED_INPUT_FORMATS).

End DocumentConverter.

(** ** Python [float]: IEEE 754 binary64 *)

Module pyfloat.

Definition prec : Z := 53.
Definition emax : Z := 1024.

(** [float(n)] for a non-negative integer. *)
Definition of_nat (n : nat) : spec_float :=
  binary_normalize prec emax (Z.of_nat n) 0 false.

Definition truediv (x y : spec_float) : spec_float := SFdiv prec emax x y.

Definition mul (x y : spec_float) : spec_float := SFmul prec emax x y.

(** [int(x)]: truncation towards zero; infinities and NaN have no integer. *)
Definition to_int (x : spec_float) : option Z :=
  match x with
  | S754_zero _ => Some 0%Z
  | S754_finite s m e => Some (cond_Zopp s (Z.shiftl (Zpos m) e))
  | S754_infinity _ => None
  | S754_nan => None
  end.


End pyfloat.

(** ** [main.py] *)

Inductive converter :=
| image_converter
| video_converter
| document_converter
| audio_converter.

Definition supported_outputs (c : converter) : gset string :=
  match c with
  | image_converter => ImageConverter.SUPPORTED_OUTPUT_FORMATS
  | video_converter => VideoConverter.SUPPORTED_OUTPUT_FORMATS
  | document_converter => DocumentConverter.SUPPORTED_OUTPUT_FORMATS
  | audio_converter => AudioConverter.SUPPORTED_OUTPUT_FORMATS
  end.

Definition supported_inputs (c : converter) : gset string :=
  match c with
  | image_converter => ImageConverter.SUPPORTED_INPUT_FORMATS
  | video_converter => VideoConverter.SUPPORTED_INPUT_FORMATS
  | document_converter => DocumentConverter.SUPPORTED_INPUT_FORMATS
  | audio_converter => AudioConverter.SUPPORTED_INPUT_FORMATS
  end.

(** [c.convert(input_path, output_format, output_dir, **options)] *)
Definition convert (P : platform) (c : converter)
    : string → string → string → gmap string pyval → M filesystem event bool :=
  match c with
  | image_converter => ImageConverter.convert P
  | video_converter => VideoConverter.convert P
  | document_converter => DocumentConverter.convert P
  | audio_converter => AudioConverter.convert P
  end.

(** [c.is_supported_input(file_path)] *)
Definition is_supported_input (c : converter) : string → bool :=
  match c with
  | image_converter => ImageConverter.is_supported_input
  | video_converter => VideoConverter.is_supported_input
  | document_converter => DocumentConverter.is_supported_input
  | audio_converter => AudioConverter.is_supported_input
  end.

Module FileConverterApp.

Definition get_converter_for_format (output_format : string) : option converter :=
  if bool_decide (output_format ∈ ["png"; "jpg"; "jpeg"; "gif"; "webp"; "tiff"; "bmp"; "svg"])
  then Some image_converter
  else if bool_decide (output_format ∈ ["mp4"; "avi"; "mkv"; "mov"; "webm"])
  then Some video_converter
  else if bool_decide (output_format ∈
            ["pdf"; "docx"; "txt"; "rtf"; "odt"; "xlsx"; "csv"; "pptx"; "html"])
  then Some document_converter
  else if bool_decide (output_format ∈ ["mp3"; "wav"; "flac"; "aac"; "ogg"])
  then Some audio_converter
  else None.

End FileConverterApp.

Module ConversionWorker.
Import PyStr runtime.

(** The two Qt signals of the worker. *)
Inductive signal :=
| progress_update (value : Z) (message : string)
| conversion_complete (success : bool) (message : string).

(** What the worker does, in order: signals it emits and calls of
    [self.converter.convert], each with its outcome and the events the
    converter produced. *)
Inductive worker_event :=
| Emit (s : signal)
| Attempt (file_path : string) (r : outcome bool) (evs : list event).

(** [int((i / total_files) * 100)]: integer division by zero raises, the
    quotient of two integers below [2^53] is the binary64 quotient of their
    conversions, and [int] truncates. *)
Definition percent (i total_files : nat) : outcome Z :=
  match total_files with
  | O => Raise (Exception "ZeroDivisionError" "division by zero")
  | _ =>
      match pyfloat.to_int (pyfloat.mul
              (pyfloat.truediv (pyfloat.of_nat i) (pyfloat.of_nat total_files))
              (pyfloat.of_nat 100)) with
      | Some z => Ret z
      | None => Raise (Exception "OverflowError" "cannot convert float to integer")
      end
  end.

Section with_converter.
(** [self.converter.convert], [self.output_format], [self.output_dir],
    [self.options]. *)
Variable converter_convert :
  string → string → string → gmap string pyval → M filesystem event bool.
Variable output_format output_dir : string.
Variable options : gmap string pyval.

Definition call_convert (file_path : string) : M filesystem worker_event bool :=
  λ fs,
    match converter_convert file_path output_format output_dir options fs with
    | (r, fs', evs) => (r, fs', [Attempt file_path r evs])
    end.

(** The body of the [for i, file_path in enumerate(self.input_files)] loop:
    the [try] statement; the result is the new [success_count]. *)
Definition loop_body (total_files i : nat) (file_path : string) (success_count : nat)
    : M filesystem worker_event nat :=
  try_except
    (let file_name := posixpath.basename file_path in
     value ← of_outcome (percent i total_files);
     emit (Emit (progress_update value ("Converting " +:+ file_name +:+ "...")));;
     success ← call_convert file_path;
     mret (if (success : bool) then S success_count else success_count))
    (λ e,
     value ← of_outcome (percent i total_files);
     emit (Emit (progress_update value ("Error: " +:+ exn_msg e)));;
     mret success_count).

(** The loop from index [i] on; the result is [success_count]. *)
Fixpoint run_loop (total_files i : nat) (input_files : list string) (success_count : nat)
    : M filesystem worker_event nat :=
  match input_files with
  | [] => mret success_count
  | file_path :: rest =>
      success_count ← loop_body total_files i file_path success_count;
      run_loop total_files (S i) rest success_count
  end.

Definition run (input_files : list string) : M filesystem worker_event unit :=
  let total_files := length input_files in
  success_count ← run_loop total_files 0 input_files 0;
  let success := bool_decide (success_count = total_files) in
  let message := "Converted " +:+ str_of_nat success_count +:+ " of "
                 +:+ str_of_nat total_files +:+ " files successfully" in
  emit (Emit (conversion_complete success message)).

End with_converter.
End ConversionWorker.

(** ** [main.py]: the window and its handlers

    The widgets of [FileConverterApp] are records of the properties the
    handlers read and write; what a dialog returns is an argument of the
    handler that opens it. *)

#[global] Instance outcome_ret : MRet outcome := λ A, @Ret A.
#[global] Instance outcome_bind : MBind outcome :=
  λ A B k r, match r with Ret a => k a | Raise e => Raise e end.

Module worker.

(** The attributes [ConversionWorker.__init__] sets. *)
Record t := new {
  converter : converter;
  input_files : list string;
  output_format : string;
  output_dir : string;
  options : gmap string pyval
}.

End worker.

Module gui.
Import PyStr runtime file_utils.

Record QPushButton := PushButton { button_enabled : bool }.

Record QCheckBox := CheckBox { isChecked : bool; check_enabled : bool }.

(** A combo box: the texts of its rows, the rows that were disabled,
    the current row ([-1] for none) and whether the box is enabled. *)
Record QComboBox := ComboBox {
  items : list string;
  disabled_items : list nat;
  currentIndex : Z;
  combo_enabled : bool
}.

Definition QComboBox_new : QComboBox := ComboBox [] [] (-1) true.

(** [addItem(text)]: the first row of an empty box becomes the current
    one. *)
Definition addItem (text : string) (c : QComboBox) : QComboBox :=
  ComboBox (items c ++ [text]) (disabled_items c)
    (match items c with [] => 0%Z | _ => currentIndex c end) (combo_enabled c).

Definition addItems (texts : list string) (c : QComboBox) : QComboBox :=
  foldl (λ c text, addItem text c) c texts.

(** [model().item(i).setEnabled(False)]; [item(i)] is [None] where the box
    has no row [i]. *)
Definition item_setEnabled_False (i : nat) (c : QComboBox) : outcome QComboBox :=
  if bool_decide (i < length (items c))%nat
  then Ret (ComboBox (items c) (disabled_items c ++ [i]) (currentIndex c) (combo_enabled c))
  else Raise (Exception "AttributeError" "'NoneType' object has no attribute 'setEnabled'").

(** [setCurrentIndex(i)]: a row that does not exist leaves no current row. *)
Definition setCurrentIndex (i : Z) (c : QComboBox) : QComboBox :=
  ComboBox (items c) (disabled_items c)
    (if (0 <=? i)%Z && (i <? Z.of_nat (length (items c)))%Z then i else (-1)%Z)
    (combo_enabled c).

(** [currentText()]: the empty string where there is no current row. *)
Definition currentText (c : QComboBox) : string :=
  if (currentIndex c <? 0)%Z then ""
  else default "" (items c !! Z.to_nat (currentIndex c)).

(** [QProgressBar.setValue(value)] on the default range 0..100: a value
    outside the range is ignored. *)
Definition setValue (value : Z) (current : Z) : Z :=
  if (0 <=? value)%Z && (value <=? 100)%Z then value else current.

Record window := Window {
  input_files : list string;
  output_directory : string;
  file_list : list string;
  add_files_btn : QPushButton;
  clear_files_btn : QPushButton;
  format_combo : QComboBox;
  output_dir_edit : string;
  browse_btn : QPushButton;
  quality_combo : QComboBox;
  maintain_aspect_ratio : QCheckBox;
  overwrite_existing : QCheckBox;
  convert_btn : QPushButton;
  progress_bar : Z;
  status_label : string;
  conversion_thread : option worker.t
}.

(** What a handler shows or starts, and what it asks of the system. *)
Inductive gui_event :=
| MessageBox (icon title text : string)
| System (e : event)
| Start (t : worker.t).

(** [create_conversion_options_section]: the two combo boxes and the two
    check boxes. *)
Definition create_conversion_options_section
    : outcome (QComboBox * QComboBox * QCheckBox * QCheckBox) :=
  let format_combo := QComboBox_new in
  let format_combo := addItem "-- Image Formats --" format_combo in
  let format_combo :=
    foldl (λ c fmt, addItem (upper fmt) c) format_combo
      ["png"; "jpg"; "gif"; "webp"; "tiff"; "bmp"; "svg"] in
  let format_combo := addItem "-- Video Formats --" format_combo in
  let format_combo :=
    foldl (λ c fmt, addItem (upper fmt) c) format_combo
      ["mp4"; "avi"; "mkv"; "mov"; "webm"; "gif"] in
  let format_combo := addItem "-- Document Formats --" format_combo in
  let format_combo :=
    foldl (λ c fmt, addItem (upper fmt) c) format_combo
      ["pdf"; "docx"; "txt"; "rtf"; "odt"; "xlsx"; "csv"; "pptx"; "html"] in
  let format_combo := addItem "-- Audio Formats --" format_combo in
  let format_combo :=
    foldl (λ c fmt, addItem (upper fmt) c) format_combo
      ["mp3"; "wav"; "flac"; "aac"; "ogg"] in
  format_combo ← item_setEnabled_False 0 format_combo;
  format_combo ← item_setEnabled_False 8 format_combo;
  format_combo ← item_setEnabled_False 15 format_combo;
  format_combo ← item_setEnabled_False 25 format_combo;
  let format_combo := setCurrentIndex 1 format_combo in
  let quality_combo := addItems ["High"; "Medium"; "Low"] QComboBox_new in
  let maintain_aspect_ratio := CheckBox true true in
  let overwrite_existing := CheckBox true true in
  mret (format_combo, quality_combo, maintain_aspect_ratio, overwrite_existing).

(** [FileConverterApp.__init__] with [init_ui]: no files, no output
    directory, every widget enabled, the progress bar at 0, the status
    ["Ready"]. *)
Definition FileConverterApp__init__ : outcome window :=
  '(format_combo, quality_combo, maintain_aspect_ratio, overwrite_existing) ←
    create_conversion_options_section;
  mret (Window [] "" [] (PushButton true) (PushButton true) format_combo ""
          (PushButton true) quality_combo maintain_aspect_ratio overwrite_existing
          (PushButton true) 0 "Ready" None).

(** Assignments to attributes and calls of widget setters. *)
Definition with_files (input_files file_list : list string) (w : window) : window :=
  Window input_files (output_directory w) file_list (add_files_btn w) (clear_files_btn w)
    (format_combo w) (output_dir_edit w) (browse_btn w) (quality_combo w)
    (maintain_aspect_ratio w) (overwrite_existing w) (convert_btn w)
    (progress_bar w) (status_label w) (conversion_thread w).

Definition with_output (output_directory output_dir_edit : string) (w : window) : window :=
  Window (input_files w) output_directory (file_list w) (add_files_btn w) (clear_files_btn w)
    (format_combo w) output_dir_edit (browse_btn w) (quality_combo w)
    (maintain_aspect_ratio w) (overwrite_existing w) (convert_btn w)
    (progress_bar w) (status_label w) (conversion_thread w).

Definition with_convert_btn (convert_btn : QPushButton) (w : window) : window :=
  Window (input_files w) (output_directory w) (file_list w) (add_files_btn w)
    (clear_files_btn w) (format_combo w) (output_dir_edit w) (browse_btn w)
    (quality_combo w) (maintain_aspect_ratio w) (overwrite_existing w) convert_btn
    (progress_bar w) (status_label w) (conversion_thread w).

Definition with_status (progress_bar : Z) (status_label : string) (w : window) : window :=
  Window (input_files w) (output_directory w) (file_list w) (add_files_btn w)
    (clear_files_btn w) (format_combo w) (output_dir_edit w) (browse_btn w)
    (quality_combo w) (maintain_aspect_ratio w) (overwrite_existing w) (convert_btn w)
    progress_bar status_label (conversion_thread w).

Definition with_thread (conversion_thread : option worker.t) (w : window) : window :=
  Window (input_files w) (output_directory w) (file_list w) (add_files_btn w)
    (clear_files_btn w) (format_combo w) (output_dir_edit w) (browse_btn w)
    (quality_combo w) (maintain_aspect_ratio w) (overwrite_existing w) (convert_btn w)
    (progress_bar w) (status_label w) conversion_thread.

Definition update_convert_button_state (w : window) : window :=
  with_convert_btn
    (PushButton (bool_decide (0 < length (input_files w))%nat
                 && negb (String.eqb (output_directory w) ""))) w.

(** The body of the loop of [add_files_to_list]. *)
Definition add_file (w : window) (file_path : string) : window :=
  if bool_decide (file_path ∉ input_files w) then
    let file_name := posixpath.basename file_path in
    with_files (input_files w ++ [file_path]) (file_list w ++ [file_name]) w
  else w.

Definition add_files_to_list (file_paths : list string) (w : window) : window :=
  update_convert_button_state (foldl add_file w file_paths).

(** [add_files]; [file_paths] is what the file dialog returned. *)
Definition add_files (file_paths : list string) (w : window) : window :=
  match file_paths with
  | [] => w
  | _ => add_files_to_list file_paths w
  end.

Definition clear_files (w : window) : window :=
  update_convert_button_state (with_files [] [] w).

(** [browse_output_directory]; [directory] is what the directory dialog
    returned, the empty string when it was cancelled. *)
Definition browse_output_directory (directory : string) (w : window) : window :=
  if negb (String.eqb directory "") then
    update_convert_button_state (with_output directory directory w)
  else w.

Definition set_ui_enabled (enabled : bool) (w : window) : window :=
  Window (input_files w) (output_directory w) (file_list w)
    (PushButton enabled) (PushButton enabled)
    (ComboBox (items (format_combo w)) (disabled_items (format_combo w))
       (currentIndex (format_combo w)) enabled)
    (output_dir_edit w) (PushButton enabled)
    (ComboBox (items (quality_combo w)) (disabled_items (quality_combo w))
       (currentIndex (quality_combo w)) enabled)
    (CheckBox (isChecked (maintain_aspect_ratio w)) enabled)
    (CheckBox (isChecked (overwrite_existing w)) enabled)
    (PushButton enabled) (progress_bar w) (status_label w) (conversion_thread w).

Definition update_progress (value : Z) (message : string) (w : window) : window :=
  with_status (setValue value (progress_bar w)) message w.

Definition conversion_finished (success : bool) (message : string) (w : window)
    : window * list gui_event :=
  let w := with_status (setValue 100 (progress_bar w)) message w in
  let w := set_ui_enabled true w in
  (w, [if success then MessageBox "information" "Conversion Complete" message
       else MessageBox "warning" "Conversion Completed with Errors" message]).

(** [ConversionWorker.__init__]: [self.options = options or {}]. *)
Definition ConversionWorker__init__ (converter : converter) (input_files : list string)
    (output_format output_dir : string) (options : option (gmap string pyval)) : worker.t :=
  worker.new converter input_files output_format output_dir
    (match options with
     | Some o => if bool_decide (size o = 0%nat) then ∅ else o
     | None => ∅
     end).

Section with_platform.
Variable P : platform.

(** A call of the file utilities from a handler. *)
Definition system {A} (m : M filesystem event A) : M filesystem gui_event A :=
  λ fs, match m fs with (r, fs', evs) => (r, fs', System <$> evs) end.

(** The loop of [dropEvent]; [urls] holds [url.toLocalFile()] of each URL
    of the drop. *)
Fixpoint dropped_files (urls : list string) (file_paths : list string)
    : M filesystem gui_event (list string) :=
  match urls with
  | [] => mret file_paths
  | file_path :: urls' =>
      is_file ← system (os_path_isfile file_path);
      dropped_files urls' (if (is_file : bool) then file_paths ++ [file_path] else file_paths)
  end.

Definition dropEvent (urls : list string) (w : window) : M filesystem gui_event window :=
  file_paths ← dropped_files urls [];
  match file_paths with
  | [] => mret w
  | _ => mret (add_files_to_list file_paths w)
  end.

Definition start_conversion (w : window) : M filesystem gui_event window :=
  match input_files w with
  | [] => emit (MessageBox "warning" "Error" "No input files selected");; mret w
  | _ =>
      if String.eqb (output_directory w) "" then
        emit (MessageBox "warning" "Error" "No output directory selected");; mret w
      else
        let output_format := lower (currentText (format_combo w)) in
        let options : gmap string pyval :=
          <["overwrite" := VBool (isChecked (overwrite_existing w))]>
            (<["maintain_aspect_ratio" := VBool (isChecked (maintain_aspect_ratio w))]>
               (<["quality" := VStr (lower (currentText (quality_combo w)))]> ∅)) in
        system (create_directory_if_not_exists P (output_directory w));;
        match FileConverterApp.get_converter_for_format output_format with
        | None =>
            emit (MessageBox "warning" "Error"
                    ("No converter available for " +:+ output_format +:+ " format"));;
            mret w
        | Some converter =>
            let conversion_thread :=
              ConversionWorker__init__ converter (input_files w) output_format
                (output_directory w) (Some options) in
            let w := with_thread (Some conversion_thread) w in
            let w := set_ui_enabled false w in
            emit (Start conversion_thread);;
            mret w
        end
  end.

(** [ConversionWorker.run] on the attributes of the worker. *)
Definition run (t : worker.t) : M filesystem ConversionWorker.worker_event unit :=
  ConversionWorker.run (convert P (worker.converter t)) (worker.output_format t)
    (worker.output_dir t) (worker.options t) (worker.input_files t).

End with_platform.

(** The slots the two signals are connected to. *)
Definition slot (s : ConversionWorker.signal) (w : window) : window * list gui_event :=
  match s with
  | ConversionWorker.progress_update value message => (update_progress value message w, [])
  | ConversionWorker.conversion_complete success message =>
      conversion_finished success message w
  end.

(** The signals of a run, delivered to their slots in the order of
    emission. *)
Fixpoint deliver (evs : list ConversionWorker.worker_event) (w : window)
    : window * list gui_event :=
  match evs with
  | [] => (w, [])
  | ConversionWorker.Emit s :: evs' =>
      let '(w1, shown1) := slot s w in
      let '(w2, shown2) := deliver evs' w1 in
      (w2, shown1 ++ shown2)
  | ConversionWorker.Attempt _ _ _ :: evs' => deliver evs' w
  end.

End gui.

(** ** Vocabulary of the properties *)

(** A delegate call of the run raised. *)
Definition faulted (evs : list event) : Prop :=
  ∃ c e, Delegate c (Raise e) ∈ evs.

(** The run made no delegate call at all. *)
Definition no_delegate (evs : list event) : Prop :=
  ∀ c r, Delegate c r ∉ evs.

(** A computation that lets every exception of a delegate through. *)
Definition strict {A} (m : M filesystem event A) : Prop :=
  ∀ fs r fs' evs, m fs = (r, fs', evs) → faulted evs → ∃ e, r = Raise e.

(** A computation that answers [False] or raises when a delegate raised. *)
Definition guarded (m : M filesystem event bool) : Prop :=
  ∀ fs r fs' evs, m fs = (r, fs', evs) → faulted evs → r = Ret false ∨ ∃ e, r = Raise e.

(** A computation that always returns, and returns [False] when a delegate
    raised. *)
Definition failsafe (m : M filesystem event bool) : Prop :=
  ∀ fs r fs' evs, m fs = (r, fs', evs) →
    (∃ b, r = Ret b) ∧ (faulted evs → r = Ret false).

(** A positive float with a full 53-bit mantissa and an exponent in a
    range. *)
Definition normal (lo hi : Z) (x : spec_float) : Prop :=
  ∃ m e, x = S754_finite false m e ∧ (2 ^ 52 ≤ Z.pos m < 2 ^ 53 ∧ lo ≤ e ≤ hi)%Z.

(** Where [r / d] lies in [0, 1): at 0, below, at or above one half. *)
Definition location (r d : Z) : SpecFloat.location :=
  if (r =? 0)%Z then loc_Exact else loc_Inexact (2 * r ?= d)%Z.

(** The record holds the integer part of [T / D] and the place of the
    remainder. *)
Definition represents (rec : shr_record) (D T : Z) : Prop :=
  (0 ≤ shr_m rec)%Z ∧
  ∃ R, (T = shr_m rec * D + R)%Z ∧ (0 ≤ R < D)%Z ∧ loc_of_shr_record rec = location R D.

(** The order of two positive floats with full mantissas. *)
Definition fle (x y : spec_float) : Prop :=
  match x, y with
  | S754_finite false m e, S754_finite false m' e' =>
      (e < e')%Z ∨ (e = e' ∧ (Z.pos m ≤ Z.pos m')%Z)
  | _, _ => False
  end.

(** [x] is the float [m · 2 ^ (e + n)], with a full mantissa, that
    [T / d · 2 ^ e] rounds to. *)
Definition rounds_to (x : spec_float) (T d e : Z) : Prop :=
  ∃ m n, x = S754_finite false m (e + n)
         ∧ (2 ^ 52 ≤ Z.pos m < 2 ^ 53)%Z
         ∧ (0 ≤ n)%Z
         ∧ (2 * T ≤ (2 * Z.pos m + 1) * d * 2 ^ n)%Z
         ∧ ((2 ^ 52 < Z.pos m)%Z → ((2 * Z.pos m - 1) * d * 2 ^ n ≤ 2 * T)%Z)
         ∧ (Z.pos m = (2 ^ 52)%Z → ((4 * Z.pos m - 1) * d * 2 ^ n ≤ 4 * T)%Z).

Module batch.
Import ConversionWorker.

(** The files the worker called [convert] on, in order. *)
Fixpoint attempted (evs : list worker_event) : list string :=
  match evs with
  | [] => []
  | Attempt file_path _ _ :: evs' => file_path :: attempted evs'
  | Emit _ :: evs' => attempted evs'
  end.

(** How many [convert] calls ended with the given outcome. *)
Fixpoint returned (b : bool) (evs : list worker_event) : nat :=
  match evs with
  | [] => 0
  | Attempt _ (Ret b') _ :: evs' => (if Bool.eqb b b' then 1 else 0) + returned b evs'
  | _ :: evs' => returned b evs'
  end.

Fixpoint raised (evs : list worker_event) : nat :=
  match evs with
  | [] => 0
  | Attempt _ (Raise _) _ :: evs' => S (raised evs')
  | _ :: evs' => raised evs'
  end.

(** The values of the [progress_update] signals, in order. *)
Fixpoint progress_values (evs : list worker_event) : list Z :=
  match evs with
  | [] => []
  | Emit (progress_update value _) :: evs' => value :: progress_values evs'
  | _ :: evs' => progress_values evs'
  end.

(** What one round of the loop leaves behind for the file at index [i],
    given the progress value and what [convert] did. *)
Definition round_events (value : Z) (file_path : string) (r : outcome bool)
    (evs : list event) : list worker_event :=
  [Emit (progress_update value ("Converting " +:+ posixpath.basename file_path +:+ "..."));
   Attempt file_path r evs]
  ++ match r with
     | Ret _ => []
     | Raise e => [Emit (progress_update value ("Error: " +:+ exn_msg e))]
     end.

Section rounds.
Variable converter_convert :
  string → string → string → gmap string pyval → M filesystem event bool.
Variable output_format output_dir : string.
Variable options : gmap string pyval.
Variable total_files : nat.

(** The loop from index [i] on, as a big step from one file system to
    another: one round per file, each with the progress value the code
    computes for its index and with what [convert] did on the file system it
    found. *)
Inductive rounds : nat → list string → filesystem → list worker_event → filesystem → Prop :=
| rounds_nil i fs : rounds i [] fs [] fs
| rounds_cons i file_path files value r cevs evs fs fs1 fs' :
    percent i total_files = Ret value →
    converter_convert file_path output_format output_dir options fs = (r, fs1, cevs) →
    rounds (S i) files fs1 evs fs' →
    rounds i (file_path :: files) fs (round_events value file_path r cevs ++ evs) fs'.

End rounds.

(** The closing signal for [success_count] successes out of [total_files]. *)
Definition summary (success_count total_files : nat) : worker_event :=
  Emit (conversion_complete (bool_decide (success_count = total_files))
          ("Converted " +:+ PyStr.str_of_nat success_count +:+ " of "
           +:+ PyStr.str_of_nat total_files +:+ " files successfully")).

End batch.

(** ** Sample platforms and inputs *)

Module samples.

(** No MIME table, no image signature, every delegate call succeeds and
    leaves the file system alone. *)
Definition quiet : platform :=
  Platform "posix" (λ _, None) (λ _, None) (λ _ fs, (Ret VNone, fs)).

(** Every delegate call raises. *)
Definition broken : platform :=
  Platform "posix" (λ _, None) (λ _, None)
    (λ c fs, (Raise (Exception "RuntimeError" ("cannot run " +:+ fn c)), fs)).

(** A converter that accepts the files whose name ends in [.png]. *)
Definition png_only (input_path output_format output_dir : string)
    (options : gmap string pyval) : M filesystem event bool :=
  mret (PyStr.endswith input_path ".png").

Definition fifty_files : list string := replicate 50 "/in/a.png".

End samples.

(** ** The path resolver as the specification words it

    The specification normalises an output format by lower-casing it and
    stripping a leading dot. *)

Module spec.

Definition strip_leading_dot (s : string) : string :=
  match s with
  | String a s' => if Ascii.eqb a "." then s' else s
  | EmptyString => s
  end.

Definition normalize_format (output_format : string) : string :=
  strip_leading_dot (PyStr.lower output_format).

End spec.

(** For comparison with [ConversionWorker.percent]: the integer part of
    [index / total · 100] over the rationals, without the two binary64
    roundings. *)
Definition exact_percent (index total : nat) : Z :=
  (Z.of_nat index * 100 / Z.of_nat total)%Z.

(** ** Vocabulary of the further properties *)

(** The category of the files a converter is for, and the MIME prefixes
    [get_file_type] takes for that category. *)
Definition category (c : converter) : string :=
  match c with
  | image_converter => "image"
  | video_converter => "video"
  | document_converter => "document"
  | audio_converter => "audio"
  end.

Definition mime_prefixes (c : converter) : list string :=
  match c with
  | image_converter => ["image/"]
  | video_converter => ["video/"]
  | document_converter => ["application/"; "text/"]
  | audio_converter => ["audio/"]
  end.

(** The pairs (input extension, output format) for which
    [DocumentConverter.convert] has a branch. *)
Definition routes : list (string * string) :=
  [("pdf", "docx"); ("pdf", "txt");
   ("docx", "pdf"); ("doc", "pdf"); ("docx", "txt"); ("doc", "txt");
   ("txt", "pdf"); ("txt", "docx");
   ("xlsx", "csv"); ("xls", "csv"); ("csv", "xlsx");
   ("pptx", "pdf"); ("ppt", "pdf")].



(** The largest float below 1. *)
Definition below_one : spec_float := S754_finite false (Z.to_pos (2 ^ 53 - 1)) (-53).




(** The lists of the window agree: no path twice, one row of the list
    widget per path with the path's file name, and the line edit shows the
    output directory. *)
Definition consistent (w : gui.window) : Prop :=
  NoDup (gui.input_files w)
  ∧ gui.file_list w = posixpath.basename <$> gui.input_files w
  ∧ gui.output_dir_edit w = gui.output_directory w.

(** One handler of the window runs: on what a dialog or a drop delivers, on
    a click, or as the slot of a signal. *)
Inductive handles (P : platform) : gui.window → gui.window → Prop :=
| handles_add_files file_paths w :
    handles P w (gui.add_files file_paths w)
| handles_clear_files w :
    handles P w (gui.clear_files w)
| handles_browse_output_directory directory w :
    handles P w (gui.browse_output_directory directory w)
| handles_dropEvent urls w fs w' fs' evs :
    gui.dropEvent urls w fs = (Ret w', fs', evs) →
    handles P w w'
| handles_start_conversion w fs w' fs' evs :
    gui.start_conversion P w fs = (Ret w', fs', evs) →
    handles P w w'
| handles_update_progress value message w :
    handles P w (gui.update_progress value message w)
| handles_conversion_finished success message w :
    handles P w (gui.conversion_finished success message w).1.

(** The windows the program can be in: the initial one and what handlers
    make of it. *)
Inductive reachable (P : platform) : gui.window → Prop :=
| reachable_init w : gui.FileConverterApp__init__ = Ret w → reachable P w
| reachable_step w w' : reachable P w → handles P w w' → reachable P w'.

(** * Properties *)

(** ** Strings and paths *)

Section string_facts.
Import PyStr.

Lemma append_cons a s t : String a s +:+ t = String a (s +:+ t).
Proof. reflexivity. Qed.

Lemma append_nil_r s : s +:+ "" = s.
Proof. induction s as [|a s IH]; [done|]. by rewrite append_cons, IH. Qed.

Lemma append_assoc s t u : (s +:+ t) +:+ u = s +:+ t +:+ u.
Proof. induction s as [|a s IH]; [done|]. by rewrite !append_cons, IH. Qed.

Lemma take_drop_append n s : take n s +:+ drop n s = s.
Proof.
  revert s. induction n as [|n IH]; intros [|a s]; cbn [take drop]; try done.
  by rewrite append_cons, IH.
Qed.

Lemma endswith_unfold s suf :
  endswith s suf =
  String.eqb s suf || match s with EmptyString => false | String _ s' => endswith s' suf end.
Proof. by destruct s. Qed.

Lemma endswith_append pre suf : endswith (pre +:+ suf) suf = true.
Proof.
  induction pre as [|a pre IH].
  - rewrite endswith_unfold. change ("" +:+ suf) with suf. by rewrite String.eqb_refl.
  - rewrite append_cons, endswith_unfold, IH. apply orb_true_r.
Qed.

Lemma endswith_iff s suf : endswith s suf = true ↔ ∃ pre, s = pre +:+ suf.
Proof.
  split; [|intros [pre ->]; apply endswith_append].
  induction s as [|a s IH]; rewrite endswith_unfold; intros H.
  - rewrite orb_false_r in H. apply String.eqb_eq in H. by exists "".
  - apply orb_true_iff in H as [H|H].
    + apply String.eqb_eq in H. by exists "".
    + destruct (IH H) as [pre ->]. by exists (String a pre).
Qed.

Lemma endswith_trans s t u :
  endswith s t = true → endswith t u = true → endswith s u = true.
Proof.
  rewrite !endswith_iff. intros [p ->] [q ->]. exists (p +:+ q). by rewrite append_assoc.
Qed.

Lemma rfind_lower_bound c s : (-1 ≤ rfind c s)%Z.
Proof.
  induction s as [|a s IH]; cbn [rfind]; [lia|].
  destruct (0 <=? rfind c s)%Z eqn:E; [apply Z.leb_le in E; lia|].
  destruct (Ascii.eqb a c); lia.
Qed.

Lemma rfind_absent c s : (rfind c s < 0)%Z → contains c s = false.
Proof.
  induction s as [|a s IH]; cbn [rfind contains]; [done|].
  destruct (0 <=? rfind c s)%Z eqn:E.
  - apply Z.leb_le in E. lia.
  - apply Z.leb_gt in E. destruct (Ascii.eqb a c); [lia|]. intros _. by apply IH.
Qed.

(** The index [rfind] returns points at [c], and [c] does not occur after
    it. *)
Lemma rfind_split c s i :
  rfind c s = Z.of_nat i →
  s = take i s +:+ String c (drop (S i) s) ∧ contains c (drop (S i) s) = false.
Proof.
  revert i. induction s as [|a s IH]; intros i; cbn [rfind]; [lia|].
  destruct (0 <=? rfind c s)%Z eqn:E.
  - apply Z.leb_le in E. intros H. destruct i as [|j]; [lia|].
    destruct (IH j) as [Hs Hc]; [lia|].
    cbn [take drop]. split; [|done]. rewrite append_cons. by f_equal.
  - apply Z.leb_gt in E. destruct (Ascii.eqb_spec a c) as [->|]; [|lia].
    intros H. destruct i; [|lia]. cbn [take drop]. split; [done|].
    destruct s; [done|]. by apply rfind_absent.
Qed.

Lemma basename_no_sep p : contains "/" (posixpath.basename p) = false.
Proof.
  unfold posixpath.basename, slice_from.
  pose proof (rfind_lower_bound "/" p) as Hb.
  destruct (decide (rfind "/" p = -1)%Z) as [E|E].
  - rewrite E. change (Z.to_nat (-1 + 1)) with 0%nat. cbn [drop].
    apply rfind_absent. lia.
  - destruct (rfind_split "/" p (Z.to_nat (rfind "/" p))) as [_ H]; [lia|].
    by replace (Z.to_nat (rfind "/" p + 1)) with (S (Z.to_nat (rfind "/" p))) by lia.
Qed.

(** [splitext] cuts in two and the second part is empty or one dot followed
    by dot-free text: only the last extension leaves the root. *)
Lemma splitext_spec p :
  p = (posixpath.splitext p).1 +:+ (posixpath.splitext p).2 ∧
  ((posixpath.splitext p).2 = "" ∨
   ∃ e, (posixpath.splitext p).2 = String "." e ∧ contains "." e = false).
Proof.
  unfold posixpath.splitext.
  destruct (_ && _) eqn:E; cbn [fst snd]; [|split; [by rewrite append_nil_r|by left]].
  apply andb_true_iff in E as [E _]. apply Z.ltb_lt in E.
  pose proof (rfind_lower_bound "/" p) as Hb.
  unfold slice_to, slice_from. set (i := Z.to_nat (rfind "." p)).
  split; [by rewrite take_drop_append|]. right.
  destruct (rfind_split "." p i) as [Hs Hc]; [subst i; lia|].
  exists (drop (S i) p). split; [|done].
  rewrite <- (take_drop_append i p) in Hs at 1. by apply (inj (String.app _)) in Hs.
Qed.

Lemma rfind_absent_eq c s : contains c s = false → rfind c s = (-1)%Z.
Proof.
  induction s as [|a s IH]; cbn [rfind contains]; [done|].
  intros [-> H]%orb_false_iff. by rewrite IH.
Qed.

Lemma rfind_append_last c s e :
  contains c e = false → rfind c (s +:+ String c e) = Z.of_nat (String.length s).
Proof.
  intros He. induction s as [|a s IH].
  - change ("" +:+ String c e) with (String c e). cbn [rfind String.length].
    by rewrite rfind_absent_eq, Ascii.eqb_refl.
  - rewrite append_cons. cbn [rfind String.length]. rewrite IH.
    rewrite (proj2 (Z.leb_le 0 _)) by lia. lia.
Qed.

Lemma contains_append c s t : contains c (s +:+ t) = contains c s || contains c t.
Proof.
  induction s as [|a s IH]; [done|]. rewrite append_cons. cbn [contains].
  by rewrite IH, orb_assoc.
Qed.

Lemma take_append_length s t : take (String.length s) (s +:+ t) = s.
Proof. induction s as [|a s IH]; [by destruct t|]. rewrite append_cons. cbn. by rewrite IH. Qed.

Lemma drop_append_length s t : drop (String.length s) (s +:+ t) = t.
Proof. induction s as [|a s IH]; [by destruct t|]. by rewrite append_cons. Qed.

(** A file name [root.e] where [e] has no dot and [root] has a character
    other than a dot is cut at its last dot. *)
Lemma splitext_last_extension root e :
  contains "/" (root +:+ String "." e) = false →
  posixpath.skip_leading_dots root = true →
  contains "." e = false →
  posixpath.splitext (root +:+ String "." e) = (root, String "." e).
Proof.
  intros Hsep Hroot He. unfold posixpath.splitext.
  rewrite (rfind_absent_eq "/") by done. rewrite rfind_append_last by done.
  unfold slice, slice_to, slice_from. rewrite Nat2Z.id.
  change (Z.to_nat (-1 + 1)) with 0%nat.
  rewrite take_append_length, drop_append_length.
  replace (drop 0 root) with root by (by destruct root).
  rewrite Hroot, (proj2 (Z.ltb_lt _ _)) by lia. done.
Qed.

Lemma replace_empty_absent c s : contains c (replace c "" s) = false.
Proof.
  induction s as [|a s IH]; cbn [replace contains]; [done|].
  destruct (Ascii.eqb a c) eqn:E; [done|]. cbn [contains]. by rewrite E.
Qed.

Lemma replace_absent c new s : contains c s = false → replace c new s = s.
Proof.
  induction s as [|a s IH]; cbn [replace contains]; [done|].
  intros [-> H]%orb_false_iff. by rewrite IH.
Qed.

Lemma join_endswith a b : endswith (posixpath.join a b) b = true.
Proof.
  unfold posixpath.join. destruct (startswith b "/").
  - apply (endswith_append "").
  - destruct (_ || _); [apply endswith_append|].
    rewrite <- append_assoc. apply endswith_append.
Qed.

End string_facts.

(** ** Path Resolver *)

Section resolver.
Import PyStr file_utils.

Example resolve_report :
  get_output_path "/in/report.v2.docx" ".PDF" "/out" = "/out/report.v2.pdf".
Proof. reflexivity. Qed.

Example resolve_hidden_file :
  get_output_path "/home/u/.bashrc" "txt" "/out/" = "/out/.bashrc.txt".
Proof. reflexivity. Qed.

(** A format whose only dot, if any, is the leading one: removing every dot
    and stripping the leading dot agree. *)
Lemma replace_dots_is_strip (output_format : string) :
  contains "." (spec.normalize_format output_format) = false →
  replace "." "" (lower output_format) = spec.normalize_format output_format.
Proof.
  unfold spec.normalize_format, spec.strip_leading_dot.
  destruct (lower output_format) as [|a l]; [done|].
  cbn [replace]. destruct (Ascii.eqb a ".") eqn:E.
  - intros H. by rewrite replace_absent.
  - cbn [contains]. rewrite E. intros H. by rewrite replace_absent.
Qed.

(** C3, as stated, fails: a format with an inner dot loses that dot, so the
    path does not end in the lower-cased format with its leading dot
    stripped. *)
Lemma get_output_path_inner_dot :
  get_output_path "/in/a.txt" "tar.gz" "/out" = "/out/a.targz" ∧
  spec.normalize_format "tar.gz" = "tar.gz" ∧
  endswith (get_output_path "/in/a.txt" "tar.gz" "/out")
           ("." +:+ spec.normalize_format "tar.gz") = false.
Proof. by vm_compute. Qed.

(** C3 (amended): for every input path, output format and output directory,
    [get_output_path] returns a path that ends in [<base>.<format>], hence in
    [.<format>], where [<format>] is the lower-cased output format with every
    dot removed (so it holds no dot; for a format whose only dot is a leading
    one this is the format with its leading dot stripped) and [<base>] is the
    input's file name with only its last extension removed, however many dots
    the file name has: what is cut off is empty or one dot with dot-free
    text, and a name [root.e] with dot-free [e] and a [root] that is not made
    of dots only keeps all of [root]. *)
Theorem get_output_path_suffix (input_path output_format output_dir : string) :
  let fmt := replace "." "" (lower output_format) in
  let name := posixpath.basename input_path in
  let base := (posixpath.splitext name).1 in
  let path := get_output_path input_path output_format output_dir in
  endswith path (base +:+ "." +:+ fmt) = true
  ∧ endswith path ("." +:+ fmt) = true
  ∧ contains "." fmt = false
  ∧ (∃ ext, name = base +:+ ext
            ∧ (ext = "" ∨ ∃ e, ext = String "." e ∧ contains "." e = false))
  ∧ (∀ root e, name = root +:+ String "." e →
       posixpath.skip_leading_dots root = true → contains "." e = false →
       base = root)
  ∧ (contains "." (spec.normalize_format output_format) = false →
     fmt = spec.normalize_format output_format).
Proof.
  intros fmt name base path.
  assert (endswith path (base +:+ "." +:+ fmt) = true) as Hfull
    by apply join_endswith.
  split_and!.
  - done.
  - eapply endswith_trans; [exact Hfull|apply endswith_append].
  - apply replace_empty_absent.
  - exists (posixpath.splitext name).2. apply splitext_spec.
  - intros root e Hname Hroot He. subst base.
    pose proof (basename_no_sep input_path) as Hsep. fold name in Hsep.
    rewrite Hname in *. by rewrite splitext_last_extension.
  - apply replace_dots_is_strip.
Qed.

End resolver.

(** ** Format Classifier: the extension sets *)

Section extension_sets.
Import file_utils.

(** C8: the four extension sets of [get_file_type] are pairwise disjoint. *)
Theorem extension_sets_disjoint :
  image_extensions ## video_extensions
  ∧ image_extensions ## document_extensions
  ∧ image_extensions ## audio_extensions
  ∧ video_extensions ## document_extensions
  ∧ video_extensions ## audio_extensions
  ∧ document_extensions ## audio_extensions.
Proof.
  split_and!; apply (bool_decide_unpack _); by vm_compute.
Qed.

End extension_sets.

(** ** Conversion Dispatcher *)

Section dispatcher.
Import FileConverterApp.

Example select_gif : get_converter_for_format "gif" = Some image_converter.
Proof. by vm_compute. Qed.

Example select_upper_case : get_converter_for_format "PNG" = None.
Proof. by vm_compute. Qed.

Lemma elem_of_compute (x : string) (X : gset string) : bool_decide (x ∈ X) = true → x ∈ X.
Proof. apply bool_decide_eq_true_1. Qed.

(** C2: a format that some converter lists among its outputs gets a
    converter, and that converter lists the format; a format no converter
    lists gets none. *)
Theorem get_converter_for_format_consistent (output_format : string) :
  ((∃ c, output_format ∈ supported_outputs c) →
   ∃ c, get_converter_for_format output_format = Some c
        ∧ output_format ∈ supported_outputs c)
  ∧ ((∀ c, output_format ∉ supported_outputs c) →
     get_converter_for_format output_format = None).
Proof.
  split.
  - intros [c Hc].
    destruct c; cbn [supported_outputs] in Hc;
      unfold ImageConverter.SUPPORTED_OUTPUT_FORMATS, VideoConverter.SUPPORTED_OUTPUT_FORMATS,
        DocumentConverter.SUPPORTED_OUTPUT_FORMATS, AudioConverter.SUPPORTED_OUTPUT_FORMATS in Hc;
      set_unfold in Hc; destruct_or!; subst output_format;
      match goal with
      | |- ∃ c, get_converter_for_format ?f = _ ∧ _ =>
          let r := eval vm_compute in (get_converter_for_format f) in
          match r with
          | Some ?c => exists c; split; [by vm_compute|apply elem_of_compute; by vm_compute]
          end
      end.
  - intros Hnone. unfold get_converter_for_format.
    repeat case_bool_decide; try done; exfalso;
      match goal with
      | H : output_format ∈ _ |- _ =>
          repeat (apply elem_of_cons in H as [H|H]; [subst output_format|]);
          [..|by apply elem_of_nil in H]
      end;
      first [ by apply (Hnone image_converter), elem_of_compute
            | by apply (Hnone video_converter), elem_of_compute
            | by apply (Hnone document_converter), elem_of_compute
            | by apply (Hnone audio_converter), elem_of_compute ].
Qed.

End dispatcher.

(** ** Format Classifier *)

Section classifier.
Import PyStr runtime file_utils.

Lemma bind_unfold {S E A B} (m : M S E A) (k : A → M S E B) s :
  (m ≫= k) s =
  match m s with
  | (Ret a, s1, ev1) => match k a s1 with (r, s2, ev2) => (r, s2, ev1 ++ ev2) end
  | (Raise e, s1, ev1) => (Raise e, s1, ev1)
  end.
Proof. reflexivity. Qed.

Lemma mret_unfold {S E A} (a : A) (s : S) : (mret a : M S E A) s = (Ret a, s, []).
Proof. reflexivity. Qed.

Lemma os_path_exists_unfold p fs :
  os_path_exists p fs =
  (Ret (bool_decide (is_Some (fs !! p))), fs, [Query (Call "os.path.exists" [VStr p] [])]).
Proof. reflexivity. Qed.

(** C10: a path that does not exist is classified [unknown] at once,
    whatever its extension: the only thing the classifier does is ask
    whether the path exists; the extension, the MIME table and the file
    content are never looked at. *)
Theorem get_file_type_missing (P : platform) (file_path : string) (fs : filesystem) :
  fs !! file_path = None →
  get_file_type P file_path fs =
  (Ret "unknown", fs, [Query (Call "os.path.exists" [VStr file_path] [])]).
Proof.
  intros H. unfold get_file_type.
  rewrite bind_unfold, os_path_exists_unfold, H.
  rewrite bool_decide_false by (by intros [? ?]).
  reflexivity.
Qed.

(** On a path that exists, the classifier reaches [imghdr.what] when neither
    the extension nor the MIME type decides; [imghdr.what] opens the file,
    and its [OSError] leaves [get_file_type] as it is. *)
Lemma get_file_type_fallback (P : platform) (file_path : string) (fs : filesystem) :
  is_Some (fs !! file_path) →
  let ext := replace "." "" (lower (posixpath.splitext file_path).2) in
  ext ∉ image_extensions → ext ∉ video_extensions →
  ext ∉ document_extensions → ext ∉ audio_extensions →
  guess_type P file_path = None →
  ∃ evs,
    get_file_type P file_path fs =
    (match fs !! file_path with
     | Some (RegularFile true content) =>
         Ret (match imghdr_tests P (take 32 content) with
              | Some _ => "image"
              | None => "unknown"
              end)
     | Some (RegularFile false _) =>
         Raise (Exception "PermissionError" ("[Errno 13] Permission denied: '" +:+ file_path +:+ "'"))
     | Some Directory =>
         Raise (Exception "IsADirectoryError" ("[Errno 21] Is a directory: '" +:+ file_path +:+ "'"))
     | None =>
         Raise (Exception "FileNotFoundError"
                  ("[Errno 2] No such file or directory: '" +:+ file_path +:+ "'"))
     end, fs, evs).
Proof.
  intros Hsome ext Hi Hv Hd Ha Hmime. unfold get_file_type.
  rewrite bind_unfold, os_path_exists_unfold, bool_decide_true by done.
  cbn [negb]. rewrite bind_unfold. unfold mimetypes_guess_type. rewrite Hmime.
  fold ext. rewrite !bool_decide_false by done. cbn [mime_startswith orb].
  rewrite bind_unfold. unfold imghdr_what.
  destruct (fs !! file_path) as [[|[] content]|]; [eauto..| |eauto].
  - destruct (imghdr_tests P (take 32 content)); rewrite mret_unfold; eauto.
  - eauto.
Qed.

(** Where the file can be read (or does not exist), the classifier returns
    one of the five categories. *)
Lemma get_file_type_readable (P : platform) (file_path : string) (fs : filesystem) :
  (fs !! file_path = None ∨ ∃ content, fs !! file_path = Some (RegularFile true content)) →
  ∃ category evs,
    get_file_type P file_path fs = (Ret category, fs, evs) ∧ category ∈ categories.
Proof.
  intros [H|[content H]].
  - unfold get_file_type.
    rewrite bind_unfold, os_path_exists_unfold, H, bool_decide_false by (by intros [? ?]).
    eexists _, _. split; [reflexivity|]. set_solver.
  - unfold get_file_type.
    rewrite bind_unfold, os_path_exists_unfold, bool_decide_true by (by rewrite H).
    cbn [negb]. rewrite bind_unfold. unfold mimetypes_guess_type.
    repeat (destruct (_ || _); [rewrite mret_unfold; eexists _, _; split; [done|set_solver]|]).
    rewrite bind_unfold. unfold imghdr_what. rewrite H.
    destruct (imghdr_tests P (take 32 content)); rewrite mret_unfold;
      eexists _, _; (split; [done|set_solver]).
Qed.

End classifier.

Section classifier_examples.
Import runtime file_utils.

Lemma get_file_type_missing_witness :
  (∅ : filesystem) !! "/nowhere/photo.png" = None
  ∧ get_file_type samples.quiet "/nowhere/photo.png" ∅ =
    (Ret "unknown", ∅, [Query (Call "os.path.exists" [VStr "/nowhere/photo.png"] [])]).
Proof.
  split; [done|]. apply (get_file_type_missing samples.quiet "/nowhere/photo.png" ∅). done.
Defined.

(** C4 fails on the code: on an existing directory whose name decides
    nothing, [get_file_type] raises [IsADirectoryError] out of
    [imghdr.what] instead of returning [unknown]. *)
Lemma get_file_type_directory_raises :
  (get_file_type samples.quiet "/srv/media" {[ "/srv/media" := Directory ]}).1.1 =
    Raise (Exception "IsADirectoryError" "[Errno 21] Is a directory: '/srv/media'")
  ∧ (get_file_type samples.quiet "/srv/media" {[ "/srv/media" := Directory ]}).2 =
    [Query (Call "os.path.exists" [VStr "/srv/media"] []);
     Query (Call "mimetypes.guess_type" [VStr "/srv/media"] []);
     Query (Call "imghdr.what" [VStr "/srv/media"] [])].
Proof. split; by vm_compute. Qed.

(** The same happens on a regular file that may not be read. *)
Example get_file_type_unreadable_raises :
  (get_file_type samples.quiet "/srv/notes" {[ "/srv/notes" := RegularFile false "x" ]}).1.1 =
  Raise (Exception "PermissionError" "[Errno 13] Permission denied: '/srv/notes'").
Proof. by vm_compute. Qed.

Example get_file_type_by_extension :
  (get_file_type samples.quiet "/in/a.PNG" {[ "/in/a.PNG" := RegularFile false "" ]}).1.1 =
  Ret "image".
Proof. by vm_compute. Qed.

End classifier_examples.

(** ** Converter Registry *)

Section converters.
Import PyStr runtime file_utils.

Lemma faulted_nil : ¬ faulted [].
Proof. intros (c & e & H). by apply elem_of_nil in H. Qed.

Lemma faulted_app evs1 evs2 : faulted (evs1 ++ evs2) → faulted evs1 ∨ faulted evs2.
Proof.
  intros (c & e & H). apply elem_of_app in H as [H|H]; [left|right]; by exists c, e.
Qed.

Lemma faulted_log level msg : ¬ faulted [Log level msg].
Proof. intros (c & e & H). by apply list_elem_of_singleton in H. Qed.

Lemma faulted_query q : ¬ faulted [Query q].
Proof. intros (c & e & H). by apply list_elem_of_singleton in H. Qed.

Lemma faulted_delegate c r : faulted [Delegate c r] → ∃ e, r = Raise e.
Proof.
  intros (c' & e & H). apply list_elem_of_singleton in H. exists e. congruence.
Qed.

Lemma strict_ret {A} (a : A) : strict (mret a).
Proof. intros fs r fs' evs [= <- <- <-] H. by apply faulted_nil in H. Qed.

Lemma strict_pass : strict pass.
Proof. apply strict_ret. Qed.

Lemma strict_raise {A} e : strict (raise e : M filesystem event A).
Proof. intros fs r fs' evs [= <- <- <-] H. by apply faulted_nil in H. Qed.

Lemma strict_log level msg : strict (emit (Log level msg)).
Proof. intros fs r fs' evs [= <- <- <-] H. by apply faulted_log in H. Qed.

Lemma strict_os_path_exists p : strict (os_path_exists p).
Proof. intros fs r fs' evs [= <- <- <-] H. by apply faulted_query in H. Qed.

Lemma strict_call_extern P c : strict (call_extern P c).
Proof.
  intros fs r fs' evs. unfold call_extern. destruct (extern P c fs) as [r0 fs0].
  intros [= <- <- <-] H. by apply faulted_delegate in H.
Qed.

Lemma strict_bind {A B} (m : M filesystem event A) (k : A → M filesystem event B) :
  strict m → (∀ a, strict (k a)) → strict (m ≫= k).
Proof.
  intros Hm Hk fs r fs' evs. rewrite bind_unfold.
  destruct (m fs) as [[[a|e] fs1] ev1] eqn:E1.
  - destruct (k a fs1) as [[r2 fs2] ev2] eqn:E2. intros [= <- <- <-] H.
    apply faulted_app in H as [H|H].
    + destruct (Hm _ _ _ _ E1 H) as [e ?]. done.
    + by apply (Hk _ _ _ _ _ E2).
  - intros [= <- <- <-] _. by exists e.
Qed.

Lemma strict_with {A} P (open_ : M filesystem event pyval)
    (body : pyval → M filesystem event A) :
  strict open_ → (∀ ctx, strict (body ctx)) → strict (with_ P open_ body).
Proof.
  intros Ho Hb. unfold with_. apply strict_bind; [done|]. intros ctx fs r fs' evs.
  destruct (body ctx fs) as [[r1 fs1] ev1] eqn:E1.
  destruct (call_extern P (Call "__exit__" [ctx] []) fs1) as [[[v|e] fs2] ev2] eqn:E2.
  - intros [= <- <- <-] H. apply faulted_app in H as [H|H].
    + by apply (Hb _ _ _ _ _ E1).
    + destruct (strict_call_extern _ _ _ _ _ _ E2 H) as [e ?]. done.
  - intros [= <- <- <-] _. by exists e.
Qed.

Lemma strict_for_each {A} (l : list A) (body : A → M filesystem event unit) :
  (∀ x, strict (body x)) → strict (for_each l body).
Proof.
  intros Hb. induction l as [|x l IH]; cbn [for_each]; [apply strict_ret|].
  apply strict_bind; [apply Hb|]. by intros _.
Qed.

Lemma strict_expect_str v : strict (expect_str v).
Proof. destruct v; first [apply strict_ret|apply strict_raise]. Qed.

Lemma strict_expect_int v : strict (expect_int v).
Proof. destruct v; first [apply strict_ret|apply strict_raise]. Qed.

Lemma strict_expect_iter v : strict (expect_iter v).
Proof. destruct v; first [apply strict_ret|apply strict_raise]. Qed.

Lemma strict_unpack2 v : strict (unpack2 v).
Proof.
  destruct v as [| | | |[|a [|b [|c l]]]|]; first [apply strict_ret|apply strict_raise].
Qed.

Lemma strict_guarded (m : M filesystem event bool) : strict m → guarded m.
Proof. intros Hm fs r fs' evs E H. right. by apply (Hm _ _ _ _ E). Qed.

Lemma failsafe_guarded (m : M filesystem event bool) : failsafe m → guarded m.
Proof. intros Hm fs r fs' evs E H. left. by apply (Hm _ _ _ _ E). Qed.

Lemma guarded_bind {A} (m : M filesystem event A) (k : A → M filesystem event bool) :
  strict m → (∀ a, guarded (k a)) → guarded (m ≫= k).
Proof.
  intros Hm Hk fs r fs' evs. rewrite bind_unfold.
  destruct (m fs) as [[[a|e] fs1] ev1] eqn:E1.
  - destruct (k a fs1) as [[r2 fs2] ev2] eqn:E2. intros [= <- <- <-] H.
    apply faulted_app in H as [H|H].
    + destruct (Hm _ _ _ _ E1 H) as [e ?]. done.
    + by apply (Hk _ _ _ _ _ E2).
  - intros [= <- <- <-] _. right. by exists e.
Qed.

(** [try: body / except Exception as e: logger.error(...); return False] *)
Lemma try_except_failsafe (body : M filesystem event bool) (msg : exn → string) :
  guarded body →
  failsafe (try_except body (λ e, logger_error (msg e);; mret false)).
Proof.
  intros Hb fs r fs' evs. unfold try_except.
  destruct (body fs) as [[[b|e] fs1] ev1] eqn:E1.
  - intros [= <- <- <-]. split; [by exists b|]. intros H.
    destruct (Hb _ _ _ _ E1 H) as [?|[e ?]]; done.
  - intros [= <- <- <-]. split; [by exists false|done].
Qed.

End converters.

Section convert_contract.
Import PyStr runtime file_utils.

Ltac effects_step :=
  lazymatch goal with
  | |- strict (let _ := _ in _) => cbv zeta
  | |- guarded (let _ := _ in _) => cbv zeta
  | |- strict (if ?b then _ else _) => destruct b
  | |- guarded (if ?b then _ else _) => destruct b
  | |- strict (match ?p with (_, _) => _ end) => destruct p
  | |- strict (with_ _ _ _) => apply strict_with; [|intros ?]
  | |- strict (for_each _ _) => apply strict_for_each; intros ?
  | |- strict (_ ≫= _) => apply strict_bind; [|intros ?]
  | |- guarded (try_except _ _) => apply failsafe_guarded, try_except_failsafe
  | |- guarded (_ ≫= _) => apply guarded_bind; [|intros ?]
  | |- guarded _ => apply strict_guarded
  | |- strict _ =>
      first [ apply strict_ret | apply strict_pass | apply strict_raise | apply strict_log
            | apply strict_os_path_exists | apply strict_call_extern
            | apply strict_expect_str | apply strict_expect_int
            | apply strict_expect_iter | apply strict_unpack2 ]
  end.

Ltac effects := repeat effects_step.

Lemma image_convert_failsafe P input_path output_format output_dir options :
  failsafe (ImageConverter.convert P input_path output_format output_dir options).
Proof.
  apply try_except_failsafe.
  unfold ImageConverter.convert_body, ImageConverter.delegate. effects.
Qed.

Lemma audio_convert_failsafe P input_path output_format output_dir options :
  failsafe (AudioConverter.convert P input_path output_format output_dir options).
Proof.
  apply try_except_failsafe.
  unfold AudioConverter.convert_body, AudioConverter.delegate. effects.
Qed.

Lemma video_convert_failsafe P input_path output_format output_dir options :
  failsafe (VideoConverter.convert P input_path output_format output_dir options).
Proof.
  apply try_except_failsafe.
  unfold VideoConverter.convert_body, VideoConverter.delegate. effects.
Qed.

Lemma document_convert_failsafe P input_path output_format output_dir options :
  failsafe (DocumentConverter.convert P input_path output_format output_dir options).
Proof.
  apply try_except_failsafe.
  unfold DocumentConverter.convert_body, DocumentConverter.delegate,
    DocumentConverter._convert_pdf_to_docx, DocumentConverter._convert_pdf_to_txt,
    DocumentConverter._convert_doc_to_pdf, DocumentConverter._convert_ppt_to_pdf,
    DocumentConverter.office_to_pdf, DocumentConverter._convert_doc_to_txt,
    DocumentConverter._convert_txt_to_pdf, DocumentConverter._convert_txt_to_docx,
    DocumentConverter._convert_excel_to_csv, DocumentConverter._convert_csv_to_excel.
  effects.
Qed.

Lemma convert_failsafe (P : platform) (c : converter)
    (input_path output_format output_dir : string) (options : gmap string pyval) :
  failsafe (convert P c input_path output_format output_dir options).
Proof.
  destruct c; cbn [convert];
    auto using image_convert_failsafe, audio_convert_failsafe,
      video_convert_failsafe, document_convert_failsafe.
Qed.


(** C6: when both extensions pass validation, the resolved output path
    exists and the [overwrite] option is absent or false (any value Python
    takes for false), [convert] returns [False]; all it did was ask whether
    the path exists and log a warning, so no delegate was called and the file
    system, the existing destination included, is as before. *)
Theorem convert_refuses_overwrite (P : platform) (c : converter)
    (input_path output_format output_dir : string) (options : gmap string pyval)
    (fs : filesystem) :
  let input_extension := lower (slice_from 1 (posixpath.splitext input_path).2) in
  let fmt := replace "." "" (lower output_format) in
  let output_path := get_output_path input_path fmt output_dir in
  input_extension ∈ supported_inputs c →
  fmt ∈ supported_outputs c →
  is_Some (fs !! output_path) →
  truthy (options_get options "overwrite" (VBool false)) = false →
  convert P c input_path output_format output_dir options fs =
  (Ret false, fs,
   [Query (Call "os.path.exists" [VStr output_path] []);
    Log "WARNING" ("Output file already exists: " +:+ output_path)])
  ∧ no_delegate
      [Query (Call "os.path.exists" [VStr output_path] []);
       Log "WARNING" ("Output file already exists: " +:+ output_path)].
Proof.
  intros input_extension fmt output_path Hin Hout Hex Hov. split.
  - destruct c; cbn [convert supported_inputs supported_outputs] in *;
      unfold ImageConverter.convert, ImageConverter.convert_body,
        AudioConverter.convert, AudioConverter.convert_body,
        VideoConverter.convert, VideoConverter.convert_body,
        DocumentConverter.convert, DocumentConverter.convert_body, try_except;
      fold input_extension; rewrite bool_decide_true by done; cbn [negb];
      fold fmt; rewrite bool_decide_true by done; cbn [negb];
      fold output_path;
      rewrite bind_unfold, os_path_exists_unfold, bool_decide_true by done;
      rewrite Hov; reflexivity.
  - intros d r H. repeat (apply elem_of_cons in H as [H|H]; [done|]).
    by apply elem_of_nil in H.
Qed.

Lemma convert_refuses_overwrite_witness :
  "jpg" ∈ supported_inputs image_converter
  ∧ "png" ∈ supported_outputs image_converter
  ∧ is_Some (({[ "/out/x.png" := RegularFile true "old" ]} : filesystem) !! "/out/x.png")
  ∧ truthy (options_get ∅ "overwrite" (VBool false)) = false
  ∧ convert samples.quiet image_converter "/in/x.jpg" ".PNG" "/out" ∅
      {[ "/out/x.png" := RegularFile true "old" ]} =
    (Ret false, {[ "/out/x.png" := RegularFile true "old" ]},
     [Query (Call "os.path.exists" [VStr "/out/x.png"] []);
      Log "WARNING" "Output file already exists: /out/x.png"]).
Proof.
  assert ("jpg" ∈ supported_inputs image_converter) as H1
    by (apply elem_of_compute; by vm_compute).
  assert ("png" ∈ supported_outputs image_converter) as H2
    by (apply elem_of_compute; by vm_compute).
  assert (is_Some (({[ "/out/x.png" := RegularFile true "old" ]} : filesystem)
                     !! "/out/x.png")) as H3
    by (rewrite lookup_singleton_eq; eauto).
  assert (truthy (options_get ∅ "overwrite" (VBool false)) = false) as H4 by done.
  split_and!; [done..|].
  exact (proj1 (convert_refuses_overwrite samples.quiet image_converter
                  "/in/x.jpg" ".PNG" "/out" ∅ _ H1 H2 H3 H4)).
Defined.

End convert_contract.

(** ** Binary64 arithmetic of the progress value *)

Section float_facts.
Local Open Scope Z_scope.

Lemma digits2_pos_size p : digits2_pos p = Pos.size p.
Proof. induction p; cbn; congruence. Qed.

Lemma Zdigits2_log2 m : 0 < m → Zdigits2 m = Z.log2 m + 1.
Proof.
  destruct m as [|p|p]; [lia| |lia]. intros _. cbn [Zdigits2].
  rewrite digits2_pos_size. destruct p; cbn [Pos.size Z.log2]; lia.
Qed.

Lemma Zdigits2_bounds m : 0 < m → 2 ^ (Zdigits2 m - 1) ≤ m < 2 ^ Zdigits2 m.
Proof.
  intros H. rewrite Zdigits2_log2 by done.
  replace (Z.log2 m + 1 - 1) with (Z.log2 m) by lia.
  apply Z.log2_spec in H. by rewrite <- Z.add_1_r in H.
Qed.

Lemma Zdigits2_unique m d : 0 < d → 2 ^ (d - 1) ≤ m < 2 ^ d → Zdigits2 m = d.
Proof.
  intros Hd H. assert (0 < m) by (pose proof (Z.pow_pos_nonneg 2 (d - 1)); lia).
  rewrite Zdigits2_log2 by done.
  rewrite (Z.log2_unique m (d - 1)); [lia|lia|]. by replace (Z.succ (d - 1)) with d by lia.
Qed.

Lemma shr_m_of_loc m l : shr_m (shr_record_of_loc m l) = m.
Proof. by destruct l as [|[]]. Qed.

Lemma shr_1_div2 r : 0 ≤ shr_m r → shr_m (shr_1 r) = shr_m r / 2.
Proof.
  destruct r as [m rb sb]. cbn [shr_m]. intros H.
  destruct m as [|[p|p|]|p]; cbn [shr_1 shr_m]; [done| | |done|lia].
  - rewrite (Pos2Z.inj_xI p). apply Z.div_unique with 1; lia.
  - rewrite (Pos2Z.inj_xO p). apply Z.div_unique with 0; lia.
Qed.

Lemma iter_shr_1 p r :
  0 ≤ shr_m r → shr_m (SpecFloat.iter_pos shr_1 p r) = shr_m r / 2 ^ Zpos p.
Proof.
  assert (∀ m a b, 0 ≤ m → 0 < a → 0 < b → 0 ≤ m / a ∧ m / a / b = m / (a * b)) as Hdd.
  { intros m a b ? ? ?. split; [apply Z.div_pos; lia|]. rewrite Z.div_div; lia. }
  revert r. induction p as [p IH|p IH|]; intros r H; cbn [SpecFloat.iter_pos].
  - assert (0 ≤ shr_m (shr_1 r)) as H1.
    { rewrite shr_1_div2 by done. apply Z.div_pos; lia. }
    assert (0 ≤ shr_m (SpecFloat.iter_pos shr_1 p (shr_1 r))) as H2.
    { rewrite IH by done. apply Z.div_pos; [done|]. apply Z.pow_pos_nonneg; lia. }
    rewrite IH, IH, shr_1_div2 by done.
    rewrite !Z.div_div by (try apply Z.pow_pos_nonneg; lia).
    f_equal. rewrite (Pos2Z.inj_xI p).
    replace (2 * Z.pos p + 1) with (Z.succ (2 * Z.pos p)) by lia.
    rewrite Z.pow_succ_r by lia. rewrite Z.pow_twice_r by lia. lia.
  - assert (0 ≤ shr_m (SpecFloat.iter_pos shr_1 p r)) as H2.
    { rewrite IH by done. apply Z.div_pos; [done|]. apply Z.pow_pos_nonneg; lia. }
    rewrite IH, IH by done.
    rewrite !Z.div_div by (try apply Z.pow_pos_nonneg; lia).
    f_equal. by rewrite (Pos2Z.inj_xO p), Z.pow_twice_r.
  - by rewrite shr_1_div2.
Qed.

Lemma round_nearest_even_bounds m l : m ≤ round_nearest_even m l ≤ m + 1.
Proof. destruct l as [|[]]; cbn [round_nearest_even]; try destruct (Z.even m); lia. Qed.

Lemma Zdigits2_ge m k : 0 < k → 2 ^ (k - 1) ≤ m → k ≤ Zdigits2 m.
Proof.
  intros Hk H. assert (0 < m) by (pose proof (Z.pow_pos_nonneg 2 (k - 1)); lia).
  destruct (Zdigits2_bounds m) as [_ Hu]; [done|].
  destruct (Z.le_gt_cases k (Zdigits2 m)) as [|Hlt]; [done|]. exfalso.
  assert (2 ^ Zdigits2 m ≤ 2 ^ (k - 1)) by (apply Z.pow_le_mono_r; rewrite ?Zdigits2_log2 by done;
    [lia|pose proof (Z.log2_nonneg m); rewrite Zdigits2_log2 in Hlt by done; lia]).
  lia.
Qed.

Lemma Zdigits2_le m k : 0 < m → 0 ≤ k → m < 2 ^ k → Zdigits2 m ≤ k.
Proof.
  intros Hm Hk H. destruct (Zdigits2_bounds m) as [Hl _]; [done|].
  destruct (Z.le_gt_cases (Zdigits2 m) k) as [|Hlt]; [done|]. exfalso.
  assert (2 ^ k ≤ 2 ^ (Zdigits2 m - 1)) by (apply Z.pow_le_mono_r; lia).
  lia.
Qed.

Lemma shr_fexp_normal m e l :
  0 < m → 53 ≤ Zdigits2 m → -1021 ≤ Zdigits2 m + e →
  2 ^ 52 ≤ shr_m (shr_fexp 53 1024 m e l).1 < 2 ^ 53
  ∧ (shr_fexp 53 1024 m e l).2 = Zdigits2 m + e - 53.
Proof.
  intros Hm Hd He. unfold shr_fexp, shr.
  assert (fexp 53 1024 (Zdigits2 m + e) - e = Zdigits2 m - 53) as ->
    by (unfold fexp, emin; lia).
  destruct (Zdigits2_bounds m Hm) as [Hl Hu].
  destruct (Zdigits2 m - 53) as [|p|p] eqn:Hn; cbn [fst snd]; [| |lia].
  - rewrite shr_m_of_loc. replace (Zdigits2 m) with 53 in * by lia.
    change (53 - 1) with 52 in Hl. lia.
  - assert (0 < 2 ^ Z.pos p) by (apply Z.pow_pos_nonneg; lia).
    rewrite iter_shr_1 by (rewrite shr_m_of_loc; lia). rewrite shr_m_of_loc.
    replace (Zdigits2 m) with (Z.pos p + 53) in * by lia.
    replace (Z.pos p + 53 - 1) with (Z.pos p + 52) in Hl by lia.
    rewrite Z.pow_add_r in Hl, Hu by lia.
    split; [split|lia].
    + apply Z.div_le_lower_bound; lia.
    + apply Z.div_lt_upper_bound; lia.
Qed.

Lemma binary_round_aux_normal s m e l :
  0 < m → 53 ≤ Zdigits2 m → -1021 ≤ Zdigits2 m + e ≤ 1023 →
  ∃ m' e', binary_round_aux 53 1024 s m e l = S754_finite s m' e'
           ∧ 2 ^ 52 ≤ Z.pos m' < 2 ^ 53
           ∧ Zdigits2 m + e - 53 ≤ e' ≤ Zdigits2 m + e - 52.
Proof.
  intros Hm Hd He. unfold binary_round_aux.
  destruct (shr_fexp_normal m e l) as [H1 H1e]; [done..|lia|].
  destruct (shr_fexp 53 1024 m e l) as [mrs' e1]. cbn [fst snd] in H1, H1e.
  pose proof (round_nearest_even_bounds (shr_m mrs') (loc_of_shr_record mrs')) as Hr.
  set (mr := round_nearest_even (shr_m mrs') (loc_of_shr_record mrs')) in *.
  assert (53 ≤ Zdigits2 mr ≤ 54) as Hdr.
  { split; [apply Zdigits2_ge; [lia|]; change (53 - 1) with 52; lia|].
    apply Zdigits2_le; [lia..|]. change (2 ^ 54) with (2 * 2 ^ 53). lia. }
  destruct (shr_fexp_normal mr e1 loc_Exact) as [H2 H2e]; [lia..|].
  destruct (shr_fexp 53 1024 mr e1 loc_Exact) as [mrs'' e2]. cbn [fst snd] in H2, H2e.
  destruct (shr_m mrs'') as [|m'|m'] eqn:Hm'; [lia| |lia].
  exists m', e2. rewrite (proj2 (Z.leb_le e2 (1024 - 53))) by lia. split; [done|]. lia.
Qed.

Lemma iter_xO p d : Z.pos (Pos.iter xO p d) = Z.pos p * 2 ^ Z.pos d.
Proof.
  induction d as [|d IH] using Pos.peano_ind.
  - cbn [Pos.iter]. rewrite (Pos2Z.inj_xO p). change (2 ^ 1) with 2. lia.
  - rewrite Pos.iter_succ, (Pos2Z.inj_xO (Pos.iter xO p d)), IH, Pos2Z.inj_succ.
    rewrite Z.pow_succ_r by lia. lia.
Qed.

Lemma Zdigits2_shift m k : 0 < m → 0 ≤ k → Zdigits2 (m * 2 ^ k) = Zdigits2 m + k.
Proof.
  intros Hm Hk. destruct (Zdigits2_bounds m Hm) as [Hl Hu].
  assert (0 < Zdigits2 m) by (rewrite Zdigits2_log2 by done; pose proof (Z.log2_nonneg m); lia).
  assert (0 < 2 ^ k) by (apply Z.pow_pos_nonneg; lia).
  apply Zdigits2_unique; [lia|].
  replace (Zdigits2 m + k - 1) with (Zdigits2 m - 1 + k) by lia.
  rewrite !Z.pow_add_r by lia. split.
  - apply Z.mul_le_mono_nonneg_r; lia.
  - apply Z.mul_lt_mono_pos_r; lia.
Qed.

Lemma binary_round_normal mx ex :
  -1021 ≤ Zdigits2 (Z.pos mx) + ex ≤ 1023 →
  normal (Zdigits2 (Z.pos mx) + ex - 53) (Zdigits2 (Z.pos mx) + ex - 52)
    (binary_round 53 1024 false mx ex).
Proof.
  intros He. unfold binary_round, shl_align.
  change (Z.pos (digits2_pos mx)) with (Zdigits2 (Z.pos mx)).
  assert (fexp 53 1024 (Zdigits2 (Z.pos mx) + ex) - ex = Zdigits2 (Z.pos mx) - 53) as ->
    by (unfold fexp, emin; lia).
  assert (fexp 53 1024 (Zdigits2 (Z.pos mx) + ex) = Zdigits2 (Z.pos mx) + ex - 53) as Hf
    by (unfold fexp, emin; lia).
  destruct (Zdigits2 (Z.pos mx) - 53) as [|d|d] eqn:Hn.
  - destruct (binary_round_aux_normal false (Z.pos mx) ex loc_Exact)
      as (m' & e' & -> & ? & ?); [lia..|]. exists m', e'. split; [done|lia].
  - destruct (binary_round_aux_normal false (Z.pos mx) ex loc_Exact)
      as (m' & e' & -> & ? & ?); [lia..|]. exists m', e'. split; [done|lia].
  - rewrite Hf.
    assert (Zdigits2 (Z.pos (Pos.iter xO mx d)) = 53) as Hd.
    { rewrite iter_xO, Zdigits2_shift by lia. lia. }
    destruct (binary_round_aux_normal false (Z.pos (Pos.iter xO mx d))
                (Zdigits2 (Z.pos mx) + ex - 53) loc_Exact)
      as (m' & e' & -> & ? & ?); [lia..|]. exists m', e'. split; [done|lia].
Qed.

Lemma of_nat_normal n :
  (0 < n)%nat → Z.of_nat n < 2 ^ 53 → normal (-52) 1 (pyfloat.of_nat n).
Proof.
  intros Hn Hb. unfold pyfloat.of_nat, binary_normalize, pyfloat.prec, pyfloat.emax.
  destruct (Z.of_nat n) as [|p|p] eqn:Hp; [lia| |lia].
  assert (1 ≤ Zdigits2 (Z.pos p) ≤ 53) as Hd.
  { split; [apply Zdigits2_ge; [lia|]; change (2 ^ (1 - 1)) with 1; lia|].
    apply Zdigits2_le; lia. }
  destruct (binary_round_normal p 0) as (m & e & -> & ? & ?); [lia|].
  exists m, e. split; [done|lia].
Qed.

Lemma normal_digits m : 2 ^ 52 ≤ m < 2 ^ 53 → Zdigits2 m = 53.
Proof. intros H. apply Zdigits2_unique; [lia|]. by change (53 - 1) with 52. Qed.

Lemma truediv_normal x y lo hi lo' hi' :
  -400 ≤ lo → hi ≤ 400 → -400 ≤ lo' → hi' ≤ 400 →
  normal lo hi x → normal lo' hi' y →
  normal (lo - hi' - 53) (hi - lo' - 51) (pyfloat.truediv x y).
Proof.
  intros ? ? ? ? (mx & ex & -> & Hmx & Hex) (my & ey & -> & Hmy & Hey).
  unfold pyfloat.truediv, SFdiv, SFdiv_core_binary, pyfloat.prec, pyfloat.emax.
  rewrite !normal_digits by done.
  assert (Z.min (fexp 53 1024 (53 + ex - (53 + ey))) (ex - ey) = ex - ey - 53) as ->
    by (unfold fexp, emin; lia).
  replace (ex - ey - (ex - ey - 53)) with 53 by lia.
  rewrite Z.shiftl_mul_pow2 by lia.
  pose proof (Z.div_eucl_eq (Z.pos mx * 2 ^ 53) (Z.pos my)) as Hq.
  pose proof (Z.mod_pos_bound (Z.pos mx * 2 ^ 53) (Z.pos my)) as Hr.
  unfold Z.modulo in Hr.
  destruct (Z.div_eucl (Z.pos mx * 2 ^ 53) (Z.pos my)) as [q r].
  specialize (Hq ltac:(lia)). specialize (Hr ltac:(lia)).
  assert (2 ^ 52 ≤ q < 2 ^ 54) as Hqb by (split; nia).
  assert (53 ≤ Zdigits2 q ≤ 54) as Hdq.
  { split; [apply Zdigits2_ge; [lia|]; change (53 - 1) with 52; lia|].
    apply Zdigits2_le; lia. }
  destruct (binary_round_aux_normal (xorb false false) q (ex - ey - 53)
              (new_location (Z.pos my) r))
    as (m' & e' & -> & ? & ?); [lia..|].
  exists m', e'. split; [done|lia].
Qed.

Lemma mul_normal x y lo hi lo' hi' :
  -400 ≤ lo → hi ≤ 400 → -400 ≤ lo' → hi' ≤ 400 →
  normal lo hi x → normal lo' hi' y →
  normal (lo + lo' + 52) (hi + hi' + 54) (pyfloat.mul x y).
Proof.
  intros ? ? ? ? (mx & ex & -> & Hmx & Hex) (my & ey & -> & Hmy & Hey).
  unfold pyfloat.mul, SFmul, pyfloat.prec, pyfloat.emax.
  rewrite Pos2Z.inj_mul.
  assert (2 ^ 104 ≤ Z.pos mx * Z.pos my < 2 ^ 106) as Hp by (split; nia).
  assert (105 ≤ Zdigits2 (Z.pos mx * Z.pos my) ≤ 106) as Hd.
  { split; [apply Zdigits2_ge; [lia|]; change (105 - 1) with 104; lia|].
    apply Zdigits2_le; lia. }
  destruct (binary_round_aux_normal (xorb false false) (Z.pos mx * Z.pos my) (ex + ey) loc_Exact)
    as (m' & e' & -> & ? & ?); [lia..|].
  exists m', e'. split; [done|lia].
Qed.

Lemma percent_returns i n :
  (0 < n)%nat → Z.of_nat n < 2 ^ 53 → Z.of_nat i < 2 ^ 53 →
  ∃ z, ConversionWorker.percent i n = Ret z.
Proof.
  intros Hn Hnb Hib. unfold ConversionWorker.percent.
  destruct n as [|n']; [lia|]. set (n := S n') in *.
  pose proof (of_nat_normal n Hn Hnb) as Hy.
  pose proof (of_nat_normal 100 ltac:(lia) ltac:(done)) as Hc.
  destruct i as [|i'].
  - destruct Hy as (my & ey & -> & _). destruct Hc as (mc & ec & -> & _).
    change (pyfloat.of_nat 0) with (S754_zero false). cbn. by exists 0.
  - pose proof (of_nat_normal (S i') ltac:(lia) Hib) as Hx.
    pose proof (truediv_normal _ _ (-52) 1 (-52) 1
                  ltac:(lia) ltac:(lia) ltac:(lia) ltac:(lia) Hx Hy) as Hq.
    pose proof (mul_normal _ _ (-52 - 1 - 53) (1 - -52 - 51) (-52) 1
                  ltac:(lia) ltac:(lia) ltac:(lia) ltac:(lia) Hq Hc)
      as (m & e & -> & _).
    cbn [pyfloat.to_int]. eauto.
Qed.

Lemma new_location_spec d r : 0 < d → 0 ≤ r < d → new_location d r = location r d.
Proof.
  intros Hd Hr. unfold new_location, new_location_even, new_location_odd, location.
  destruct (Z.even d) eqn:Hev; [done|].
  destruct (r =? 0); [done|]. f_equal.
  assert (Z.odd d = true) as Hodd by (by rewrite <- Z.negb_even, Hev).
  apply Z.odd_spec in Hodd as [k Hk].
  destruct (Z.compare_spec (2 * r + 1) d), (Z.compare_spec (2 * r) d); try done; lia.
Qed.

Lemma loc_of_shr_record_of_loc m l : loc_of_shr_record (shr_record_of_loc m l) = l.
Proof. by destruct l as [|[]]. Qed.

Lemma represents_of_loc m r d :
  0 ≤ m → 0 ≤ r < d → represents (shr_record_of_loc m (location r d)) d (m * d + r).
Proof.
  intros Hm Hr. split; [by rewrite shr_m_of_loc|]. exists r.
  by rewrite shr_m_of_loc, loc_of_shr_record_of_loc.
Qed.

Lemma represents_exact m : 0 ≤ m → represents (shr_record_of_loc m loc_Exact) 1 m.
Proof.
  intros Hm. split; [done|]. exists 0. cbn [shr_record_of_loc shr_m loc_of_shr_record].
  split_and!; [lia|lia|lia|done].
Qed.

Lemma represents_shr_1 rec D T : 0 < D → represents rec D T → represents (shr_1 rec) (2 * D) T.
Proof.
  intros HD [Hm (R & HT & HR & Hloc)]. split.
  { rewrite shr_1_div2 by done. apply Z.div_pos; lia. }
  destruct rec as [m rb sb]. cbn [shr_m] in *.
  assert (∀ m' (b : bool),
            loc_of_shr_record {| shr_m := m'; shr_r := b; shr_s := rb || sb |}
            = location ((if b then 1 else 0) * D + R) (2 * D)) as Hbit.
  { intros m' b. unfold location in *.
    destruct rb, sb, b; cbn [loc_of_shr_record orb] in *;
      repeat match goal with
      | H : context [?x =? 0] |- _ => destruct (Z.eqb_spec x 0)
      | |- context [?x =? 0] => destruct (Z.eqb_spec x 0)
      | H : loc_Inexact _ = loc_Inexact _ |- _ => injection H as H
      | H : _ = (?x ?= ?y) |- _ => symmetry in H
      | H : (?x ?= ?y) = Lt |- _ => apply Z.compare_lt_iff in H
      | H : (?x ?= ?y) = Gt |- _ => apply Z.compare_gt_iff in H
      | H : (?x ?= ?y) = Eq |- _ => apply Z.compare_eq_iff in H
      end; try done; try lia; f_equal; symmetry;
      first [apply Z.compare_lt_iff|apply Z.compare_gt_iff|apply Z.compare_eq_iff]; lia. }
  destruct m as [|[p|p|]|p]; cbn [shr_1 shr_m]; [| | | |lia].
  - exists R. split; [lia|]. split; [lia|]. by rewrite Hbit, Z.mul_0_l.
  - exists (D + R). rewrite (Pos2Z.inj_xI p) in HT. split; [lia|]. split; [lia|].
    by rewrite Hbit, Z.mul_1_l.
  - exists R. rewrite (Pos2Z.inj_xO p) in HT. split; [lia|]. split; [lia|].
    by rewrite Hbit, Z.mul_0_l.
  - exists (D + R). split; [lia|]. split; [lia|]. by rewrite Hbit, Z.mul_1_l.
Qed.
Lemma represents_iter p rec D D' T :
  0 < D → D' = D * 2 ^ Z.pos p → represents rec D T →
  represents (SpecFloat.iter_pos shr_1 p rec) D' T.
Proof.
  revert rec D D'. induction p as [p IH|p IH|]; intros rec D D' HD -> H;
    cbn [SpecFloat.iter_pos].
  - assert (0 < 2 ^ Z.pos p) by (apply Z.pow_pos_nonneg; lia).
    apply (IH _ (2 * D * 2 ^ Z.pos p)); [lia| |].
    + rewrite (Pos2Z.inj_xI p).
      replace (2 * Z.pos p + 1) with (Z.succ (2 * Z.pos p)) by lia.
      rewrite Z.pow_succ_r, Z.pow_twice_r by lia. lia.
    + apply (IH _ (2 * D)); [lia|done|]. by apply represents_shr_1.
  - assert (0 < 2 ^ Z.pos p) by (apply Z.pow_pos_nonneg; lia).
    apply (IH _ (D * 2 ^ Z.pos p)); [lia| |].
    + rewrite (Pos2Z.inj_xO p), Z.pow_twice_r. lia.
    + by apply (IH _ D).
  - change (2 ^ 1) with 2. rewrite Z.mul_comm. by apply represents_shr_1.
Qed.

Lemma round_nearest_even_half rec D T :
  0 < D → represents rec D T →
  let mr := round_nearest_even (shr_m rec) (loc_of_shr_record rec) in
  shr_m rec ≤ mr ≤ shr_m rec + 1
  ∧ shr_m rec * D ≤ T
  ∧ (2 * mr - 1) * D ≤ 2 * T ≤ (2 * mr + 1) * D.
Proof.
  intros HD [Hm (R & -> & HR & Hloc)]. cbv zeta. rewrite Hloc.
  unfold location, round_nearest_even.
  destruct (Z.eqb_spec R 0) as [->|HR0]; [split; [lia|]; nia|].
  destruct (Z.compare_spec (2 * R) D); [destruct (Z.even (shr_m rec))|..];
    (split; [lia|]); nia.
Qed.

Lemma shr_fexp_represents m e l D T :
  0 < m → 53 ≤ Zdigits2 m → -1021 ≤ Zdigits2 m + e → 0 < D →
  represents (shr_record_of_loc m l) D T →
  ∃ n, 0 ≤ n ∧ n = Zdigits2 m - 53
       ∧ (shr_fexp 53 1024 m e l).2 = e + n
       ∧ represents (shr_fexp 53 1024 m e l).1 (D * 2 ^ n) T.
Proof.
  intros Hm Hd He HD Hrep. exists (Zdigits2 m - 53). unfold shr_fexp, shr.
  assert (fexp 53 1024 (Zdigits2 m + e) - e = Zdigits2 m - 53) as ->
    by (unfold fexp, emin; lia).
  destruct (Zdigits2 m - 53) as [|p|p] eqn:Hn; cbn [fst snd]; [| |lia].
  - split_and!; [lia|done|lia|]. change (2 ^ 0) with 1. by rewrite Z.mul_1_r.
  - split_and!; [lia|done|done|]. by apply (represents_iter p _ D).
Qed.

(** Rounding to nearest, ties to even, as [binary_round_aux] does it on a
    value [(q + r / d) · 2 ^ e] with a full mantissa: the result is a float
    [m · 2 ^ (e + n)] with a 53-bit mantissa, at most half a unit in the last
    place away from the value on either side, and at most a quarter below it
    when [m] is the smallest mantissa. *)
Lemma binary_round_aux_sandwich s q e r d :
  0 < q → 53 ≤ Zdigits2 q → -1021 ≤ Zdigits2 q + e ≤ 1023 → 0 ≤ r < d →
  ∃ m n, binary_round_aux 53 1024 s q e (location r d) = S754_finite s m (e + n)
         ∧ 2 ^ 52 ≤ Z.pos m < 2 ^ 53
         ∧ Zdigits2 q - 53 ≤ n ≤ Zdigits2 q - 52
         ∧ 2 * (q * d + r) ≤ (2 * Z.pos m + 1) * d * 2 ^ n
         ∧ (2 ^ 52 < Z.pos m → (2 * Z.pos m - 1) * d * 2 ^ n ≤ 2 * (q * d + r))
         ∧ (Z.pos m = 2 ^ 52 → (4 * Z.pos m - 1) * d * 2 ^ n ≤ 4 * (q * d + r)).
Proof.
  intros Hq Hd He Hr. unfold binary_round_aux.
  destruct (shr_fexp_normal q e (location r d)) as [H1 _]; [done..|lia|].
  destruct (shr_fexp_represents q e (location r d) d (q * d + r))
    as (n1 & Hn1 & Hn1d & He1 & Hrep1); [done..|lia|lia|by apply represents_of_loc; lia|].
  destruct (shr_fexp 53 1024 q e (location r d)) as [mrs' e1]. cbn [fst snd] in *.
  assert (0 < 2 ^ n1) as Hp1 by (apply Z.pow_pos_nonneg; lia).
  destruct (round_nearest_even_half mrs' (d * 2 ^ n1) (q * d + r))
    as (Hr1 & Hlow & Hhalf); [nia|done|].
  set (mr := round_nearest_even (shr_m mrs') (loc_of_shr_record mrs')) in *.
  assert (53 ≤ Zdigits2 mr ≤ 54) as Hdr.
  { split; [apply Zdigits2_ge; [lia|]; change (53 - 1) with 52; lia|].
    apply Zdigits2_le; [lia..|]. change (2 ^ 54) with (2 * 2 ^ 53). lia. }
  destruct (shr_fexp_normal mr e1 loc_Exact) as [H2 _]; [lia..|].
  destruct (shr_fexp_represents mr e1 loc_Exact 1 mr)
    as (n2 & Hn2 & Hn2d & He2 & Hrep2); [lia..|apply represents_exact; lia|].
  destruct (shr_fexp 53 1024 mr e1 loc_Exact) as [mrs'' e2]. cbn [fst snd] in *.
  destruct Hrep2 as [_ (R2 & HT2 & HR2 & _)]. rewrite Z.mul_1_l in HT2, HR2.
  destruct (shr_m mrs'') as [|m|m] eqn:Hm'; [lia| |lia].
  exists m, (n1 + n2). rewrite (proj2 (Z.leb_le e2 (1024 - 53))) by lia.
  replace (e + (n1 + n2)) with e2 by lia. split; [done|]. split; [done|]. split; [lia|].
  assert (n2 = 0 ∨ n2 = 1) as [->| ->] by lia.
  - change (2 ^ 0) with 1 in *. rewrite Z.add_0_r.
    assert (mr = Z.pos m) as Hmr by lia. rewrite Hmr in *.
    split_and!; [nia|intros _; nia|]. intros Hmin.
    assert (shr_m mrs' = Z.pos m) by lia. nia.
  - change (2 ^ 1) with 2 in *. assert (mr = 2 ^ 53) as Hmr.
    { destruct (Zdigits2_bounds mr) as [Hl _]; [lia|].
      replace (Zdigits2 mr) with 54 in Hl by lia. change (54 - 1) with 53 in Hl. lia. }
    assert (Z.pos m = 2 ^ 52) as Hm52 by lia.
    rewrite Z.pow_add_r by lia. change (2 ^ 1) with 2.
    rewrite Hmr in *. rewrite Hm52.
    split_and!; [nia|lia|intros _; nia].
Qed.

(** Two values [T / d · 2 ^ e < T' / d · 2 ^ e'] and floats that sandwich
    them: the floats are in the same order. *)
Lemma sandwich_monotone T T' d e e' m n m' n' :
  0 < d → e ≤ e' → T < T' * 2 ^ (e' - e) →
  2 ^ 52 ≤ m < 2 ^ 53 → 2 ^ 52 ≤ m' < 2 ^ 53 → 0 ≤ n → 0 ≤ n' →
  2 * T' ≤ (2 * m' + 1) * d * 2 ^ n' →
  (2 ^ 52 < m → (2 * m - 1) * d * 2 ^ n ≤ 2 * T) →
  (m = 2 ^ 52 → (4 * m - 1) * d * 2 ^ n ≤ 4 * T) →
  e + n < e' + n' ∨ (e + n = e' + n' ∧ m ≤ m').
Proof.
  intros Hd He Hlt Hm Hm' Hn Hn' HU HL HQ.
  destruct (Z.lt_ge_cases (e + n) (e' + n')) as [|Hge]; [by left|right].
  set (δ := e' - e) in *. set (ε := e + n - (e' + n')).
  assert (0 ≤ δ) by (subst δ; lia). assert (0 ≤ ε) by (subst ε; lia).
  assert (n = n' + δ + ε) as Hnn by (subst δ ε; lia).
  assert (2 ^ n = 2 ^ n' * 2 ^ δ * 2 ^ ε) as Hpow by (by rewrite Hnn, !Z.pow_add_r by lia).
  assert (0 < 2 ^ n') by (apply Z.pow_pos_nonneg; lia).
  assert (0 < 2 ^ δ) by (apply Z.pow_pos_nonneg; lia).
  assert (0 < 2 ^ ε) by (apply Z.pow_pos_nonneg; lia).
  set (P := d * 2 ^ n' * 2 ^ δ). assert (0 < P) as HP by (subst P; nia).
  assert (2 * T < (2 * m' + 1) * P) as HUP.
  { subst P. apply Z.lt_le_trans with (2 * (T' * 2 ^ δ)); [lia|].
    replace ((2 * m' + 1) * (d * 2 ^ n' * 2 ^ δ))
      with ((2 * m' + 1) * d * 2 ^ n' * 2 ^ δ) by ring.
    replace (2 * (T' * 2 ^ δ)) with (2 * T' * 2 ^ δ) by ring.
    apply Z.mul_le_mono_nonneg_r; lia. }
  rewrite Hpow in HL, HQ.
  replace ((2 * m - 1) * d * (2 ^ n' * 2 ^ δ * 2 ^ ε))
    with ((2 * m - 1) * 2 ^ ε * P) in HL by (subst P; ring).
  replace ((4 * m - 1) * d * (2 ^ n' * 2 ^ δ * 2 ^ ε))
    with ((4 * m - 1) * 2 ^ ε * P) in HQ by (subst P; ring).
  assert (ε = 0 ∨ 1 ≤ ε) as [Hε|Hε] by lia.
  - rewrite Hε in *. change (2 ^ 0) with 1 in *. split; [subst ε; lia|].
    destruct (Z.eq_dec m (2 ^ 52)) as [Hmin|Hmin]; [lia|].
    specialize (HL ltac:(lia)).
    assert ((2 * m - 1) * 1 * P < (2 * m' + 1) * P) as Hc by lia.
    apply Z.mul_lt_mono_pos_r in Hc; lia.
  - exfalso. assert (2 ≤ 2 ^ ε) as HX.
    { change 2 with (2 ^ 1) at 1. apply Z.pow_le_mono_r; lia. }
    destruct (Z.eq_dec m (2 ^ 52)) as [Hmin|Hmin].
    + specialize (HQ Hmin).
      assert ((4 * m - 1) * 2 ^ ε * P < 2 * (2 * m' + 1) * P) as Hc by lia.
      apply Z.mul_lt_mono_pos_r in Hc; [|done].
      assert ((4 * m - 1) * 2 ≤ (4 * m - 1) * 2 ^ ε)
        by (apply Z.mul_le_mono_nonneg_l; lia).
      lia.
    + specialize (HL ltac:(lia)).
      assert ((2 * m - 1) * 2 ^ ε * P < (2 * m' + 1) * P) as Hc by lia.
      apply Z.mul_lt_mono_pos_r in Hc; [|done].
      assert ((2 * m - 1) * 2 ≤ (2 * m - 1) * 2 ^ ε)
        by (apply Z.mul_le_mono_nonneg_l; lia).
      lia.
Qed.

Lemma rounds_to_monotone x x' T T' d e e' :
  0 < d → e ≤ e' → T < T' * 2 ^ (e' - e) →
  rounds_to x T d e → rounds_to x' T' d e' → fle x x'.
Proof.
  intros Hd He Hlt (m & n & -> & Hm & Hn & _ & HL & HQ) (m' & n' & -> & Hm' & Hn' & HU & _).
  cbn [fle]. by eapply (sandwich_monotone T T' d).
Qed.

Lemma rounds_to_binary_round_aux q e r d :
  0 < q → 53 ≤ Zdigits2 q → -1021 ≤ Zdigits2 q + e ≤ 1023 → 0 ≤ r < d →
  rounds_to (binary_round_aux 53 1024 false q e (location r d)) (q * d + r) d e.
Proof.
  intros Hq Hd He Hr.
  destruct (binary_round_aux_sandwich false q e r d)
    as (m & n & -> & Hm & Hn & HU & HL & HQ); [done..|].
  exists m, n. split_and!; [done|lia|lia|lia|done..].
Qed.

(** A normalized mantissa-exponent pair that is smaller in the order is
    smaller in value. *)
Lemma normal_lt_scaled m e m' e' :
  2 ^ 52 ≤ m < 2 ^ 53 → 2 ^ 52 ≤ m' < 2 ^ 53 →
  e < e' ∨ (e = e' ∧ m < m') → m < m' * 2 ^ (e' - e).
Proof.
  intros Hm Hm' [He|[-> Hlt]].
  - assert (2 ≤ 2 ^ (e' - e)).
    { change 2 with (2 ^ 1) at 1. apply Z.pow_le_mono_r; lia. }
    nia.
  - replace (e' - e') with 0 by lia. change (2 ^ 0) with 1. lia.
Qed.

Lemma truediv_rounds_to mx ex my ey :
  2 ^ 52 ≤ Z.pos mx < 2 ^ 53 → 2 ^ 52 ≤ Z.pos my < 2 ^ 53 →
  -400 ≤ ex ≤ 400 → -400 ≤ ey ≤ 400 →
  rounds_to (pyfloat.truediv (S754_finite false mx ex) (S754_finite false my ey))
    (Z.pos mx * 2 ^ 53) (Z.pos my) (ex - ey - 53).
Proof.
  intros Hmx Hmy Hex Hey.
  unfold pyfloat.truediv, SFdiv, SFdiv_core_binary, pyfloat.prec, pyfloat.emax.
  rewrite !normal_digits by done.
  assert (Z.min (fexp 53 1024 (53 + ex - (53 + ey))) (ex - ey) = ex - ey - 53) as ->
    by (unfold fexp, emin; lia).
  replace (ex - ey - (ex - ey - 53)) with 53 by lia.
  rewrite Z.shiftl_mul_pow2 by lia.
  pose proof (Z.div_eucl_eq (Z.pos mx * 2 ^ 53) (Z.pos my)) as Hq.
  pose proof (Z.mod_pos_bound (Z.pos mx * 2 ^ 53) (Z.pos my)) as Hr.
  unfold Z.modulo in Hr.
  destruct (Z.div_eucl (Z.pos mx * 2 ^ 53) (Z.pos my)) as [q r].
  specialize (Hq ltac:(lia)). specialize (Hr ltac:(lia)).
  assert (2 ^ 52 ≤ q < 2 ^ 54) as Hqb by (split; nia).
  assert (53 ≤ Zdigits2 q ≤ 54) as Hdq.
  { split; [apply Zdigits2_ge; [lia|]; change (53 - 1) with 52; lia|].
    apply Zdigits2_le; lia. }
  rewrite new_location_spec by lia. cbn [xorb].
  replace (Z.pos mx * 2 ^ 53) with (q * Z.pos my + r) by lia.
  apply rounds_to_binary_round_aux; lia.
Qed.

Lemma mul_rounds_to mx ex my ey :
  2 ^ 52 ≤ Z.pos mx < 2 ^ 53 → 2 ^ 52 ≤ Z.pos my < 2 ^ 53 →
  -400 ≤ ex ≤ 400 → -400 ≤ ey ≤ 400 →
  rounds_to (pyfloat.mul (S754_finite false mx ex) (S754_finite false my ey))
    (Z.pos mx * Z.pos my) 1 (ex + ey).
Proof.
  intros Hmx Hmy Hex Hey. unfold pyfloat.mul, SFmul, pyfloat.prec, pyfloat.emax.
  rewrite Pos2Z.inj_mul. cbn [xorb].
  assert (2 ^ 104 ≤ Z.pos mx * Z.pos my < 2 ^ 106) as Hp by (split; nia).
  assert (105 ≤ Zdigits2 (Z.pos mx * Z.pos my) ≤ 106) as Hd.
  { split; [apply Zdigits2_ge; [lia|]; change (105 - 1) with 104; lia|].
    apply Zdigits2_le; lia. }
  change loc_Exact with (location 0 1).
  replace (Z.pos mx * Z.pos my) with (Z.pos mx * Z.pos my * 1 + 0) at 2 by lia.
  apply rounds_to_binary_round_aux; lia.
Qed.

Lemma of_nat_rounds_to n :
  (0 < n)%nat → Z.of_nat n < 2 ^ 53 →
  rounds_to (pyfloat.of_nat n)
    (Z.of_nat n * 2 ^ (53 - Zdigits2 (Z.of_nat n))) 1 (Zdigits2 (Z.of_nat n) - 53).
Proof.
  intros Hn Hb. unfold pyfloat.of_nat, binary_normalize, pyfloat.prec, pyfloat.emax.
  destruct (Z.of_nat n) as [|p|p] eqn:Hp; [lia| |lia].
  assert (1 ≤ Zdigits2 (Z.pos p) ≤ 53) as Hd.
  { split; [apply Zdigits2_ge; [lia|]; change (2 ^ (1 - 1)) with 1; lia|].
    apply Zdigits2_le; lia. }
  unfold binary_round, shl_align.
  change (Z.pos (digits2_pos p)) with (Zdigits2 (Z.pos p)).
  assert (fexp 53 1024 (Zdigits2 (Z.pos p) + 0) = Zdigits2 (Z.pos p) - 53) as ->
    by (unfold fexp, emin; lia).
  change loc_Exact with (location 0 1).
  destruct (Zdigits2 (Z.pos p) - 53 - 0) as [|k|k] eqn:Hk; [|lia|].
  - replace (Zdigits2 (Z.pos p)) with 53 by lia. change (53 - 53) with 0.
    change (2 ^ 0) with 1.
    replace (Z.pos p * 1) with (Z.pos p * 1 + 0) by lia.
    apply rounds_to_binary_round_aux; lia.
  - replace (53 - Zdigits2 (Z.pos p)) with (Z.pos k) by lia.
    rewrite <- iter_xO.
    assert (Zdigits2 (Z.pos (Pos.iter xO p k)) = 53) as Hd53.
    { rewrite iter_xO, Zdigits2_shift by lia. lia. }
    replace (Z.pos (Pos.iter xO p k)) with (Z.pos (Pos.iter xO p k) * 1 + 0) at 2 by lia.
    apply rounds_to_binary_round_aux; lia.
Qed.

Lemma fle_refl lo hi x : normal lo hi x → fle x x.
Proof. intros (m & e & -> & _). cbn. lia. Qed.

Lemma Zdigits2_mono a b : 0 < a ≤ b → Zdigits2 a ≤ Zdigits2 b.
Proof.
  intros H. rewrite !Zdigits2_log2 by lia.
  pose proof (Z.log2_le_mono a b). lia.
Qed.



Lemma mul_monotone x x' y :
  normal (-400) 400 x → normal (-400) 400 x' → normal (-400) 400 y →
  fle x x' → fle (pyfloat.mul x y) (pyfloat.mul x' y).
Proof.
  intros Hx Hx' Hy Hle.
  assert (x = x' ∨ x ≠ x') as [->|Hne].
  { destruct Hx as (mx & ex & -> & _), Hx' as (mx' & ex' & -> & _).
    destruct (Z.eq_dec ex ex') as [->|], (Pos.eq_dec mx mx') as [->|];
      [by left|right; congruence..]. }
  { eapply fle_refl, (mul_normal _ _ (-400) 400 (-400) 400); done. }
  destruct Hx as (mx & ex & -> & Hmx & Hex), Hx' as (mx' & ex' & -> & Hmx' & Hex'),
    Hy as (my & ey & -> & Hmy & Hey).
  cbn [fle] in Hle.
  assert (ex < ex' ∨ (ex = ex' ∧ Z.pos mx < Z.pos mx')) as Hlt.
  { destruct Hle as [|[-> Hm]]; [by left|right]. split; [done|].
    destruct (Z.eq_dec (Z.pos mx) (Z.pos mx')) as [[= ->]|]; [done|lia]. }
  eapply (rounds_to_monotone _ _ _ _ 1); [lia| | |by apply mul_rounds_to..]; [lia|].
  replace (ex' + ey - (ex + ey)) with (ex' - ex) by lia.
  pose proof (normal_lt_scaled _ _ _ _ Hmx Hmx' Hlt). nia.
Qed.

Lemma shiftl_scaled m e k : 0 ≤ e + k → 0 ≤ k → Z.shiftl m e = m * 2 ^ (e + k) / 2 ^ k.
Proof.
  intros Hek Hk. assert (0 < 2 ^ k) by (apply Z.pow_pos_nonneg; lia).
  destruct (Z.le_gt_cases 0 e) as [He|He].
  - rewrite Z.shiftl_mul_pow2, Z.pow_add_r, Z.mul_assoc, Z.div_mul by lia. done.
  - rewrite Z.shiftl_div_pow2 by lia.
    replace k with (e + k + - e) at 2 by lia. rewrite (Z.pow_add_r 2 (e + k) (- e)) by lia.
    rewrite (Z.mul_comm m), Z.div_mul_cancel_l; [done|apply Z.pow_nonzero; lia..].
Qed.

Lemma to_int_monotone x x' a b :
  normal (-400) 400 x → normal (-400) 400 x' → fle x x' →
  pyfloat.to_int x = Some a → pyfloat.to_int x' = Some b → (0 ≤ a ≤ b).
Proof.
  intros (m & e & -> & Hm & He) (m' & e' & -> & Hm' & He') Hle [= <-] [= <-].
  cbn [fle cond_Zopp] in *. split; [apply Z.shiftl_nonneg; lia|].
  rewrite (shiftl_scaled _ e 400), (shiftl_scaled _ e' 400) by lia.
  apply Z.div_le_mono; [lia|].
  assert (0 < 2 ^ (e + 400)) by (apply Z.pow_pos_nonneg; lia).
  destruct Hle as [Hlt|[-> Hle]]; [|nia].
  replace (e' + 400) with (e + 400 + (e' - e)) by lia.
  rewrite (Z.pow_add_r 2 (e + 400) (e' - e)) by lia.
  pose proof (normal_lt_scaled (Z.pos m) e (Z.pos m') e' Hm Hm' ltac:(lia)). nia.
Qed.



End float_facts.

(** ** Batch Orchestrator *)

Section orchestrator.
Import PyStr runtime ConversionWorker batch.
Variable converter_convert :
  string → string → string → gmap string pyval → M filesystem event bool.
Variable output_format output_dir : string.
Variable options : gmap string pyval.

Local Abbreviation run_loop := (run_loop converter_convert output_format output_dir options).
Local Abbreviation run := (run converter_convert output_format output_dir options).

Lemma attempted_app evs1 evs2 : attempted (evs1 ++ evs2) = attempted evs1 ++ attempted evs2.
Proof. induction evs1 as [|[?|? ? ?] evs1 IH]; cbn [attempted app]; by rewrite ?IH. Qed.

Lemma returned_app b evs1 evs2 :
  returned b (evs1 ++ evs2) = (returned b evs1 + returned b evs2)%nat.
Proof.
  induction evs1 as [|[?|? [?|?] ?] evs1 IH]; cbn [returned app]; rewrite ?IH; lia.
Qed.

Lemma raised_app evs1 evs2 : raised (evs1 ++ evs2) = (raised evs1 + raised evs2)%nat.
Proof.
  induction evs1 as [|[?|? [?|?] ?] evs1 IH]; cbn [raised app]; rewrite ?IH; lia.
Qed.

Local Abbreviation rounds := (rounds converter_convert output_format output_dir options).

Lemma rounds_attempted total_files i files fs evs fs' :
  rounds total_files i files fs evs fs' → attempted evs = files.
Proof.
  induction 1 as [|i f files v r cevs evs fs fs1 fs' Hv Hc _ IH]; [done|].
  rewrite attempted_app, IH. by destruct r.
Qed.

Lemma rounds_outcomes total_files i files fs evs fs' :
  rounds total_files i files fs evs fs' →
  (returned true evs + returned false evs + raised evs)%nat = length files.
Proof.
  induction 1 as [|i f files v r cevs evs fs fs1 fs' Hv Hc _ IH]; [done|].
  rewrite !returned_app, raised_app. cbn [length].
  destruct r as [[]|e]; cbn; lia.
Qed.

(** A converter that never raises leaves no raised attempt. *)
Lemma rounds_no_raise total_files i files fs evs fs' :
  (∀ file_path fs0, ∃ b, (converter_convert file_path output_format output_dir options fs0).1.1
                         = Ret b) →
  rounds total_files i files fs evs fs' → raised evs = 0%nat.
Proof.
  intros Hconv. induction 1 as [|i f files v r cevs evs fs fs1 fs' Hv Hc _ IH]; [done|].
  rewrite raised_app, IH. destruct (Hconv f fs) as [b Hb]. rewrite Hc in Hb.
  cbn in Hb. by subst r.
Qed.

(** One run of the loop body and the rest of the loop. *)
Lemma run_loop_rounds total_files i files success_count fs :
  (i + length files ≤ total_files)%nat → (Z.of_nat total_files < 2 ^ 53)%Z →
  ∃ fs' evs,
    run_loop total_files i files success_count fs =
      (Ret (success_count + returned true evs)%nat, fs', evs)
    ∧ rounds total_files i files fs evs fs'.
Proof.
  revert i success_count fs.
  induction files as [|file_path files IH]; intros i success_count fs Hi Hb.
  - exists fs, []. split; [|constructor]. cbn. by rewrite Nat.add_0_r.
  - cbn [length] in Hi.
    destruct (percent_returns i total_files) as [value Hv]; [lia..|].
    destruct (converter_convert file_path output_format output_dir options fs)
      as [[r fs1] cevs] eqn:Hc.
    assert (∃ n,
        loop_body converter_convert output_format output_dir options
          total_files i file_path success_count fs =
        (Ret n, fs1, round_events value file_path r cevs)
        ∧ n = (success_count + returned true (round_events value file_path r cevs))%nat)
      as (n & Hbody & Hn).
    { cbv beta iota zeta delta
        [loop_body try_except call_convert mbind M_bind bind of_outcome emit
         mret M_ret ret].
      rewrite Hv, Hc. cbv beta iota. destruct r as [b|e]; cbv beta iota.
      - eexists. split; [reflexivity|]. destruct b; cbn; lia.
      - eexists. split; [reflexivity|]. cbn. lia. }
    destruct (IH (S i) n fs1) as (fs' & evs & Hrest & Hrounds); [lia|done|].
    exists fs', (round_events value file_path r cevs ++ evs). split.
    + cbn [ConversionWorker.run_loop]. rewrite bind_unfold, Hbody, Hrest.
      rewrite returned_app. do 3 f_equal. lia.
    + by econstructor.
Qed.

(** The whole run: the rounds of the loop, then the summary. *)
Lemma run_rounds (input_files : list string) (fs : filesystem) :
  (Z.of_nat (length input_files) < 2 ^ 53)%Z →
  ∃ fs' evs,
    run_loop (length input_files) 0 input_files 0 fs = (Ret (returned true evs), fs', evs)
    ∧ run input_files fs =
      (Ret tt, fs', evs ++ [summary (returned true evs) (length input_files)])
    ∧ rounds (length input_files) 0 input_files fs evs fs'.
Proof.
  intros Hb.
  destruct (run_loop_rounds (length input_files) 0 input_files 0 fs)
    as (fs' & evs & Hloop & Hrounds); [lia|done|].
  exists fs', evs. split_and!; [done| |done].
  unfold ConversionWorker.run. rewrite bind_unfold, Hloop. reflexivity.
Qed.


Lemma progress_values_app evs1 evs2 :
  progress_values (evs1 ++ evs2) = progress_values evs1 ++ progress_values evs2.
Proof.
  induction evs1 as [|[[? ?|? ?]|? ? ?] evs1 IH]; cbn [progress_values app];
    by rewrite ?IH.
Qed.





(** C9: on the empty list the run emits the summary
    [(True, "Converted 0 of 0 files successfully")] and nothing else: no
    progress signal, no call of [convert], no exception, the file system
    untouched. The division [i / 0] would raise [ZeroDivisionError]; it is
    not evaluated. *)
Theorem run_empty (fs : filesystem) :
  run [] fs =
    (Ret tt, fs, [Emit (conversion_complete true "Converted 0 of 0 files successfully")])
  ∧ ∀ i, percent i 0 = Raise (Exception "ZeroDivisionError" "division by zero").
Proof. split; [reflexivity|done]. Qed.

End orchestrator.

(** With a converter of the registry, which never raises, every file of the
    batch ends as a success or as a failure. *)
Lemma run_registry_converter (P : platform) (c : converter)
    (output_format output_dir : string) (options : gmap string pyval)
    (input_files : list string) (fs : filesystem) :
  (Z.of_nat (length input_files) < 2 ^ 53)%Z →
  ∃ fs' evs,
    ConversionWorker.run (convert P c) output_format output_dir options input_files fs =
      (Ret tt, fs',
       evs ++ [batch.summary (batch.returned true evs) (length input_files)])
    ∧ batch.attempted evs = input_files
    ∧ (batch.returned true evs + batch.returned false evs)%nat = length input_files.
Proof.
  intros Hb.
  destruct (run_rounds (convert P c) output_format output_dir options input_files fs Hb)
    as (fs' & evs & _ & Hrun & Hrounds).
  exists fs', evs. split_and!; [done|by eapply rounds_attempted|].
  pose proof (rounds_outcomes _ _ _ _ _ _ _ _ _ _ Hrounds) as Hsum.
  assert (batch.raised evs = 0%nat) as Hnone; [|lia].
  eapply rounds_no_raise; [|exact Hrounds].
  intros file_path fs0.
  destruct (convert P c file_path output_format output_dir options fs0)
    as [[r fs1] cevs] eqn:Hc.
  destruct (convert_failsafe _ _ _ _ _ _ _ _ _ _ Hc) as [[b ->] _]. by exists b.
Qed.

Section orchestrator_examples.
Import PyStr runtime ConversionWorker batch.


Example run_two_of_three :
  (run samples.png_only "jpg" "/out" ∅ ["/in/a.png"; "/in/b.txt"; "/in/c.png"] ∅).2 =
  [Emit (progress_update 0 "Converting a.png..."); Attempt "/in/a.png" (Ret true) [];
   Emit (progress_update 33 "Converting b.txt..."); Attempt "/in/b.txt" (Ret false) [];
   Emit (progress_update 66 "Converting c.png..."); Attempt "/in/c.png" (Ret true) [];
   Emit (conversion_complete false "Converted 2 of 3 files successfully")].
Proof. by vm_compute. Qed.


Example run_progress_values :
  progress_values
    (run samples.png_only "jpg" "/out" ∅ ["/in/a.png"; "/in/b.txt"; "/in/c.png"] ∅).2
  = [0; 33; 66]%Z.
Proof. by vm_compute. Qed.

(** The value is the binary64 one, as Python evaluates the expression:
    [29 / 50 * 100] is [57.99999999999999] there, so the signal for index 29
    of 50 files carries 57, while [29 · 100 / 50] over the rationals is 58. *)
Remark percent_rounds_down :
  percent 29 50 = Ret 57%Z
  ∧ exact_percent 29 50 = 58%Z
  ∧ progress_values
      (run samples.png_only "jpg" "/out" ∅ samples.fifty_files ∅).2 !! 29%nat = Some 57%Z.
Proof. split_and!; by vm_compute. Qed.

End orchestrator_examples.

(** * Further properties *)

Section more_string_facts.
Import PyStr.

Lemma lower_char_idem a : lower_char (lower_char a) = lower_char a.
Proof. by destruct a as [[] [] [] [] [] [] [] []]. Qed.

Lemma lower_idem s : lower (lower s) = lower s.
Proof. induction s as [|a s IH]; [done|]. cbn [lower]. by rewrite lower_char_idem, IH. Qed.

Lemma lower_char_eqb_dot a : Ascii.eqb (lower_char a) "." = Ascii.eqb a ".".
Proof. by destruct a as [[] [] [] [] [] [] [] []]. Qed.

Lemma lower_char_eqb_sep a : Ascii.eqb (lower_char a) "/" = Ascii.eqb a "/".
Proof. by destruct a as [[] [] [] [] [] [] [] []]. Qed.

Lemma contains_dot_lower s : contains "." (lower s) = contains "." s.
Proof.
  induction s as [|a s IH]; [done|]. cbn [lower contains].
  by rewrite lower_char_eqb_dot, IH.
Qed.

Lemma contains_sep_lower s : contains "/" (lower s) = contains "/" s.
Proof.
  induction s as [|a s IH]; [done|]. cbn [lower contains].
  by rewrite lower_char_eqb_sep, IH.
Qed.

Lemma lower_replace_dot s : lower (replace "." "" s) = replace "." "" (lower s).
Proof.
  induction s as [|a s IH]; [done|]. cbn [lower replace].
  rewrite lower_char_eqb_dot. destruct (Ascii.eqb a ".").
  - done.
  - cbn [lower]. by rewrite IH.
Qed.

Lemma contains_sep_replace_dot s : contains "/" (replace "." "" s) = contains "/" s.
Proof.
  induction s as [|a s IH]; [done|]. cbn [replace contains].
  destruct (Ascii.eqb_spec a ".") as [->|]; [done|]. cbn [contains]. by rewrite IH.
Qed.

(** Normalising an output format twice is normalising it once. *)
Lemma normalize_idem s :
  replace "." "" (lower (replace "." "" (lower s))) = replace "." "" (lower s).
Proof.
  rewrite lower_replace_dot, lower_idem.
  apply replace_absent, replace_empty_absent.
Qed.

Lemma length_append s t : String.length (s +:+ t) = (String.length s + String.length t)%nat.
Proof. induction s as [|a s IH]; [done|]. rewrite append_cons. cbn. by rewrite IH. Qed.

Lemma drop_append_cons s c t : drop (S (String.length s)) (s +:+ String c t) = t.
Proof. induction s as [|a s IH]; [by destruct t|]. by rewrite append_cons. Qed.

(** [splitext] on a path whose last component is [root.e]. *)
Lemma splitext_in_directory pre root e :
  pre = "" ∨ (∃ d, pre = d +:+ "/") →
  contains "/" (root +:+ String "." e) = false →
  posixpath.skip_leading_dots root = true →
  contains "." e = false →
  posixpath.splitext (pre +:+ root +:+ String "." e) = (pre +:+ root, String "." e).
Proof.
  intros [->|[d ->]] Hsep Hroot He; [by apply splitext_last_extension|].
  assert (rfind "/" ((d +:+ "/") +:+ root +:+ String "." e)
          = Z.of_nat (String.length d)) as Hs.
  { rewrite append_assoc. change ("/" +:+ ?s) with (String "/" s).
    by rewrite rfind_append_last. }
  assert (rfind "." ((d +:+ "/") +:+ root +:+ String "." e)
          = Z.of_nat (String.length ((d +:+ "/") +:+ root))) as Hd.
  { rewrite <- (append_assoc (d +:+ "/") root (String "." e)).
    by rewrite rfind_append_last. }
  unfold posixpath.splitext. rewrite Hs, Hd.
  rewrite <- (append_assoc (d +:+ "/") root (String "." e)).
  unfold slice, slice_to, slice_from. rewrite Nat2Z.id, take_append_length, drop_append_length.
  replace (Z.to_nat (Z.of_nat (String.length d) + 1)) with (S (String.length d)) by lia.
  rewrite (append_assoc d "/" root). change ("/" +:+ root) with (String "/" root).
  rewrite drop_append_cons, Hroot.
  rewrite (proj2 (Z.ltb_lt _ _)); [done|].
  rewrite length_append. cbn [String.length]. lia.
Qed.

(** The extension as the classifier reads it and as the converters read
    it. *)
Lemma extension_two_ways p :
  replace "." "" (lower (posixpath.splitext p).2)
  = lower (slice_from 1 (posixpath.splitext p).2).
Proof.
  destruct (splitext_spec p) as [_ [->|(e & -> & He)]]; [done|].
  change (slice_from 1 (String "." e)) with e.
  cbn [lower]. change (lower_char ".") with "."%char. cbn [replace].
  change (Ascii.eqb "." ".") with true. cbv iota.
  change ("" +:+ replace "." "" (lower e)) with (replace "." "" (lower e)).
  apply replace_absent. by rewrite contains_dot_lower.
Qed.

End more_string_facts.

Lemma not_elem_of_compute (x : string) (X : gset string) :
  bool_decide (x ∈ X) = false → x ∉ X.
Proof. apply bool_decide_eq_false_1. Qed.

Section validation.
Import PyStr runtime file_utils.
Variable P : platform.

Lemma image_unsupported_input input_path output_format output_dir options fs :
  ImageConverter.is_supported_input input_path = false →
  ImageConverter.convert P input_path output_format output_dir options fs =
  (Ret false, fs,
   [Log "ERROR" ("Unsupported input format: "
                 +:+ lower (slice_from 1 (posixpath.splitext input_path).2))]).
Proof.
  unfold ImageConverter.is_supported_input, ImageConverter.convert,
    ImageConverter.convert_body, try_except.
  cbv zeta. by intros ->.
Qed.

Lemma audio_unsupported_input input_path output_format output_dir options fs :
  AudioConverter.is_supported_input input_path = false →
  AudioConverter.convert P input_path output_format output_dir options fs =
  (Ret false, fs,
   [Log "ERROR" ("Unsupported input format: "
                 +:+ lower (slice_from 1 (posixpath.splitext input_path).2))]).
Proof.
  unfold AudioConverter.is_supported_input, AudioConverter.convert,
    AudioConverter.convert_body, try_except.
  cbv zeta. by intros ->.
Qed.

Lemma video_unsupported_input input_path output_format output_dir options fs :
  VideoConverter.is_supported_input input_path = false →
  VideoConverter.convert P input_path output_format output_dir options fs =
  (Ret false, fs,
   [Log "ERROR" ("Unsupported input format: "
                 +:+ lower (slice_from 1 (posixpath.splitext input_path).2))]).
Proof.
  unfold VideoConverter.is_supported_input, VideoConverter.convert,
    VideoConverter.convert_body, try_except.
  cbv zeta. by intros ->.
Qed.

Lemma document_unsupported_input input_path output_format output_dir options fs :
  DocumentConverter.is_supported_input input_path = false →
  DocumentConverter.convert P input_path output_format output_dir options fs =
  (Ret false, fs,
   [Log "ERROR" ("Unsupported input format: "
                 +:+ lower (slice_from 1 (posixpath.splitext input_path).2))]).
Proof.
  unfold DocumentConverter.is_supported_input, DocumentConverter.convert,
    DocumentConverter.convert_body, try_except.
  cbv zeta. by intros ->.
Qed.

(** X1: a file for which [is_supported_input] of a converter answers
    [False] is refused by [convert] of that converter whatever the output
    format, the directory and the options: the result is [False], the only
    trace is the error record naming the extension, and the file system is
    neither asked nor changed. *)
Theorem convert_rejects_unsupported_input (c : converter)
    (input_path output_format output_dir : string) (options : gmap string pyval)
    (fs : filesystem) :
  is_supported_input c input_path = false →
  convert P c input_path output_format output_dir options fs =
  (Ret false, fs,
   [Log "ERROR" ("Unsupported input format: "
                 +:+ lower (slice_from 1 (posixpath.splitext input_path).2))]).
Proof.
  destruct c; cbn [is_supported_input convert];
    auto using image_unsupported_input, audio_unsupported_input,
      video_unsupported_input, document_unsupported_input.
Qed.

(** X2: a file the converter accepts, with an output format that is not
    among the converter's outputs once lower-cased and freed of dots, is
    refused: [False], one error record naming the normalised format, the
    file system neither asked nor changed. *)
Theorem convert_rejects_unsupported_output (c : converter)
    (input_path output_format output_dir : string) (options : gmap string pyval)
    (fs : filesystem) :
  is_supported_input c input_path = true →
  replace "." "" (lower output_format) ∉ supported_outputs c →
  convert P c input_path output_format output_dir options fs =
  (Ret false, fs,
   [Log "ERROR" ("Unsupported output format: " +:+ replace "." "" (lower output_format))]).
Proof.
  intros Hin Hout.
  destruct c; cbn [is_supported_input convert supported_outputs] in *;
    unfold ImageConverter.is_supported_input, ImageConverter.convert,
      ImageConverter.convert_body,
      AudioConverter.is_supported_input, AudioConverter.convert,
      AudioConverter.convert_body,
      VideoConverter.is_supported_input, VideoConverter.convert,
      VideoConverter.convert_body,
      DocumentConverter.is_supported_input, DocumentConverter.convert,
      DocumentConverter.convert_body, try_except in *;
    cbv zeta in *; rewrite Hin; cbn [negb];
    rewrite bool_decide_false by done; reflexivity.
Qed.

End validation.

Section validation_examples.
Import PyStr runtime file_utils.

Lemma convert_rejects_unsupported_input_witness :
  is_supported_input audio_converter "/in/clip.mp4" = false
  ∧ convert samples.broken audio_converter "/in/clip.mp4" "mp3" "/out" ∅ ∅ =
    (Ret false, ∅, [Log "ERROR" "Unsupported input format: mp4"]).
Proof.
  split; [done|].
  exact (convert_rejects_unsupported_input samples.broken audio_converter
           "/in/clip.mp4" "mp3" "/out" ∅ ∅ eq_refl).
Defined.

Lemma convert_rejects_unsupported_output_witness :
  is_supported_input image_converter "/in/a.png" = true
  ∧ (replace "." "" (lower ".PDF") ∉ supported_outputs image_converter)
  ∧ convert samples.broken image_converter "/in/a.png" ".PDF" "/out" ∅ ∅ =
    (Ret false, ∅, [Log "ERROR" "Unsupported output format: pdf"]).
Proof.
  assert (replace "." "" (lower ".PDF") ∉ supported_outputs image_converter) as H.
  { by apply not_elem_of_compute. }
  split_and!; [done|done|].
  exact (convert_rejects_unsupported_output samples.broken image_converter
           "/in/a.png" ".PDF" "/out" ∅ ∅ eq_refl H).
Defined.

End validation_examples.

Section input_formats.
Import PyStr runtime file_utils.

Lemma is_supported_input_unfold (c : converter) (file_path : string) :
  is_supported_input c file_path
  = bool_decide (lower (slice_from 1 (posixpath.splitext file_path).2) ∈ supported_inputs c).
Proof. by destruct c. Qed.

(** X3: whether a converter accepts a file is decided by the text after
    the last dot of the file name, compared without regard to case: for a
    path [<pre><root>.<e>] whose directory part [<pre>] is empty or ends in
    a slash, whose [<root>] has a character other than a dot and whose
    [<e>] has no dot, [is_supported_input] says whether the lower-cased
    [<e>] is one of the converter's input formats. *)
Theorem is_supported_input_last_extension (c : converter) (pre root e : string) :
  pre = "" ∨ (∃ d, pre = d +:+ "/") →
  contains "/" (root +:+ String "." e) = false →
  posixpath.skip_leading_dots root = true →
  contains "." e = false →
  is_supported_input c (pre +:+ root +:+ String "." e)
  = bool_decide (lower e ∈ supported_inputs c).
Proof.
  intros Hpre Hsep Hroot He.
  by rewrite is_supported_input_unfold, splitext_in_directory.
Qed.

Lemma is_supported_input_last_extension_witness :
  ("/in/" = "" ∨ ∃ d, "/in/" = d +:+ "/")
  ∧ contains "/" ("holiday.v2" +:+ String "." "JPG") = false
  ∧ posixpath.skip_leading_dots "holiday.v2" = true
  ∧ contains "." "JPG" = false
  ∧ is_supported_input image_converter ("/in/" +:+ "holiday.v2" +:+ String "." "JPG")
    = bool_decide (lower "JPG" ∈ supported_inputs image_converter).
Proof.
  assert ("/in/" = "" ∨ ∃ d, "/in/" = d +:+ "/") as H by (right; by exists "/in").
  split_and!; [done..|].
  exact (is_supported_input_last_extension image_converter "/in/" "holiday.v2" "JPG"
           H eq_refl eq_refl eq_refl).
Defined.

Lemma is_supported_input_elem (c : converter) (file_path : string) :
  is_supported_input c file_path = true ↔
  lower (slice_from 1 (posixpath.splitext file_path).2) ∈ supported_inputs c.
Proof. rewrite is_supported_input_unfold. apply bool_decide_eq_true. Qed.

Lemma supported_inputs_disjoint (c c' : converter) (ext : string) :
  ext ∈ supported_inputs c → ext ∈ supported_inputs c' → c = c'.
Proof.
  destruct c, c'; intros H1 H2; try reflexivity; exfalso; cbn [supported_inputs] in *;
    unfold ImageConverter.SUPPORTED_INPUT_FORMATS, VideoConverter.SUPPORTED_INPUT_FORMATS,
      DocumentConverter.SUPPORTED_INPUT_FORMATS, AudioConverter.SUPPORTED_INPUT_FORMATS in H1;
    set_unfold in H1; destruct_or!; subst ext;
    revert H2; apply not_elem_of_compute; vm_compute; reflexivity.
Qed.

(** X4: no file is accepted by two converters: the four sets of input
    formats are pairwise disjoint, and all four converters read the
    extension in the same way. *)
Theorem is_supported_input_exclusive (c c' : converter) (file_path : string) :
  is_supported_input c file_path = true →
  is_supported_input c' file_path = true →
  c = c'.
Proof. rewrite !is_supported_input_elem. apply supported_inputs_disjoint. Qed.

Lemma is_supported_input_exclusive_witness :
  is_supported_input video_converter "/in/clip.MP4" = true
  ∧ is_supported_input video_converter "/in/clip.MP4" = true
  ∧ video_converter = video_converter.
Proof.
  split_and!; [done..|].
  exact (is_supported_input_exclusive video_converter video_converter "/in/clip.MP4"
           eq_refl eq_refl).
Defined.

End input_formats.

Section dispatch_and_validation.
Import PyStr runtime file_utils.

(** X5: the format box offers GIF among the video formats and the video
    converter lists [gif] among its outputs, but the dispatcher hands the
    format [gif] to the image converter, which refuses every file the
    video converter accepts: through the dispatcher no video file is ever
    turned into a GIF, whatever the platform, the options and the file
    system. *)
Theorem gif_refused_for_video_input (P : platform)
    (input_path output_dir : string) (options : gmap string pyval) (fs : filesystem) :
  is_supported_input video_converter input_path = true →
  "gif" ∈ supported_outputs video_converter
  ∧ ∃ c, FileConverterApp.get_converter_for_format "gif" = Some c
         ∧ convert P c input_path "gif" output_dir options fs =
           (Ret false, fs,
            [Log "ERROR" ("Unsupported input format: "
                          +:+ lower (slice_from 1 (posixpath.splitext input_path).2))]).
Proof.
  intros Hv. split; [apply elem_of_compute; by vm_compute|].
  exists image_converter. split; [done|].
  apply image_unsupported_input.
  destruct (ImageConverter.is_supported_input input_path) eqn:Hi; [|done].
  by pose proof (supported_inputs_disjoint image_converter video_converter _
                   (proj1 (is_supported_input_elem image_converter _) Hi)
                   (proj1 (is_supported_input_elem video_converter _) Hv)).
Qed.

Lemma gif_refused_for_video_input_witness :
  is_supported_input video_converter "/in/clip.mp4" = true
  ∧ ∃ c, FileConverterApp.get_converter_for_format "gif" = Some c
         ∧ convert samples.quiet c "/in/clip.mp4" "gif" "/out" ∅ ∅ =
           (Ret false, ∅, [Log "ERROR" "Unsupported input format: mp4"]).
Proof.
  split; [done|].
  exact (proj2 (gif_refused_for_video_input samples.quiet "/in/clip.mp4" "/out" ∅ ∅
                  eq_refl)).
Defined.

End dispatch_and_validation.

Section output_paths.
Import PyStr runtime file_utils.

Lemma startswith_sep_absent s : contains "/" s = false → startswith s "/" = false.
Proof.
  destruct s as [|a s]; [done|]. cbn [contains]. intros [Ha _]%orb_false_iff.
  unfold startswith. cbn [String.prefix].
  destruct (ascii_dec "/" a) as [<-|]; [|done]. by rewrite Ascii.eqb_refl in Ha.
Qed.

(** [os.path.join(a, b)] for a [b] without slash puts a directory part in
    front of [b] that is empty or ends in a slash. *)
Lemma join_prefix a b :
  contains "/" b = false →
  ∃ pre, posixpath.join a b = pre +:+ b ∧ (pre = "" ∨ ∃ d, pre = d +:+ "/").
Proof.
  intros Hb. unfold posixpath.join. rewrite startswith_sep_absent by done.
  destruct (String.eqb_spec a "") as [->|Ha]; cbn [orb].
  - exists "". by split; [|left].
  - destruct (endswith a "/") eqn:E.
    + exists a. split; [done|]. right. by apply endswith_iff.
    + exists (a +:+ "/"). split; [by rewrite append_assoc|]. right. by exists a.
Qed.

Lemma basename_in_directory pre name :
  pre = "" ∨ (∃ d, pre = d +:+ "/") →
  contains "/" name = false →
  posixpath.basename (pre +:+ name) = name.
Proof.
  intros [->|[d ->]] Hname; unfold posixpath.basename, slice_from.
  - change ("" +:+ name) with name. rewrite rfind_absent_eq by done.
    change (Z.to_nat (-1 + 1)) with 0%nat. by destruct name.
  - rewrite append_assoc. change ("/" +:+ name) with (String "/" name).
    rewrite rfind_append_last by done.
    replace (Z.to_nat (Z.of_nat (String.length d) + 1)) with (S (String.length d)) by lia.
    apply drop_append_cons.
Qed.

Lemma splitext_root_no_sep name :
  contains "/" name = false → contains "/" (posixpath.splitext name).1 = false.
Proof.
  intros H. destruct (splitext_spec name) as [E _]. rewrite E in H.
  rewrite contains_append in H. by apply orb_false_iff in H as [? _].
Qed.

(** X6: the converters hand [get_output_path] the format they have
    already lower-cased and freed of dots; normalising is idempotent, so
    the path a converter writes to is the path [get_output_path] gives for
    the format as the caller passed it. *)
Theorem get_output_path_normalized (input_path output_format output_dir : string) :
  get_output_path input_path (replace "." "" (lower output_format)) output_dir
  = get_output_path input_path output_format output_dir.
Proof. unfold get_output_path. by rewrite normalize_idem. Qed.

(** X7: reading back what [get_output_path] built. When the format has no
    slash and the input's file name, without its last extension, has a
    character other than a dot, the file name of the output path is
    [<base>.<format>], its extension as the converters read it is the
    normalised format, and so a converter accepts the output of a
    conversion as its input exactly when the format is among its input
    formats. *)
Theorem get_output_path_extension (input_path output_format output_dir : string) :
  let fmt := replace "." "" (lower output_format) in
  let base := (posixpath.splitext (posixpath.basename input_path)).1 in
  let path := get_output_path input_path output_format output_dir in
  contains "/" output_format = false →
  posixpath.skip_leading_dots base = true →
  posixpath.basename path = base +:+ "." +:+ fmt
  ∧ lower (slice_from 1 (posixpath.splitext path).2) = fmt
  ∧ ∀ c, is_supported_input c path = bool_decide (fmt ∈ supported_inputs c).
Proof.
  intros fmt base path Hfmt Hbase.
  assert (contains "/" fmt = false) as Hfmt'
    by (subst fmt; by rewrite contains_sep_replace_dot, contains_sep_lower).
  assert (contains "." fmt = false) as Hdot by apply replace_empty_absent.
  assert (lower fmt = fmt) as Hlow
    by (subst fmt; by rewrite lower_replace_dot, lower_idem).
  assert (contains "/" base = false) as Hb
    by apply splitext_root_no_sep, basename_no_sep.
  assert (contains "/" (base +:+ String "." fmt) = false) as Hname.
  { rewrite contains_append. cbn [contains]. by rewrite Hb, Hfmt'. }
  destruct (join_prefix output_dir (base +:+ String "." fmt) Hname) as (pre & E & Hpre).
  assert (path = pre +:+ base +:+ String "." fmt) as ->.
  { subst path. unfold get_output_path. fold base. fold fmt. exact E. }
  split_and!.
  - by apply basename_in_directory.
  - rewrite splitext_in_directory by done. cbn [snd]. exact Hlow.
  - intros c. rewrite is_supported_input_unfold, splitext_in_directory by done.
    cbn [snd]. change (slice_from 1 (String "." fmt)) with fmt. by rewrite Hlow.
Qed.

Lemma get_output_path_extension_witness :
  contains "/" ".PNG" = false
  ∧ posixpath.skip_leading_dots
      (posixpath.splitext (posixpath.basename "/in/report.v2.jpg")).1 = true
  ∧ posixpath.basename (get_output_path "/in/report.v2.jpg" ".PNG" "/out")
    = "report.v2" +:+ "." +:+ "png"
  ∧ is_supported_input image_converter (get_output_path "/in/report.v2.jpg" ".PNG" "/out")
    = true.
Proof.
  destruct (get_output_path_extension "/in/report.v2.jpg" ".PNG" "/out" eq_refl eq_refl)
    as (H1 & _ & H3).
  split_and!; [done|done|exact H1|].
  rewrite H3. by vm_compute.
Defined.

End output_paths.

Section classifier_and_converters.
Import PyStr runtime file_utils.

(** Two prefixes of one string: one of them is a prefix of the other. *)
Lemma prefix_comparable p q m :
  String.prefix p m = true → String.prefix q m = true →
  String.prefix p q = true ∨ String.prefix q p = true.
Proof.
  revert q m. induction p as [|a p IH]; intros [|b q] [|c m]; cbn [String.prefix];
    try (by auto).
  destruct (ascii_dec a c) as [->|]; [|done].
  destruct (ascii_dec b c) as [->|]; [|done].
  destruct (ascii_dec c c); [|done]. apply IH.
Qed.

Lemma mime_startswith_other (m : string) (p q : string) :
  String.prefix p q = false → String.prefix q p = false →
  startswith m p = true → mime_startswith (Some m) q = false.
Proof.
  intros Hpq Hqp Hp. unfold mime_startswith.
  destruct (startswith m q) eqn:Hq; [|apply andb_false_r].
  destruct (prefix_comparable p q m Hp Hq); congruence.
Qed.

Lemma get_file_type_unfold (P : platform) (file_path : string) (fs : filesystem) :
  is_Some (fs !! file_path) →
  let ext := lower (slice_from 1 (posixpath.splitext file_path).2) in
  let mime_type := guess_type P file_path in
  bool_decide (ext ∈ image_extensions) || mime_startswith mime_type "image/"
  || (bool_decide (ext ∈ video_extensions) || mime_startswith mime_type "video/")
  || (bool_decide (ext ∈ document_extensions)
      || (mime_startswith mime_type "application/" || mime_startswith mime_type "text/"))
  || (bool_decide (ext ∈ audio_extensions) || mime_startswith mime_type "audio/") = true →
  get_file_type P file_path fs =
  (Ret (if bool_decide (ext ∈ image_extensions) || mime_startswith mime_type "image/"
        then "image"
        else if bool_decide (ext ∈ video_extensions) || mime_startswith mime_type "video/"
        then "video"
        else if bool_decide (ext ∈ document_extensions)
                || (mime_startswith mime_type "application/"
                    || mime_startswith mime_type "text/")
        then "document"
        else "audio"),
   fs,
   [Query (Call "os.path.exists" [VStr file_path] []);
    Query (Call "mimetypes.guess_type" [VStr file_path] [])]).
Proof.
  intros Hex ext mime_type Hdec. unfold get_file_type.
  rewrite bind_unfold, os_path_exists_unfold, bool_decide_true by done.
  cbn [negb]. rewrite bind_unfold. unfold mimetypes_guess_type.
  rewrite extension_two_ways. fold ext. fold mime_type.
  destruct (bool_decide (ext ∈ image_extensions) || mime_startswith mime_type "image/");
    [done|].
  destruct (bool_decide (ext ∈ video_extensions) || mime_startswith mime_type "video/");
    [done|].
  destruct (bool_decide (ext ∈ document_extensions)
            || (mime_startswith mime_type "application/"
                || mime_startswith mime_type "text/")); [done|].
  destruct (bool_decide (ext ∈ audio_extensions) || mime_startswith mime_type "audio/");
    [done|]. done.
Qed.

(** X8: a path that exists and whose extension is in one of the four
    extension sets is classified without being opened: the classifier
    returns one of [image], [video], [document], [audio] after the two
    questions [os.path.exists] and [mimetypes.guess_type], also on a
    directory and on a file that may not be read, where [imghdr.what]
    would raise. An extension of the image set gives [image] whatever the
    MIME type. *)
Theorem get_file_type_known_extension (P : platform) (file_path : string)
    (fs : filesystem) :
  let ext := lower (slice_from 1 (posixpath.splitext file_path).2) in
  is_Some (fs !! file_path) →
  ext ∈ image_extensions ∪ video_extensions ∪ document_extensions ∪ audio_extensions →
  ∃ category,
    get_file_type P file_path fs =
    (Ret category, fs,
     [Query (Call "os.path.exists" [VStr file_path] []);
      Query (Call "mimetypes.guess_type" [VStr file_path] [])])
    ∧ category ∈ ["image"; "video"; "document"; "audio"]
    ∧ (ext ∈ image_extensions → category = "image").
Proof.
  intros ext Hex Hext. eexists. split_and!.
  - apply get_file_type_unfold; [done|]. fold ext.
    apply elem_of_union in Hext as [[[Hext|Hext]%elem_of_union|Hext]%elem_of_union|Hext];
      rewrite (bool_decide_true _ Hext); cbn [orb]; by rewrite ?orb_true_r.
  - fold ext.
    repeat (destruct (_ || _); [repeat constructor|]). repeat constructor.
  - fold ext. intros Hi. by rewrite (bool_decide_true _ Hi).
Qed.

Lemma get_file_type_known_extension_witness :
  is_Some (({[ "/srv/scans.PDF" := Directory ]} : filesystem) !! "/srv/scans.PDF")
  ∧ lower (slice_from 1 (posixpath.splitext "/srv/scans.PDF").2) ∈
      image_extensions ∪ video_extensions ∪ document_extensions ∪ audio_extensions
  ∧ ∃ category,
      get_file_type samples.quiet "/srv/scans.PDF" {[ "/srv/scans.PDF" := Directory ]} =
      (Ret category, {[ "/srv/scans.PDF" := Directory ]},
       [Query (Call "os.path.exists" [VStr "/srv/scans.PDF"] []);
        Query (Call "mimetypes.guess_type" [VStr "/srv/scans.PDF"] [])]).
Proof.
  assert (is_Some (({[ "/srv/scans.PDF" := Directory ]} : filesystem) !! "/srv/scans.PDF"))
    as H1 by (rewrite lookup_singleton_eq; eauto).
  assert (lower (slice_from 1 (posixpath.splitext "/srv/scans.PDF").2) ∈
            image_extensions ∪ video_extensions ∪ document_extensions ∪ audio_extensions)
    as H2 by (apply elem_of_compute; by vm_compute).
  split_and!; [done..|].
  destruct (get_file_type_known_extension samples.quiet "/srv/scans.PDF" _ H1 H2)
    as (category & H & _).
  by exists category.
Defined.

Lemma supported_input_extension_sets (c : converter) (ext : string) :
  ext ∈ supported_inputs c →
  bool_decide (ext ∈ image_extensions)
    = match c with image_converter => true | _ => false end
  ∧ bool_decide (ext ∈ video_extensions)
    = match c with video_converter => true | _ => false end
  ∧ bool_decide (ext ∈ document_extensions)
    = match c with document_converter => true | _ => false end
  ∧ bool_decide (ext ∈ audio_extensions)
    = match c with audio_converter => true | _ => false end.
Proof.
  destruct c; cbn [supported_inputs];
    unfold ImageConverter.SUPPORTED_INPUT_FORMATS, VideoConverter.SUPPORTED_INPUT_FORMATS,
      DocumentConverter.SUPPORTED_INPUT_FORMATS, AudioConverter.SUPPORTED_INPUT_FORMATS;
    intros H; set_unfold in H; destruct_or!; subst ext; vm_compute; auto.
Qed.

(** X9: the classifier and the converters agree. A file that exists, that
    a converter accepts, and whose MIME type, if the table has one, bears a
    prefix of that converter's category, is classified in that category,
    after the two questions [os.path.exists] and [mimetypes.guess_type] and
    without being opened. *)
Theorem get_file_type_agrees_with_converter (P : platform) (c : converter)
    (file_path : string) (fs : filesystem) :
  is_Some (fs !! file_path) →
  is_supported_input c file_path = true →
  (∀ m, guess_type P file_path = Some m →
        ∃ p, p ∈ mime_prefixes c ∧ startswith m p = true) →
  get_file_type P file_path fs =
  (Ret (category c), fs,
   [Query (Call "os.path.exists" [VStr file_path] []);
    Query (Call "mimetypes.guess_type" [VStr file_path] [])]).
Proof.
  intros Hex Hin Hmime. apply is_supported_input_elem in Hin.
  destruct (supported_input_extension_sets c _ Hin) as (H1 & H2 & H3 & H4).
  assert (∀ q, (∀ p, p ∈ mime_prefixes c →
                     String.prefix p q = false ∧ String.prefix q p = false) →
               mime_startswith (guess_type P file_path) q = false) as Hother.
  { intros q Hq. destruct (guess_type P file_path) as [m|] eqn:Em; [|done].
    destruct (Hmime m eq_refl) as (p & Hp & Hm).
    destruct (Hq p Hp). by eapply mime_startswith_other. }
  assert (∀ q, Forall (λ p, String.prefix p q = false ∧ String.prefix q p = false)
                 (mime_prefixes c) →
               mime_startswith (guess_type P file_path) q = false) as Hfar.
  { intros q Hq. apply Hother. by apply Forall_forall. }
  clear Hother Hmime Hin.
  rewrite get_file_type_unfold; [|done|]; rewrite H1, H2, H3; clear H1 H2 H3.
  - clear H4. do 2 f_equal.
    destruct c; cbn [orb category mime_prefixes] in *;
      rewrite ?(Hfar "image/"), ?(Hfar "video/"), ?(Hfar "application/"),
        ?(Hfar "text/") by (repeat constructor);
      reflexivity.
  - destruct c; cbn [orb]; rewrite ?H4, ?orb_true_r; reflexivity.
Qed.

Lemma get_file_type_agrees_with_converter_witness :
  let P := Platform "posix" (λ _, Some "application/vnd.ms-powerpoint") (λ _, None)
             (λ _ fs, (Ret VNone, fs)) in
  is_Some (({[ "/in/talk.PPT" := RegularFile false "" ]} : filesystem) !! "/in/talk.PPT")
  ∧ is_supported_input document_converter "/in/talk.PPT" = true
  ∧ get_file_type P "/in/talk.PPT" {[ "/in/talk.PPT" := RegularFile false "" ]} =
    (Ret "document", {[ "/in/talk.PPT" := RegularFile false "" ]},
     [Query (Call "os.path.exists" [VStr "/in/talk.PPT"] []);
      Query (Call "mimetypes.guess_type" [VStr "/in/talk.PPT"] [])]).
Proof.
  intros P.
  assert (is_Some (({[ "/in/talk.PPT" := RegularFile false "" ]} : filesystem)
                     !! "/in/talk.PPT")) as H1 by (rewrite lookup_singleton_eq; eauto).
  split_and!; [done..|].
  apply (get_file_type_agrees_with_converter P document_converter
           "/in/talk.PPT" _ H1 eq_refl).
  intros m [= <-]. exists "application/". split; [|done].
  apply elem_of_cons. by left.
Defined.

End classifier_and_converters.

Section directories.
Import PyStr runtime file_utils.

(** X10: [create_directory_if_not_exists] on a path that exists answers
    [True] at once: it asks [os.path.exists], creates nothing, and leaves
    the file system as it is. The path need not be a directory: a regular
    file of that name gives [True] as well. *)
Theorem create_directory_existing (P : platform) (directory : string) (fs : filesystem) :
  is_Some (fs !! directory) →
  create_directory_if_not_exists P directory fs =
  (Ret true, fs, [Query (Call "os.path.exists" [VStr directory] [])]).
Proof.
  intros H. unfold create_directory_if_not_exists, try_except.
  rewrite bind_unfold, os_path_exists_unfold, bool_decide_true by done.
  reflexivity.
Qed.

Lemma create_directory_existing_witness :
  is_Some (({[ "/out" := RegularFile true "not a directory" ]} : filesystem) !! "/out")
  ∧ create_directory_if_not_exists samples.broken "/out"
      {[ "/out" := RegularFile true "not a directory" ]} =
    (Ret true, {[ "/out" := RegularFile true "not a directory" ]},
     [Query (Call "os.path.exists" [VStr "/out"] [])]).
Proof.
  assert (is_Some (({[ "/out" := RegularFile true "not a directory" ]} : filesystem)
                     !! "/out")) as H by (rewrite lookup_singleton_eq; eauto).
  split; [done|].
  exact (create_directory_existing samples.broken "/out" _ H).
Defined.



End directories.

Section document_routes.
Import PyStr runtime file_utils.

Lemma document_delegate_unrouted (P : platform)
    (input_path ext fmt output_path : string) :
  ext ∈ DocumentConverter.SUPPORTED_INPUT_FORMATS →
  fmt ∈ DocumentConverter.SUPPORTED_OUTPUT_FORMATS →
  (ext, fmt) ∉ routes →
  DocumentConverter.delegate P input_path ext fmt output_path =
  (logger_error ("Conversion from " +:+ ext +:+ " to " +:+ fmt +:+ " is not supported");;
   mret false).
Proof.
  unfold DocumentConverter.SUPPORTED_INPUT_FORMATS, DocumentConverter.SUPPORTED_OUTPUT_FORMATS.
  intros Hin Hout Hr. set_unfold in Hin. set_unfold in Hout.
  destruct_or!; subst ext fmt;
    first [ reflexivity
          | exfalso; apply Hr; unfold routes;
            repeat (apply elem_of_cons; first [by left|right]) ].
Qed.

(** X12: the document converter has a branch for thirteen pairs of input
    extension and output format only. For any other pair of a supported
    input and a supported output (every pair with input [rtf] or [odt],
    every pair with output [rtf], [odt], [pptx] or [html], and pairs such
    as [pdf] to [pdf]) [convert] answers [False] and calls no delegate: it
    asks whether the output path exists and then logs either the conflict
    or that the conversion is not supported. *)
Theorem document_convert_unrouted (P : platform)
    (input_path output_format output_dir : string) (options : gmap string pyval)
    (fs : filesystem) :
  let ext := lower (slice_from 1 (posixpath.splitext input_path).2) in
  let fmt := replace "." "" (lower output_format) in
  let output_path := get_output_path input_path fmt output_dir in
  ext ∈ DocumentConverter.SUPPORTED_INPUT_FORMATS →
  fmt ∈ DocumentConverter.SUPPORTED_OUTPUT_FORMATS →
  (ext, fmt) ∉ routes →
  DocumentConverter.convert P input_path output_format output_dir options fs =
  (Ret false, fs,
   [Query (Call "os.path.exists" [VStr output_path] []);
    if bool_decide (is_Some (fs !! output_path))
       && negb (truthy (options_get options "overwrite" (VBool false)))
    then Log "WARNING" ("Output file already exists: " +:+ output_path)
    else Log "ERROR" ("Conversion from " +:+ ext +:+ " to " +:+ fmt
                      +:+ " is not supported")]).
Proof.
  intros ext fmt output_path Hin Hout Hr.
  unfold DocumentConverter.convert, DocumentConverter.convert_body, try_except.
  fold ext. rewrite bool_decide_true by done. cbn [negb].
  fold fmt. rewrite bool_decide_true by done. cbn [negb].
  fold output_path. rewrite bind_unfold, os_path_exists_unfold.
  rewrite document_delegate_unrouted by done.
  by destruct (bool_decide (is_Some (fs !! output_path))
               && negb (truthy (options_get options "overwrite" (VBool false)))).
Qed.

Lemma document_convert_unrouted_witness :
  lower (slice_from 1 (posixpath.splitext "/in/notes.txt").2)
    ∈ DocumentConverter.SUPPORTED_INPUT_FORMATS
  ∧ replace "." "" (lower "HTML") ∈ DocumentConverter.SUPPORTED_OUTPUT_FORMATS
  ∧ DocumentConverter.convert samples.quiet "/in/notes.txt" "HTML" "/out" ∅ ∅ =
    (Ret false, ∅,
     [Query (Call "os.path.exists" [VStr "/out/notes.html"] []);
      Log "ERROR" "Conversion from txt to html is not supported"]).
Proof.
  assert (lower (slice_from 1 (posixpath.splitext "/in/notes.txt").2)
            ∈ DocumentConverter.SUPPORTED_INPUT_FORMATS) as H1
    by (apply elem_of_compute; by vm_compute).
  assert (replace "." "" (lower "HTML") ∈ DocumentConverter.SUPPORTED_OUTPUT_FORMATS) as H2
    by (apply elem_of_compute; by vm_compute).
  assert ((lower (slice_from 1 (posixpath.splitext "/in/notes.txt").2),
           replace "." "" (lower "HTML")) ∉ routes) as H3.
  { intros H. unfold routes in H.
    repeat (apply elem_of_cons in H as [H|H]; [discriminate H|]). by apply elem_of_nil in H. }
  split_and!; [done..|].
  pose proof (document_convert_unrouted samples.quiet "/in/notes.txt" "HTML" "/out" ∅ ∅
                H1 H2 H3) as H.
  rewrite lookup_empty, bool_decide_false in H by (by intros [? ?]).
  exact H.
Defined.

End document_routes.

Section success.
Import PyStr runtime file_utils.



















End success.

Section progress_range.
Local Open Scope Z_scope.

(** An integer with 53 binary digits rounds to itself. *)
Lemma rounds_to_exact x T e :
  2 ^ 52 ≤ T < 2 ^ 53 → rounds_to x T 1 e → x = S754_finite false (Z.to_pos T) e.
Proof.
  intros HT (m & n & -> & Hm & Hn & Hup & Hlo & Hlo').
  assert (n = 0) as ->.
  { destruct (decide (n = 0)) as [|Hne]; [done|exfalso].
    assert (2 ≤ 2 ^ n) by (change 2 with (2 ^ 1) at 1; apply Z.pow_le_mono_r; lia).
    destruct (decide (Z.pos m = 2 ^ 52)) as [E|E].
    - specialize (Hlo' E). nia.
    - specialize (Hlo ltac:(lia)). nia. }
  change (2 ^ 0) with 1 in *. rewrite Z.add_0_r.
  assert (Z.pos m = T) as <-.
  { destruct (decide (Z.pos m = 2 ^ 52)) as [E|E]; [lia|].
    specialize (Hlo ltac:(lia)). lia. }
  by rewrite Pos2Z.id.
Qed.

Lemma of_nat_exact n :
  (0 < n)%nat → Z.of_nat n < 2 ^ 53 →
  let d := Zdigits2 (Z.of_nat n) in
  2 ^ 52 ≤ Z.of_nat n * 2 ^ (53 - d) < 2 ^ 53
  ∧ 1 ≤ d ≤ 53
  ∧ pyfloat.of_nat n = S754_finite false (Z.to_pos (Z.of_nat n * 2 ^ (53 - d))) (d - 53).
Proof.
  intros Hn Hb d.
  assert (1 ≤ d ≤ 53) as Hd.
  { split; [apply Zdigits2_ge; [lia|]; change (2 ^ (1 - 1)) with 1; lia|].
    apply Zdigits2_le; lia. }
  assert (2 ^ 52 ≤ Z.of_nat n * 2 ^ (53 - d) < 2 ^ 53) as HT.
  { pose proof (Zdigits2_bounds (Z.of_nat n) ltac:(lia)) as Hbd. fold d in Hbd.
    assert (0 < 2 ^ (53 - d)) by (apply Z.pow_pos_nonneg; lia).
    replace (2 ^ 52) with (2 ^ (d - 1) * 2 ^ (53 - d))
      by (rewrite <- Z.pow_add_r by lia; f_equal; lia).
    replace (2 ^ 53) with (2 ^ d * 2 ^ (53 - d))
      by (rewrite <- Z.pow_add_r by lia; f_equal; lia).
    nia. }
  split_and!; [lia..|].
  apply rounds_to_exact; [done|]. by apply of_nat_rounds_to.
Qed.

(** A proper fraction of two integers below [2^53] rounds to a float below
    1. *)
Lemma truediv_below_one i n :
  (0 < i < n)%nat → Z.of_nat n < 2 ^ 53 →
  fle (pyfloat.truediv (pyfloat.of_nat i) (pyfloat.of_nat n)) below_one.
Proof.
  intros Hin Hb.
  destruct (of_nat_exact i ltac:(lia) ltac:(lia)) as (HTi & Hdi & ->).
  destruct (of_nat_exact n ltac:(lia) ltac:(lia)) as (HTn & Hdn & ->).
  pose proof (Zdigits2_mono (Z.of_nat i) (Z.of_nat n) ltac:(lia)) as Hmono.
  set (di := Zdigits2 (Z.of_nat i)) in *. set (dn := Zdigits2 (Z.of_nat n)) in *.
  set (mx := Z.of_nat i * 2 ^ (53 - di)) in *. set (my := Z.of_nat n * 2 ^ (53 - dn)) in *.
  eapply (rounds_to_monotone _ _ (mx * 2 ^ 53) ((2 ^ 53 - 1) * my * 2 ^ (dn - di)) my
            (di - 53 - (dn - 53) - 53) (di - 53 - (dn - 53) - 53)).
  - lia.
  - lia.
  - rewrite Z.sub_diag. change (2 ^ 0) with 1. rewrite Z.mul_1_r.
    subst mx my.
    assert (2 ^ (53 - dn) * 2 ^ (dn - di) = 2 ^ (53 - di)) as HA
      by (rewrite <- Z.pow_add_r by lia; f_equal; lia).
    assert (0 < 2 ^ (53 - di)) by (apply Z.pow_pos_nonneg; lia).
    replace ((2 ^ 53 - 1) * (Z.of_nat n * 2 ^ (53 - dn)) * 2 ^ (dn - di))
      with ((2 ^ 53 - 1) * Z.of_nat n * 2 ^ (53 - di)) by (rewrite <- HA; ring).
    nia.
  - replace mx with (Z.pos (Z.to_pos mx)) at 2 by (rewrite Z2Pos.id; lia).
    replace my with (Z.pos (Z.to_pos my)) at 2 by (rewrite Z2Pos.id; lia).
    apply truediv_rounds_to; rewrite ?Z2Pos.id; lia.
  - exists (Z.to_pos (2 ^ 53 - 1)), (dn - di). split_and!.
    + unfold below_one. f_equal. lia.
    + done.
    + done.
    + lia.
    + change (Z.pos (Z.to_pos (2 ^ 53 - 1))) with (2 ^ 53 - 1).
      assert (0 < 2 ^ (dn - di)) by (apply Z.pow_pos_nonneg; lia).
      assert (0 < my * 2 ^ (dn - di)) by nia.
      rewrite <- !(Z.mul_assoc _ my). lia.
    + intros _. change (Z.pos (Z.to_pos (2 ^ 53 - 1))) with (2 ^ 53 - 1).
      assert (0 < 2 ^ (dn - di)) by (apply Z.pow_pos_nonneg; lia).
      assert (0 < my * 2 ^ (dn - di)) by nia.
      rewrite <- !(Z.mul_assoc _ my). lia.
    + intros E. by vm_compute in E.
Qed.

(** The value [int((i / n) * 100)] for an index below [n]. *)
Lemma percent_range i n value :
  (i < n)%nat → Z.of_nat n < 2 ^ 53 →
  ConversionWorker.percent i n = Ret value → 0 ≤ value ≤ 99.
Proof.
  intros Hin Hb. unfold ConversionWorker.percent.
  destruct n as [|n']; [lia|]. set (n := S n') in *.
  pose proof (of_nat_normal n ltac:(lia) Hb) as Hy.
  pose proof (of_nat_normal 100 ltac:(lia) ltac:(done)) as Hc.
  destruct i as [|i'].
  { destruct Hy as (my & ey & -> & _), Hc as (mc & ec & -> & _).
    change (pyfloat.of_nat 0) with (S754_zero false). cbn. intros [= <-]. lia. }
  set (i := S i') in *.
  pose proof (of_nat_normal i ltac:(lia) ltac:(lia)) as Hx.
  pose proof (truediv_normal _ _ (-52) 1 (-52) 1
                ltac:(lia) ltac:(lia) ltac:(lia) ltac:(lia) Hx Hy) as Hq.
  pose proof (mul_normal _ _ (-52 - 1 - 53) (1 - -52 - 51) (-52) 1
                ltac:(lia) ltac:(lia) ltac:(lia) ltac:(lia) Hq Hc) as Hp.
  assert (∀ lo hi x, -400 ≤ lo → hi ≤ 400 → normal lo hi x → normal (-400) 400 x) as Hw.
  { intros lo hi x ? ? (m & e & -> & ? & ?). exists m, e. split; [done|lia]. }
  assert (normal (-400) 400 below_one) as Hone.
  { exists (Z.to_pos (2 ^ 53 - 1)), (-53). split; [done|]. by vm_compute. }
  destruct (pyfloat.to_int (pyfloat.mul
              (pyfloat.truediv (pyfloat.of_nat i) (pyfloat.of_nat n)) (pyfloat.of_nat 100)))
    as [a|] eqn:Ha; [|done].
  intros [= <-].
  eapply (to_int_monotone _ (pyfloat.mul below_one (pyfloat.of_nat 100)));
    [by eapply Hw; [..|exact Hp]| | |exact Ha|by vm_compute].
  - eexists _, _. split; [by vm_compute|]. by vm_compute.
  - apply mul_monotone;
      [by eapply Hw; [..|exact Hq]|done|by eapply Hw; [..|exact Hc]|].
    apply truediv_below_one; lia.
Qed.

End progress_range.

Section orchestrator_more.
Import PyStr runtime batch ConversionWorker.
Variable converter_convert :
  string → string → string → gmap string pyval → M filesystem event bool.
Variable output_format output_dir : string.
Variable options : gmap string pyval.

Local Abbreviation run := (ConversionWorker.run converter_convert output_format output_dir options).
Local Abbreviation rounds := (batch.rounds converter_convert output_format output_dir options).


Lemma rounds_progress_range total_files i files fs evs fs' :
  (i + length files ≤ total_files)%nat → (Z.of_nat total_files < 2 ^ 53)%Z →
  rounds total_files i files fs evs fs' →
  Forall (λ v, 0 ≤ v ≤ 99)%Z (progress_values evs).
Proof.
  intros Hi Hb Hr. revert Hi.
  induction Hr as [|i f files v r cevs evs fs fs1 fs' Hv Hc _ IH]; intros Hi; [constructor|].
  cbn [length] in Hi.
  pose proof (percent_range i total_files v ltac:(lia) Hb Hv) as Hrange.
  rewrite progress_values_app. apply Forall_app. split; [|apply IH; lia].
  destruct r; cbn; repeat constructor; lia.
Qed.


(** X15: every value a run sends to the progress bar lies between 0 and
    99, for every converter, batch (of fewer than [2^53] files) and file
    system: the bar is never asked to show a value outside its range, nor
    100 before the run is over. *)
Theorem run_progress_range (input_files : list string) (fs : filesystem) :
  (Z.of_nat (length input_files) < 2 ^ 53)%Z →
  ∃ fs' evs,
    run input_files fs = (Ret tt, fs', evs)
    ∧ Forall (λ v, 0 ≤ v ≤ 99)%Z (progress_values evs).
Proof.
  intros Hb.
  destruct (run_rounds converter_convert output_format output_dir options input_files fs Hb)
    as (fs' & evs & _ & Hrun & Hrounds).
  eexists _, _. split; [exact Hrun|].
  rewrite progress_values_app. cbn [progress_values summary]. rewrite List.app_nil_r.
  eapply rounds_progress_range; [|done..]. lia.
Qed.

End orchestrator_more.

Section orchestrator_more_examples.
Import PyStr runtime batch ConversionWorker.

Lemma run_progress_range_witness :
  (Z.of_nat (length samples.fifty_files) < 2 ^ 53)%Z
  ∧ ∃ fs' evs,
      ConversionWorker.run samples.png_only "jpg" "/out" ∅ samples.fifty_files ∅
        = (Ret tt, fs', evs)
      ∧ Forall (λ v, 0 ≤ v ≤ 99)%Z (progress_values evs).
Proof.
  split; [done|].
  apply (run_progress_range samples.png_only "jpg" "/out" ∅ samples.fifty_files ∅). done.
Defined.



End orchestrator_more_examples.

Section window.
Import PyStr runtime file_utils.

Lemma init_returns : ∃ w, gui.FileConverterApp__init__ = Ret w.
Proof.
  let r := eval vm_compute in gui.FileConverterApp__init__ in
  match r with Ret ?w => exists w end.
  vm_compute. reflexivity.
Qed.

(** X17: the format box as [create_conversion_options_section] builds it.
    The window comes up with PNG selected; the four rows the code disables
    by their index (0, 8, 15, 25) are exactly the four headings, which the
    dispatcher knows no converter for; every other row, read as
    [start_conversion] reads it (lower-cased), is dispatched to a converter
    that lists it among its output formats. *)
Theorem format_combo_rows :
  ∃ w, gui.FileConverterApp__init__ = Ret w
       ∧ gui.currentText (gui.format_combo w) = "PNG"
       ∧ ∀ i text, gui.items (gui.format_combo w) !! i = Some text →
           (i ∈ gui.disabled_items (gui.format_combo w)
            ∧ FileConverterApp.get_converter_for_format (lower text) = None)
           ∨ ((i ∉ gui.disabled_items (gui.format_combo w))
              ∧ ∃ c, FileConverterApp.get_converter_for_format (lower text) = Some c
                     ∧ lower text ∈ supported_outputs c).
Proof.
  let r := eval vm_compute in gui.FileConverterApp__init__ in
  match r with Ret ?w => exists w end.
  split; [vm_compute; reflexivity|]. split; [vm_compute; reflexivity|].
  cbn [gui.format_combo gui.items gui.disabled_items].
  intros i text H.
  do 31 (destruct i as [|i];
         [injection H as <-;
          first [ left; split;
                  [apply (bool_decide_unpack _); vm_compute; exact I
                  |vm_compute; reflexivity]
                | right; split;
                  [apply (bool_decide_eq_false_1 _); vm_compute; reflexivity|];
                  eexists; split;
                  [vm_compute; reflexivity
                  |apply elem_of_compute; vm_compute; reflexivity] ]
         |]).
  discriminate H.
Qed.

Lemma consistent_update_convert_button_state w :
  consistent w → consistent (gui.update_convert_button_state w).
Proof. by intros (? & ? & ?). Qed.

Lemma consistent_add_file w file_path : consistent w → consistent (gui.add_file w file_path).
Proof.
  intros (Hnd & Hlist & Hdir). unfold gui.add_file.
  case_bool_decide as Hin; [|done]. split_and!; cbn.
  - apply NoDup_app. split_and!; [done| |apply NoDup_singleton].
    intros x Hx Hx'. apply list_elem_of_singleton in Hx'. by subst x.
  - by rewrite fmap_app, Hlist.
  - done.
Qed.

Lemma consistent_foldl_add_file file_paths w :
  consistent w → consistent (foldl gui.add_file w file_paths).
Proof.
  revert w. induction file_paths as [|p l IH]; intros w Hw; [done|].
  cbn [foldl]. by apply IH, consistent_add_file.
Qed.

Lemma consistent_add_files_to_list file_paths w :
  consistent w → consistent (gui.add_files_to_list file_paths w).
Proof.
  intros Hw. by apply consistent_update_convert_button_state, consistent_foldl_add_file.
Qed.

Lemma dropped_files_returns urls file_paths fs :
  ∃ result evs,
    gui.dropped_files urls file_paths fs = (Ret result, fs, evs)
    ∧ ∀ p, p ∈ result ↔
           p ∈ file_paths
           ∨ (p ∈ urls ∧ ∃ readable content, fs !! p = Some (RegularFile readable content)).
Proof.
  revert file_paths. induction urls as [|u urls IH]; intros file_paths.
  - exists file_paths, []. split; [done|]. intros p. split; [by left|].
    intros [?|[H _]]; [done|]. by apply elem_of_nil in H.
  - cbn [gui.dropped_files]. rewrite bind_unfold.
    unfold gui.system, os_path_isfile.
    destruct (IH (if match fs !! u with Some (RegularFile _ _) => true | _ => false end
                  then file_paths ++ [u] else file_paths)) as (result & evs & -> & Hres).
    eexists _, _. split; [reflexivity|]. intros p. rewrite Hres, elem_of_cons.
    destruct (fs !! u) as [[|readable content]|] eqn:Eu.
    + split; [intros [?|[? ?]]; [by left|right; split; [by right|done]]|].
      intros [?|[[ -> | ? ] (r & c & Hp)]]; [by left|congruence|right; eauto].
    + rewrite elem_of_app, list_elem_of_singleton. split.
      * intros [[ ? | -> ]|[? ?]]; [by left|right; split; [by left|eauto]|].
        right; split; [by right|done].
      * intros [?|[[ -> | ? ] ?]]; [by left; left|by left; right|by right].
    + split; [intros [?|[? ?]]; [by left|right; split; [by right|done]]|].
      intros [?|[[ -> | ? ] (r & c & Hp)]]; [by left|congruence|right; eauto].
Qed.

Lemma add_file_present w file_path :
  file_path ∈ gui.input_files w → gui.add_file w file_path = w.
Proof. intros H. unfold gui.add_file. by rewrite bool_decide_false by (by intros ?). Qed.

Lemma foldl_add_file_present file_paths w :
  (∀ p, p ∈ file_paths → p ∈ gui.input_files w) → foldl gui.add_file w file_paths = w.
Proof.
  induction file_paths as [|p l IH]; intros H; [done|].
  cbn [foldl]. rewrite add_file_present by (apply H; by left).
  apply IH. intros q Hq. apply H. by right.
Qed.

Lemma foldl_add_file_input_files file_paths w :
  (∃ added, gui.input_files (foldl gui.add_file w file_paths) = gui.input_files w ++ added)
  ∧ ∀ p, p ∈ gui.input_files (foldl gui.add_file w file_paths)
         ↔ p ∈ gui.input_files w ∨ p ∈ file_paths.
Proof.
  revert w. induction file_paths as [|q l IH]; intros w.
  - split; [exists []; by rewrite List.app_nil_r|].
    intros p. split; [by left|]. intros [?|H]; [done|]. by apply elem_of_nil in H.
  - cbn [foldl]. destruct (IH (gui.add_file w q)) as [[added Hadd] Hmem].
    assert (∃ one, gui.input_files (gui.add_file w q) = gui.input_files w ++ one
                   ∧ ∀ p, p ∈ gui.input_files (gui.add_file w q)
                          ↔ p ∈ gui.input_files w ∨ p = q) as (one & Hone & Hq).
    { unfold gui.add_file. case_bool_decide as Hin.
      - exists [q]. split; [done|]. intros p. cbn.
        by rewrite elem_of_app, list_elem_of_singleton.
      - exists []. split; [by rewrite List.app_nil_r|]. intros p.
        split; [by left|]. intros [ ? | -> ]; [done|].
        by destruct (decide (q ∈ gui.input_files w)). }
    split.
    + exists (one ++ added). by rewrite Hadd, Hone, List.app_assoc.
    + intros p. rewrite Hmem, Hq, elem_of_cons. tauto.
Qed.

(** X18: [add_files_to_list] extends the list of input files at its end:
    the files that were there stay where they are, a path is in the list
    afterwards exactly when it was there or is among the paths given, a
    list without duplicates stays without duplicates (a path given twice,
    or already present, is not added again), adding the same paths a
    second time changes nothing, and the Convert button is enabled exactly
    when there is a file and an output directory. *)
Theorem add_files_to_list_extends (file_paths : list string) (w : gui.window) :
  let w' := gui.add_files_to_list file_paths w in
  (∃ added, gui.input_files w' = gui.input_files w ++ added)
  ∧ (∀ p, p ∈ gui.input_files w' ↔ p ∈ gui.input_files w ∨ p ∈ file_paths)
  ∧ (NoDup (gui.input_files w) → NoDup (gui.input_files w'))
  ∧ gui.add_files_to_list file_paths w' = w'
  ∧ gui.button_enabled (gui.convert_btn w')
    = bool_decide (gui.input_files w' ≠ []) && negb (String.eqb (gui.output_directory w') "").
Proof.
  intros w'. destruct (foldl_add_file_input_files file_paths w) as [Hpre Hmem].
  split_and!; [exact Hpre|exact Hmem| | |].
  - intros Hnd.
    assert (∀ l v, NoDup (gui.input_files v) → NoDup (gui.input_files (foldl gui.add_file v l)))
      as Hall.
    { induction l as [|q l IH]; intros v Hv; [done|]. cbn [foldl]. apply IH.
      unfold gui.add_file. case_bool_decide as Hin; [|done]. cbn.
      apply NoDup_app. split_and!; [done| |apply NoDup_singleton].
      intros x Hx Hx'. apply list_elem_of_singleton in Hx'. by subst x. }
    by apply Hall.
  - subst w'. unfold gui.add_files_to_list.
    rewrite (foldl_add_file_present file_paths (gui.update_convert_button_state _)).
    + by destruct (foldl gui.add_file w file_paths).
    + intros p Hp. apply (proj2 (Hmem p)). by right.
  - subst w'. unfold gui.add_files_to_list, gui.update_convert_button_state. cbn.
    f_equal. destruct (gui.input_files (foldl gui.add_file w file_paths)) as [|x l].
    + rewrite bool_decide_false by (cbn; lia). by rewrite bool_decide_false by (by intros ?).
    + rewrite bool_decide_true by (cbn; lia). by rewrite bool_decide_true.
Qed.

(** X19: a drop adds regular files only. [dropEvent] never raises and
    leaves the file system alone; afterwards the list of input files is the
    old list followed by new entries, and a path is in it exactly when it
    was there or is one of the dropped paths that names a regular file:
    directories and paths that do not exist are ignored. *)
Theorem dropEvent_regular_files (urls : list string) (w : gui.window) (fs : filesystem) :
  ∃ w' evs,
    gui.dropEvent urls w fs = (Ret w', fs, evs)
    ∧ (∃ added, gui.input_files w' = gui.input_files w ++ added)
    ∧ ∀ p, p ∈ gui.input_files w'
           ↔ p ∈ gui.input_files w
             ∨ (p ∈ urls ∧ ∃ readable content, fs !! p = Some (RegularFile readable content)).
Proof.
  unfold gui.dropEvent. rewrite bind_unfold.
  destruct (dropped_files_returns urls [] fs) as (file_paths & evs & -> & Hres).
  assert (∀ p, p ∈ file_paths ↔
               p ∈ urls ∧ ∃ readable content, fs !! p = Some (RegularFile readable content))
    as Hres'.
  { intros p. rewrite Hres. split; [intros [H|?]; [by apply elem_of_nil in H|done]|by right]. }
  destruct file_paths as [|q l].
  - exists w, (evs ++ []). split; [done|]. split; [exists []; by rewrite List.app_nil_r|].
    intros p. split; [by left|]. intros [?|H]; [done|].
    apply Hres' in H. by apply elem_of_nil in H.
  - exists (gui.add_files_to_list (q :: l) w), (evs ++ []). split; [done|].
    destruct (foldl_add_file_input_files (q :: l) w) as [Hpre Hmem].
    split; [exact Hpre|]. intros p.
    change (gui.input_files (gui.add_files_to_list (q :: l) w))
      with (gui.input_files (foldl gui.add_file w (q :: l))).
    by rewrite Hmem, Hres'.
Qed.

Lemma create_directory_returns (P : platform) (directory : string) (fs : filesystem) :
  ∃ b fs' evs, create_directory_if_not_exists P directory fs = (Ret b, fs', evs).
Proof.
  unfold create_directory_if_not_exists, try_except.
  rewrite bind_unfold, os_path_exists_unfold.
  destruct (bool_decide (is_Some (fs !! directory))); cbn [negb]; [by eexists _, _, _|].
  rewrite !bind_unfold. unfold call_extern.
  destruct (extern P (Call "os.makedirs" [VStr directory] []) fs) as [[v|e] fs'];
    by eexists _, _, _.
Qed.

(** What [start_conversion] does once there are files and an output
    directory. *)
Lemma start_conversion_unfold (P : platform) (w : gui.window) (fs : filesystem) :
  gui.input_files w ≠ [] → gui.output_directory w ≠ "" →
  ∃ b fs' evs,
    create_directory_if_not_exists P (gui.output_directory w) fs = (Ret b, fs', evs)
    ∧ gui.start_conversion P w fs =
      let output_format := lower (gui.currentText (gui.format_combo w)) in
      match FileConverterApp.get_converter_for_format output_format with
      | None =>
          (Ret w, fs',
           (gui.System <$> evs)
           ++ [gui.MessageBox "warning" "Error"
                 ("No converter available for " +:+ output_format +:+ " format")])
      | Some c =>
          let t :=
            worker.new c (gui.input_files w) output_format (gui.output_directory w)
              (<["overwrite" := VBool (gui.isChecked (gui.overwrite_existing w))]>
                 (<["maintain_aspect_ratio" :=
                      VBool (gui.isChecked (gui.maintain_aspect_ratio w))]>
                    (<["quality" := VStr (lower (gui.currentText (gui.quality_combo w)))]>
                       ∅))) in
          (Ret (gui.set_ui_enabled false (gui.with_thread (Some t) w)), fs',
           (gui.System <$> evs) ++ [gui.Start t])
      end.
Proof.
  intros Hfiles Hdir.
  destruct (create_directory_returns P (gui.output_directory w) fs) as (b & fs' & evs & Hc).
  exists b, fs', evs. split; [done|]. unfold gui.start_conversion.
  destruct (gui.input_files w) as [|f l] eqn:Ef; [done|]. rewrite <- Ef.
  rewrite (proj2 (String.eqb_neq _ _) Hdir).
  cbv zeta. rewrite bind_unfold. unfold gui.system at 1. rewrite Hc.
  destruct (FileConverterApp.get_converter_for_format
              (lower (gui.currentText (gui.format_combo w)))) as [c|].
  - unfold gui.ConversionWorker__init__.
    rewrite bool_decide_false; [reflexivity|].
    rewrite map_size_empty_iff. apply insert_non_empty.
  - reflexivity.
Qed.

Lemma start_conversion_cases (P : platform) (w : gui.window) (fs : filesystem) :
  ∃ w' fs' evs,
    gui.start_conversion P w fs = (Ret w', fs', evs)
    ∧ (w' = w ∨ ∃ t, w' = gui.set_ui_enabled false (gui.with_thread (Some t) w)).
Proof.
  destruct (decide (gui.input_files w = [])) as [E|Hfiles].
  { unfold gui.start_conversion. rewrite E. eexists _, _, _. split; [reflexivity|by left]. }
  destruct (decide (gui.output_directory w = "")) as [E|Hdir].
  { unfold gui.start_conversion. rewrite E.
    destruct (gui.input_files w); [done|].
    eexists _, _, _. split; [reflexivity|by left]. }
  destruct (start_conversion_unfold P w fs Hfiles Hdir) as (b & fs' & evs & _ & ->).
  cbv zeta.
  destruct (FileConverterApp.get_converter_for_format _) as [c|];
    eexists _, _, _; (split; [reflexivity|]); [right; by eexists|by left].
Qed.

(** X20: the three lists of the window stay in step. In every window the
    program can reach from the initial one, by whatever sequence of file
    dialogs, drops, clicks and signals, the list of input files holds no
    path twice, the list widget shows exactly the file names of these paths
    in the same order, and the line edit shows the output directory. *)
Theorem reachable_consistent (P : platform) (w : gui.window) :
  reachable P w → consistent w.
Proof.
  induction 1 as [w Hinit|w w' _ IH Hstep].
  - vm_compute in Hinit. injection Hinit as <-.
    split_and!; [apply NoDup_nil_2|done|done].
  - destruct Hstep as [file_paths w|w|directory w|urls w fs w' fs' evs Hdrop
                      |w fs w' fs' evs Hstart|value message w|success message w].
    + destruct file_paths; [done|]. by apply consistent_add_files_to_list.
    + split_and!; [apply NoDup_nil_2|done|]. by destruct IH as (_ & _ & ?).
    + unfold gui.browse_output_directory. destruct (negb _); [|done].
      destruct IH as (? & ? & _). by split_and!.
    + unfold gui.dropEvent in Hdrop. rewrite bind_unfold in Hdrop.
      destruct (dropped_files_returns urls [] fs) as (file_paths & evs0 & E & _).
      rewrite E in Hdrop. destruct file_paths; injection Hdrop as <- _ _; [done|].
      by apply consistent_add_files_to_list.
    + destruct (start_conversion_cases P w fs) as (w0 & fs0 & evs0 & E & Hw).
      rewrite E in Hstart. injection Hstart as <- _ _.
      destruct Hw as [->|[t ->]]; [done|]. by destruct IH as (? & ? & ?).
    + by destruct IH as (? & ? & ?).
    + by destruct IH as (? & ? & ?).
Qed.

Lemma reachable_consistent_witness :
  ∃ w w', gui.FileConverterApp__init__ = Ret w
          ∧ w' = gui.add_files ["/in/a.png"; "/in/a.png"; "/other/a.png"] w
          ∧ gui.input_files w' = ["/in/a.png"; "/other/a.png"]
          ∧ gui.file_list w' = ["a.png"; "a.png"]
          ∧ consistent w'.
Proof.
  destruct init_returns as (w & Hw).
  exists w, (gui.add_files ["/in/a.png"; "/in/a.png"; "/other/a.png"] w).
  split; [done|]. split; [done|].
  assert (reachable samples.quiet
            (gui.add_files ["/in/a.png"; "/in/a.png"; "/other/a.png"] w)) as Hr.
  { eapply reachable_step; [by apply reachable_init|constructor]. }
  vm_compute in Hw. injection Hw as <-.
  split; [by vm_compute|]. split; [by vm_compute|].
  exact (reachable_consistent samples.quiet _ Hr).
Defined.

(** X21: a click on Convert without input files, or without an output
    directory, does nothing but show one warning: the window is as before,
    the file system is neither asked nor changed (no directory is created),
    and no worker is started. The message names the missing part, the
    files first. *)
Theorem start_conversion_guard (P : platform) (w : gui.window) (fs : filesystem) :
  gui.input_files w = [] ∨ gui.output_directory w = "" →
  gui.start_conversion P w fs =
  (Ret w, fs,
   [gui.MessageBox "warning" "Error"
      (match gui.input_files w with
       | [] => "No input files selected"
       | _ => "No output directory selected"
       end)]).
Proof.
  unfold gui.start_conversion. intros [E|E].
  - by rewrite E.
  - destruct (gui.input_files w); [done|]. by rewrite E.
Qed.

Lemma start_conversion_guard_witness :
  ∃ w, gui.FileConverterApp__init__ = Ret w
       ∧ gui.button_enabled (gui.convert_btn w) = true
       ∧ (gui.input_files w = [] ∨ gui.output_directory w = "")
       ∧ gui.start_conversion samples.broken w ∅ =
         (Ret w, ∅, [gui.MessageBox "warning" "Error" "No input files selected"]).
Proof.
  destruct init_returns as (w & Hw). exists w. split; [done|].
  vm_compute in Hw. injection Hw as <-.
  match goal with
  | |- _ ∧ (?h) ∧ _ => assert h as H by (by left)
  end.
  split; [done|]. split; [exact H|].
  exact (start_conversion_guard samples.broken _ ∅ H).
Defined.

Lemma deliver_app evs1 evs2 w :
  gui.deliver (evs1 ++ evs2) w =
  let '(w1, shown1) := gui.deliver evs1 w in
  let '(w2, shown2) := gui.deliver evs2 w1 in
  (w2, shown1 ++ shown2).
Proof.
  revert w. induction evs1 as [|[s|f r cevs] evs1 IH]; intros w; cbn [gui.deliver app].
  - by destruct (gui.deliver evs2 w).
  - destruct (gui.slot s w) as [w1 shown1]. rewrite IH.
    destruct (gui.deliver evs1 w1) as [w2 shown2].
    destruct (gui.deliver evs2 w2) as [w3 shown3]. by rewrite List.app_assoc.
  - apply IH.
Qed.

Lemma with_status_same w : gui.with_status (gui.progress_bar w) (gui.status_label w) w = w.
Proof. by destruct w. Qed.

(** The progress signals of the loop change the bar and the label only and
    show nothing. *)
Lemma deliver_rounds cc output_format output_dir options total_files i files fs evs fs' w :
  batch.rounds cc output_format output_dir options total_files i files fs evs fs' →
  ∃ value message, gui.deliver evs w = (gui.with_status value message w, []).
Proof.
  intros Hr. revert w.
  induction Hr as [|i f files v r cevs evs fs fs1 fs' Hv Hc _ IH]; intros w.
  - exists (gui.progress_bar w), (gui.status_label w). by rewrite with_status_same.
  - rewrite deliver_app.
    assert (∃ value message,
              gui.deliver (batch.round_events v f r cevs) w
              = (gui.with_status value message w, [])) as (v1 & m1 & ->).
    { destruct r; cbn; eexists _, _; reflexivity. }
    destruct (IH (gui.with_status v1 m1 w)) as (v2 & m2 & ->).
    by exists v2, m2.
Qed.

(** X22: a conversion from click to completion, when no other handler
    runs in between. With input files (fewer than [2^53]), an output
    directory and a format the dispatcher knows, [start_conversion] starts
    a worker for the dispatched converter on the files and the directory of
    the window and disables the widgets; the worker's run calls [convert]
    on every file in order; and once its signals have been delivered the
    window is the one before the click with the bar at 100, the status
    ["Converted K of N files successfully"] ([K] the number of [True]
    answers), the widgets enabled again, and one message box: the
    information box when [K = N], the warning box otherwise. *)
Theorem conversion_round_trip (P : platform) (w : gui.window) (fs : filesystem)
    (c : converter) :
  gui.input_files w ≠ [] → gui.output_directory w ≠ "" →
  FileConverterApp.get_converter_for_format (lower (gui.currentText (gui.format_combo w)))
    = Some c →
  (Z.of_nat (length (gui.input_files w)) < 2 ^ 53)%Z →
  ∃ w1 fs1 evs1 t,
    gui.start_conversion P w fs = (Ret w1, fs1, evs1 ++ [gui.Start t])
    ∧ worker.converter t = c
    ∧ worker.input_files t = gui.input_files w
    ∧ worker.output_dir t = gui.output_directory w
    ∧ w1 = gui.set_ui_enabled false (gui.with_thread (Some t) w)
    ∧ ∃ fs2 evs,
        gui.run P t fs1 = (Ret tt, fs2, evs)
        ∧ batch.attempted evs = gui.input_files w
        ∧ let K := batch.returned true evs in
          let N := length (gui.input_files w) in
          let message := "Converted " +:+ str_of_nat K +:+ " of " +:+ str_of_nat N
                         +:+ " files successfully" in
          gui.deliver evs w1 =
          (gui.set_ui_enabled true
             (gui.with_status 100 message (gui.with_thread (Some t) w)),
           [if bool_decide (K = N)
            then gui.MessageBox "information" "Conversion Complete" message
            else gui.MessageBox "warning" "Conversion Completed with Errors" message]).
Proof.
  intros Hfiles Hdir Hconv Hb.
  destruct (start_conversion_unfold P w fs Hfiles Hdir) as (b & fs1 & evs1 & _ & Hstart).
  cbv zeta in Hstart. rewrite Hconv in Hstart.
  eexists _, fs1, _, _. split; [exact Hstart|]. split_and!; [done..|].
  unfold gui.run. cbn [worker.converter worker.output_format worker.output_dir
                        worker.options worker.input_files].
  match goal with
  | |- context [ConversionWorker.run ?cc ?f ?d ?o _ _] =>
      destruct (run_rounds cc f d o (gui.input_files w) fs1 Hb)
        as (fs2 & evs & _ & Hrun & Hrounds)
  end.
  eexists fs2, _. split; [exact Hrun|].
  rewrite attempted_app, returned_app. cbn [batch.attempted batch.returned batch.summary].
  rewrite List.app_nil_r, Nat.add_0_r. split; [by eapply rounds_attempted|].
  cbv zeta. rewrite deliver_app.
  match goal with
  | |- context [gui.deliver evs ?w1] =>
      destruct (deliver_rounds _ _ _ _ _ _ _ _ _ _ w1 Hrounds) as (value & message & ->)
  end.
  cbn [gui.deliver gui.slot]. unfold gui.conversion_finished, gui.setValue.
  cbn [Z.leb Z.compare andb app]. by destruct w.
Qed.

Lemma conversion_round_trip_witness :
  ∃ w0, gui.FileConverterApp__init__ = Ret w0
  ∧ let w := gui.browse_output_directory "/out"
               (gui.add_files ["/in/a.png"; "/in/b.txt"] w0) in
    let fs : filesystem := {[ "/out" := Directory ]} in
    gui.input_files w ≠ [] ∧ gui.output_directory w ≠ ""
    ∧ FileConverterApp.get_converter_for_format
        (lower (gui.currentText (gui.format_combo w))) = Some image_converter
    ∧ ∃ w1 fs1 evs1 t,
        gui.start_conversion samples.quiet w fs = (Ret w1, fs1, evs1 ++ [gui.Start t])
        ∧ worker.converter t = image_converter
        ∧ ∃ fs2 evs,
            gui.run samples.quiet t fs1 = (Ret tt, fs2, evs)
            ∧ batch.attempted evs = ["/in/a.png"; "/in/b.txt"].
Proof.
  destruct init_returns as (w0 & Hw). exists w0. split; [done|].
  vm_compute in Hw. injection Hw as <-.
  intros w fs0.
  assert (gui.input_files w ≠ []) as H1 by done.
  assert (gui.output_directory w ≠ "") as H2 by done.
  assert (FileConverterApp.get_converter_for_format
            (lower (gui.currentText (gui.format_combo w))) = Some image_converter) as H3
    by (by vm_compute).
  assert (Z.of_nat (length (gui.input_files w)) < 2 ^ 53)%Z as H4 by done.
  split_and!; [done..|].
  destruct (conversion_round_trip samples.quiet w fs0 image_converter H1 H2 H3 H4)
    as (w1 & fs1 & evs1 & t & Hs & Hc & _ & _ & _ & fs2 & evs & Hr & Ha & _).
  exists w1, fs1, evs1, t. split_and!; [done..|]. by exists fs2, evs.
Defined.

End window.

Section office_paths.
Import PyStr runtime file_utils.





End office_paths.

Section office_rename.
Import PyStr runtime file_utils.

























End office_rename.
